(** * A shallow embedding of the DICOM web batch tool

    The first half of the file is the model, the second half the theorems.

    - [Js]         : the string primitives the sources call, among them [btoa];
    - [Processor]  : lib/dicom-processor (processDicomFile, generatePseudonym);
    - [Report]     : lib/report-generator (generateSummary, generateCSVReport);
    - [Csv]        : a reader for the delimited text that [Report] writes;
    - [Dashboard]  : components/metadata-display (createNewJob, startJob,
                     pauseJob, deleteJob, the state they rewrite, and the
                     runs the controls of a job card allow);
    - [Invariant]  : what holds of that state between two events;
    - [Samples]    : the inputs and runs of the examples;
    - [Batch]      : lib/dicom-processor (processBatchFiles);
    - [Routes]     : app/api/dicom/process and app/api/dicom/batch;
    - [Sections]   : the file lists behind the sections of the HTML report;
    - [JobCard]    : components/metadata-display (handleFileUpload,
                     getJobStats, getReportFiles);
    - [Course]     : how requests end, and what holds of the files while
                     jobs are processed.

    JavaScript strings are modelled by [string] (sequences of code units below
    256, the domain on which [btoa] is defined), with one exception: the
    anonymization salt is free text that the user types and that reaches
    [btoa], so it is held as the list of its UTF-16 code units, and [btoa]
    throws when one of them is above 255. JavaScript numbers that only ever
    hold integers are modelled by [Z] or [nat]; the one place where the
    source divides (the job progress percentage) is computed on binary64
    floats, as the engine does. The clock, the random source and the text of
    the exceptions the engine raises are inputs. *)

From Stdlib Require Import ZArith Ascii String List Floats Lia Bool.
From stdpp Require Import gmap strings list fin_maps pretty.

(** ** JavaScript string primitives used by the sources *)

Module Js.

(** [s.slice(0, n)] for [0 <= n]. *)
Definition slice0 (n : nat) (s : string) : string := substring 0 n s.

(** [s.includes(sub)]. *)
Fixpoint includes (s sub : string) : bool :=
  String.prefix sub s ||
  match s with
  | EmptyString => false
  | String _ s' => includes s' sub
  end.

(** [c.toLowerCase()] on one code unit below 256: A-Z, and the Latin-1 capitals
    0xC0-0xDE except the multiplication sign 0xD7, move up by 0x20. *)
Definition lower_char (c : ascii) : ascii :=
  let n := N_of_ascii c in
  if ((65 <=? n) && (n <=? 90))%N then ascii_of_N (n + 32)
  else if ((192 <=? n) && (n <=? 222) && negb (n =? 215))%N then ascii_of_N (n + 32)
  else c.

Fixpoint toLowerCase (s : string) : string :=
  match s with
  | EmptyString => EmptyString
  | String c s' => String (lower_char c) (toLowerCase s')
  end.

(** [l.join(sep)]. *)
Definition join (sep : string) (l : list string) : string := String.concat sep l.

(** Truthiness of an optional string: [undefined] and the empty string are
    falsy, every other string is truthy. [x || d] on such a value. *)
Definition or_default (x : option string) (d : string) : string :=
  match x with
  | None => d
  | Some EmptyString => d
  | Some s => s
  end.

(** *** [btoa]: base64 of a binary string *)

(** A group of six bits, most significant first. *)
Definition sextet : Type := bool * bool * bool * bool * bool * bool.

Definition sextet_index (x : sextet) : nat :=
  let '(b5, b4, b3, b2, b1, b0) := x in
  Nat.b2n b5 * 32 + Nat.b2n b4 * 16 + Nat.b2n b3 * 8
  + Nat.b2n b2 * 4 + Nat.b2n b1 * 2 + Nat.b2n b0.

Definition b64_alphabet : string :=
  "ABCDEFGHIJKLMNOPQRSTUVWXYZabcdefghijklmnopqrstuvwxyz0123456789+/".

Definition b64_pad : ascii := "="%char.

Definition b64_char (x : sextet) : ascii :=
  match String.get (sextet_index x) b64_alphabet with
  | Some c => c
  | None => b64_pad
  end.

(** Three input bytes give four output characters; a final group of one or
    two bytes is zero-filled and padded with [=]. [Ascii] lists the bits of a
    byte least significant first. *)
Fixpoint btoa (s : string) : string :=
  match s with
  | EmptyString => EmptyString
  | String (Ascii a0 a1 a2 a3 a4 a5 a6 a7) EmptyString =>
      String (b64_char (a7, a6, a5, a4, a3, a2))
     (String (b64_char (a1, a0, false, false, false, false))
     (String b64_pad (String b64_pad EmptyString)))
  | String (Ascii a0 a1 a2 a3 a4 a5 a6 a7)
      (String (Ascii b0 b1 b2 b3 b4 b5 b6 b7) EmptyString) =>
      String (b64_char (a7, a6, a5, a4, a3, a2))
     (String (b64_char (a1, a0, b7, b6, b5, b4))
     (String (b64_char (b3, b2, b1, b0, false, false))
     (String b64_pad EmptyString)))
  | String (Ascii a0 a1 a2 a3 a4 a5 a6 a7)
      (String (Ascii b0 b1 b2 b3 b4 b5 b6 b7)
        (String (Ascii c0 c1 c2 c3 c4 c5 c6 c7) rest)) =>
      String (b64_char (a7, a6, a5, a4, a3, a2))
     (String (b64_char (a1, a0, b7, b6, b5, b4))
     (String (b64_char (b3, b2, b1, b0, c7, c6))
     (String (b64_char (c5, c4, c3, c2, c1, c0)) (btoa rest))))
  end.

(** The sextet a base64 character stands for. *)
Definition b64_value (c : ascii) : option sextet :=
  List.find (fun x => Ascii.eqb (b64_char x) c)
    (x5 ← [false; true]; x4 ← [false; true]; x3 ← [false; true];
     x2 ← [false; true]; x1 ← [false; true]; x0 ← [false; true];
     [(x5, x4, x3, x2, x1, x0)]).

(** [s.endsWith(suffix)]. *)
Fixpoint endsWith (s suffix : string) : bool :=
  String.eqb s suffix ||
  match s with
  | EmptyString => false
  | String _ s' => endsWith s' suffix
  end.

(** *** Strings that need not be binary *)

(** The UTF-16 code units of a binary string. *)
Definition codeUnits (s : string) : list N :=
  map N_of_ascii (list_ascii_of_string s).

(** Whether every code unit is below 256. *)
Definition isBinary (units : list N) : bool :=
  forallb (fun unit => (unit <? 256)%N) units.

(** The binary string with the given code units. There is none when a code
    unit is above 255: such a string is what [btoa] throws on. *)
Fixpoint binary (units : list N) : option string :=
  match units with
  | [] => Some EmptyString
  | unit :: rest =>
      if (unit <? 256)%N
      then option_map (String (ascii_of_N unit)) (binary rest)
      else None
  end.

End Js.

(** ** lib/dicom-processor *)

Module Processor.

Record PrivateTag := {
  tag : string;
  group : string;
  element : string;
  keyword : string;
  name : string;
  creator : string;
  value_preview : string
}.

Record DicomMetadata := {
  patient_id : string;
  patient_name : string;
  patient_age : string;
  patient_sex : string;
  modality : string;
  body_part_examined : string;
  study_description : string;
  study_date_time : string;
  phi_removed : string;
  manufacturer : string;
  model : string;
  software_versions : string;
  magnetic_field_strength : string;
  slice_thickness : string;
  pixel_spacing : string;
  rows : string;
  columns : string;
  photometric_interpretation : string;
  study_instance_uid : string;
  series_instance_uid : string;
  transfer_syntax_uid : string;
  number_of_frames : option Z;
  phi_flags : list string;
  urgent : bool;
  urgent_reasons : list string;
  private_tags : list PrivateTag
}.

Inductive AnonymizeMode := pseudonymize | remove.

(** [anonymize_salt] is the text of the salt field of the settings panel, or
    of the posted JSON: any string, given by its UTF-16 code units. *)
Record ProcessingOptions := {
  anonymize : bool;
  anonymize_mode : AnonymizeMode;
  anonymize_tags : option (list string);
  anonymize_salt : option (list N);
  remove_private_tags : bool;
  output_formats : list string
}.

(** The value passed for [options] at run time. The routes pass what
    [JSON.parse] returned: that is [null], or a value whose properties can be
    read. Of such a value the code reads the property [anonymize], for its
    truthiness, and the property [anonymize_salt], in [salt || "default_salt"]
    and then in a string concatenation; [Options o] holds in [anonymize o]
    that truthiness and in [anonymize_salt o] the string into which the
    concatenation turns the property when it is truthy (the property itself
    when it is a string). A number, a string or a boolean has neither
    property, and is [Options o] with [anonymize o] unset. *)
Inductive OptionsValue :=
| Null
| Options (o : ProcessingOptions).

Record ProcessingResult := {
  success : bool;
  metadata : option DicomMetadata;
  error : option string;
  file_path : string;
  processing_time : Z
}.

(** The salt actually hashed: [salt || "default_salt"]. *)
Definition actualSalt (salt : option string) : string :=
  Js.or_default salt "default_salt".

Definition generatePseudonym (value : string) (salt : option string) : string :=
  let hash := Js.slice0 12 (Js.btoa (value +:+ actualSalt salt)) in
  "anon_" +:+ hash.

Definition getModalityFromFileName (fileName : string) : string :=
  let name := Js.toLowerCase fileName in
  if Js.includes name "ct" then "CT"
  else if Js.includes name "mr" || Js.includes name "mri" then "MR"
  else if Js.includes name "us" then "US"
  else if Js.includes name "xr" || Js.includes name "dx" then "DX"
  else "CT".

Definition getBodyPartFromFileName (fileName : string) : string :=
  let name := Js.toLowerCase fileName in
  if Js.includes name "head" || Js.includes name "brain" then "HEAD"
  else if Js.includes name "chest" || Js.includes name "thorax" then "CHEST"
  else if Js.includes name "abdomen" || Js.includes name "pelvis" then "ABDOMEN"
  else "CHEST".

(** [generateUID] reads the clock and the random source; both are inputs. *)
Definition generateUID (now : Z) (rnd : Z) : string :=
  "1.2.840.10008." +:+ pretty now +:+ "." +:+ pretty rnd.

Definition urgentKeywords : list string :=
  ["trauma"; "stroke"; "emergency"; "stat"; "urgent"].

Definition checkUrgency (modality description : string) : bool :=
  existsb (fun keyword => Js.includes (Js.toLowerCase description) keyword) urgentKeywords
  || (String.eqb modality "CT" && Js.includes (Js.toLowerCase description) "head").

(** What [processDicomFile] reads from its surroundings: the clock at entry
    and at exit, the ISO rendering of the clock, the two draws behind the
    study and series UIDs ([Math.floor (Math.random () * 1000000)]), and the
    [message] of the exception that the engine raises inside the [try] block
    when it raises one (the text is the engine's own). *)
Record Env := {
  startTime : Z;
  isoNow : string;
  uidNow1 : Z;
  uidRnd1 : Z;
  uidNow2 : Z;
  uidRnd2 : Z;
  endTime : Z;
  thrownMessage : string
}.

(** The call [generatePseudonym (value, salt)] for a binary [value] and a
    salt that is free text. A salt that is undefined or empty is replaced by
    the default; [btoa] then throws ([None]) when the salt holds a code unit
    above 255, whatever the value. *)
Definition generatePseudonym_text (value : string) (salt : option (list N))
    : option string :=
  match salt with
  | None => Some (generatePseudonym value None)
  | Some units =>
      option_map (fun s => generatePseudonym value (Some s)) (Js.binary units)
  end.

(** The [catch] branch. What is caught is an exception raised by the engine,
    an instance of [Error], so [error] is its [message]; the result has no
    [metadata]. *)
Definition caught (env : Env) (fileName : string) : ProcessingResult :=
  {| success := false;
     metadata := None;
     error := Some (thrownMessage env);
     file_path := fileName;
     processing_time := endTime env - startTime env |}.

(** The simulated delay only passes time (it is part of [endTime env]).
    Inside the [try] block the one call that can throw, for options that are
    an object, is [btoa], in [generatePseudonym]; it is reached only when
    [options.anonymize] is set. The pseudonym of the patient id is computed
    first; both calls throw on the same salts. *)
Definition processDicomFile (env : Env) (fileBuffer : list Byte.byte)
    (fileName : string) (options : ProcessingOptions) : ProcessingResult :=
  let pseudonym (value : string) : option string :=
    if anonymize options
    then generatePseudonym_text value (anonymize_salt options)
    else Some value in
  match pseudonym "PATIENT_001", pseudonym "John Doe" with
  | Some patientId, Some patientName =>
      let mockMetadata := {|
        patient_id := patientId;
        patient_name := patientName;
        patient_age := "45Y";
        patient_sex := "M";
        modality := getModalityFromFileName fileName;
        body_part_examined := getBodyPartFromFileName fileName;
        study_description := "Routine examination";
        study_date_time := isoNow env;
        phi_removed := if anonymize options then "YES" else "NO";
        manufacturer := "SIEMENS";
        model := "SOMATOM Definition AS";
        software_versions := "syngo CT 2012B";
        magnetic_field_strength := "N/A";
        slice_thickness := "5.0";
        pixel_spacing := "[0.976562, 0.976562]";
        rows := "512";
        columns := "512";
        photometric_interpretation := "MONOCHROME2";
        study_instance_uid := generateUID (uidNow1 env) (uidRnd1 env);
        series_instance_uid := generateUID (uidNow2 env) (uidRnd2 env);
        transfer_syntax_uid := "1.2.840.10008.1.2.1";
        number_of_frames := None;
        phi_flags := if anonymize options then [] else ["PatientName"; "PatientID"];
        urgent := checkUrgency (getModalityFromFileName fileName) "Routine examination";
        urgent_reasons :=
          if checkUrgency (getModalityFromFileName fileName) "Routine examination"
          then ["Routine screening"]
          else [];
        private_tags := []
      |} in
      {| success := true;
         metadata := Some mockMetadata;
         error := None;
         file_path := fileName;
         processing_time := endTime env - startTime env |}
  | _, _ => caught env fileName
  end.

(** [processDicomFile] on the value a route passes for [options]. On [null]
    the first read, [options.anonymize], throws inside the [try] block. *)
Definition processDicomFile_value (env : Env) (fileBuffer : list Byte.byte)
    (fileName : string) (options : OptionsValue) : ProcessingResult :=
  match options with
  | Null => caught env fileName
  | Options o => processDicomFile env fileBuffer fileName o
  end.

(** Whether the salt of the options is a binary string; no salt is one. *)
Definition binarySalt (options : ProcessingOptions) : bool :=
  match anonymize_salt options with
  | None => true
  | Some units => Js.isBinary units
  end.

(** Whether a call with this value for [options] leaves the [try] block
    through its [return]: the value is not [null], and it does not ask for
    anonymization with a salt that is not a binary string. *)
Definition accepted (options : OptionsValue) : bool :=
  match options with
  | Null => false
  | Options o => negb (anonymize o) || binarySalt o
  end.

(** The salt that is hashed under the options, when it is a binary string. *)
Definition saltInEffect (options : ProcessingOptions) : option string :=
  match anonymize_salt options with
  | None => Some (actualSalt None)
  | Some units => option_map (fun s => actualSalt (Some s)) (Js.binary units)
  end.

(** [{ ...o, anonymize_mode: m }] *)
Definition with_mode (m : AnonymizeMode) (o : ProcessingOptions) : ProcessingOptions :=
  {| anonymize := anonymize o;
     anonymize_mode := m;
     anonymize_tags := anonymize_tags o;
     anonymize_salt := anonymize_salt o;
     remove_private_tags := remove_private_tags o;
     output_formats := output_formats o |}.

End Processor.



(** ** lib/report-generator *)

Module Report.

Inductive Status := success | error.

Definition Status_eqb (a b : Status) : bool :=
  match a, b with
  | success, success | error, error => true
  | _, _ => false
  end.

Record ProcessedFileData := {
  fileName : string;
  fileSize : Z;
  metadata : Processor.DicomMetadata;
  processingTime : Z;
  status : Status;
  error_message : option string   (* the field [error] of the source *)
}.

(** *** Plain objects used as counters

    [modalities], [bodyParts] and [manufacturers] start as the literal [{}],
    a plain object whose prototype is [Object.prototype]. The map below holds
    the object's own properties; reads that miss fall through to the
    prototype, and a write to [__proto__] reaches the prototype's setter. *)

(** What a property of such an object can hold at run time: a number, or a
    string that is not a number (the source text of a built-in function, or
    [[object Object]], followed by digits 1). The characters of such a string
    depend on the engine and are not modelled. *)
Inductive JsValue := VNumber (n : nat) | VText.

Inductive JsRead :=
| RUndefined
| ROwn (v : JsValue)
| RBuiltinFunction       (* an inherited method such as [toString] *)
| RObjectPrototype.      (* the value of the inherited accessor [__proto__] *)

(** The function-valued properties of [Object.prototype]. *)
Definition prototype_methods : list string :=
  [ "constructor"; "hasOwnProperty"; "isPrototypeOf"; "propertyIsEnumerable";
    "toLocaleString"; "toString"; "valueOf";
    "__defineGetter__"; "__defineSetter__"; "__lookupGetter__"; "__lookupSetter__" ].

Definition is_prototype_method (k : string) : bool :=
  existsb (String.eqb k) prototype_methods.

(** [o[k]] *)
Definition get (o : gmap string JsValue) (k : string) : JsRead :=
  match o !! k with
  | Some v => ROwn v
  | None =>
      if String.eqb k "__proto__" then RObjectPrototype
      else if is_prototype_method k then RBuiltinFunction
      else RUndefined
  end.

(** [(x || 0) + 1]: [undefined] and [0] are falsy and give [1]; a number
    gives its successor; a function, an object or a string is truthy and [+]
    concatenates its text with the digit 1. *)
Definition or0_plus1 (x : JsRead) : JsValue :=
  match x with
  | RUndefined => VNumber 1
  | ROwn (VNumber n) => VNumber (n + 1)
  | ROwn VText => VText
  | RBuiltinFunction => VText
  | RObjectPrototype => VText
  end.

(** [o[k] = v] for a primitive [v]: the inherited setter of [__proto__]
    ignores a value that is neither an object nor [null]; any other key
    becomes (or updates) an own property. *)
Definition set (o : gmap string JsValue) (k : string) (v : JsValue) : gmap string JsValue :=
  if String.eqb k "__proto__" then o else <[k := v]> o.

(** [o[k] = (o[k] || 0) + 1] *)
Definition count (o : gmap string JsValue) (k : string) : gmap string JsValue :=
  set o k (or0_plus1 (get o k)).

Record ReportSummary := {
  totalFiles : nat;
  successfulFiles : nat;
  failedFiles : nat;
  totalProcessingTime : Z;
  urgentStudies : nat;
  phiDetected : nat;
  anonymizedFiles : nat;
  modalities : gmap string JsValue;
  bodyParts : gmap string JsValue;
  manufacturers : gmap string JsValue
}.

(** The mutable locals of [generateSummary], updated by the [forEach] body. *)
Record Counters := {
  c_modalities : gmap string JsValue;
  c_bodyParts : gmap string JsValue;
  c_manufacturers : gmap string JsValue;
  c_urgentStudies : nat;
  c_phiDetected : nat;
  c_anonymizedFiles : nat
}.

Definition forEach_body (c : Counters) (file : ProcessedFileData) : Counters :=
  let metadata := metadata file in
  {| c_modalities := count (c_modalities c) (Processor.modality metadata);
     c_bodyParts := count (c_bodyParts c) (Processor.body_part_examined metadata);
     c_manufacturers := count (c_manufacturers c) (Processor.manufacturer metadata);
     c_urgentStudies :=
       if Processor.urgent metadata then S (c_urgentStudies c) else c_urgentStudies c;
     c_phiDetected :=
       if (0 <? length (Processor.phi_flags metadata))%nat
       then S (c_phiDetected c) else c_phiDetected c;
     c_anonymizedFiles :=
       if String.eqb (Processor.phi_removed metadata) "YES"
       then S (c_anonymizedFiles c) else c_anonymizedFiles c |}.

Definition generateSummary (files : list ProcessedFileData) : ReportSummary :=
  let successful := List.filter (fun f => Status_eqb (status f) success) files in
  let failed := List.filter (fun f => Status_eqb (status f) error) files in
  let c0 := {| c_modalities := ∅; c_bodyParts := ∅; c_manufacturers := ∅;
               c_urgentStudies := 0; c_phiDetected := 0; c_anonymizedFiles := 0 |} in
  let c := fold_left forEach_body successful c0 in
  {| totalFiles := length files;
     successfulFiles := length successful;
     failedFiles := length failed;
     totalProcessingTime := fold_left (fun sum f => (sum + processingTime f)%Z) files 0%Z;
     urgentStudies := c_urgentStudies c;
     phiDetected := c_phiDetected c;
     anonymizedFiles := c_anonymizedFiles c;
     modalities := c_modalities c;
     bodyParts := c_bodyParts c;
     manufacturers := c_manufacturers c |}.

Record ReportData := {
  files : list ProcessedFileData;
  summary : ReportSummary;
  processingOptions : Processor.ProcessingOptions;
  generatedAt : string;
  reportId : string
}.

(** [generatedAt] and [reportId] come from the clock and the random source. *)
Definition generateReportData (generatedAt reportId : string)
    (files : list ProcessedFileData) (processingOptions : Processor.ProcessingOptions)
    : ReportData :=
  {| files := files;
     summary := generateSummary files;
     processingOptions := processingOptions;
     generatedAt := generatedAt;
     reportId := reportId |}.

(** The sum of the numbers held by a counter object, and whether it holds
    numbers only. *)
Definition value_number (v : JsValue) : nat :=
  match v with VNumber n => n | VText => 0 end.

Definition sum_values (o : gmap string JsValue) : nat :=
  map_fold (fun _ v acc => value_number v + acc) 0 o.

Definition is_number (v : JsValue) : Prop :=
  match v with VNumber _ => True | VText => False end.

(** A key is ordinary when [Object.prototype] has no property of that name. *)
Definition ordinary (k : string) : Prop :=
  String.eqb k "__proto__" = false /\ is_prototype_method k = false.

Definition numbers_only (o : gmap string JsValue) : Prop :=
  map_Forall (fun _ v => is_number v) o.

Definition ordinary_keys (f : ProcessedFileData) : Prop :=
  ordinary (Processor.modality (metadata f)) /\
  ordinary (Processor.body_part_examined (metadata f)) /\
  ordinary (Processor.manufacturer (metadata f)).

(** An outcome whose metadata is what [processDicomFile] returns for some
    file and options. *)
Definition processed (f : ProcessedFileData) : Prop :=
  exists env buf name options,
    Processor.metadata (Processor.processDicomFile env buf name options)
    = Some (metadata f).

Definition counters_ok (n : nat) (c : Counters) : Prop :=
  (numbers_only (c_modalities c) /\ sum_values (c_modalities c) = n) /\
  (numbers_only (c_bodyParts c) /\ sum_values (c_bodyParts c) = n) /\
  (numbers_only (c_manufacturers c) /\ sum_values (c_manufacturers c) = n).

(** *** Delimited text *)

Definition dquote : ascii := ascii_of_nat 34.
Definition comma : ascii := ","%char.
Definition newline : ascii := ascii_of_nat 10.

(** [cell.replace] of every quote character by two of them. *)
Fixpoint escape_quotes (cell : string) : string :=
  match cell with
  | EmptyString => EmptyString
  | String c rest =>
      if Ascii.eqb c dquote
      then String dquote (String dquote (escape_quotes rest))
      else String c (escape_quotes rest)
  end.

Definition quote_cell (cell : string) : string :=
  String dquote (escape_quotes cell +:+ String dquote EmptyString).

Definition status_text (s : Status) : string :=
  match s with success => "success" | error => "error" end.

Definition headers : list string :=
  [ "File Name"; "Status"; "Processing Time (ms)"; "Patient ID"; "Patient Name";
    "Age"; "Sex"; "Modality"; "Body Part"; "Study Description"; "Study Date";
    "Manufacturer"; "Model"; "Urgent"; "PHI Removed"; "PHI Flags" ].

Definition on_success (file : ProcessedFileData) (v : string) : string :=
  if Status_eqb (status file) success then v else EmptyString.

Definition csv_row (file : ProcessedFileData) : list string :=
  let m := metadata file in
  [ fileName file;
    status_text (status file);
    pretty (processingTime file);
    on_success file (Processor.patient_id m);
    on_success file (Processor.patient_name m);
    on_success file (Processor.patient_age m);
    on_success file (Processor.patient_sex m);
    on_success file (Processor.modality m);
    on_success file (Processor.body_part_examined m);
    on_success file (Processor.study_description m);
    on_success file (Processor.study_date_time m);
    on_success file (Processor.manufacturer m);
    on_success file (Processor.model m);
    on_success file (if Processor.urgent m then "YES" else "NO");
    on_success file (Processor.phi_removed m);
    on_success file (Js.join ";" (Processor.phi_flags m)) ].

(** [row.map (cell => ...).join (",")] *)
Definition render_row (row : list string) : string :=
  Js.join (String comma EmptyString) (map quote_cell row).

(** [table.map (row => ...).join ("\n")] *)
Definition render_rows (table : list (list string)) : string :=
  Js.join (String newline EmptyString) (map render_row table).

Definition generateCSVReport (data : ReportData) : string :=
  let rows := map csv_row (files data) in
  render_rows (headers :: rows).

End Report.

(** ** Reading delimited text back

    The sources only write delimited text. The reader below is the usual one
    for such text (RFC 4180): a field is either bare, ending at the next
    comma or line break, or enclosed in quotes, where a doubled quote stands
    for one quote and commas and line breaks are ordinary characters. *)

Module Csv.
Import Report.

Inductive Mode :=
| FieldStart    (* nothing of the field read yet *)
| Bare          (* inside a field that did not open with a quote *)
| Quoted        (* inside a quoted field *)
| QuoteSeen.    (* inside a quoted field, just after a quote *)

(** [rows] are the finished rows, [row] the finished cells of the current
    row, [cell] the characters of the current cell, all in reading order. *)
Fixpoint parse_from (mode : Mode) (rows : list (list string)) (row : list string)
    (cell : string) (input : string) : list (list string) :=
  match input with
  | EmptyString =>
      match mode, row with
      | FieldStart, [] => rows
      | _, _ => rows ++ [row ++ [cell]]
      end
  | String c rest =>
      let add := cell +:+ String c EmptyString in
      match mode with
      | FieldStart =>
          if Ascii.eqb c dquote then parse_from Quoted rows row cell rest
          else if Ascii.eqb c comma then parse_from FieldStart rows (row ++ [cell]) EmptyString rest
          else if Ascii.eqb c newline then parse_from FieldStart (rows ++ [row ++ [cell]]) [] EmptyString rest
          else parse_from Bare rows row add rest
      | Bare =>
          if Ascii.eqb c comma then parse_from FieldStart rows (row ++ [cell]) EmptyString rest
          else if Ascii.eqb c newline then parse_from FieldStart (rows ++ [row ++ [cell]]) [] EmptyString rest
          else parse_from Bare rows row add rest
      | Quoted =>
          if Ascii.eqb c dquote then parse_from QuoteSeen rows row cell rest
          else parse_from Quoted rows row add rest
      | QuoteSeen =>
          if Ascii.eqb c dquote then parse_from Quoted rows row add rest
          else if Ascii.eqb c comma then parse_from FieldStart rows (row ++ [cell]) EmptyString rest
          else if Ascii.eqb c newline then parse_from FieldStart (rows ++ [row ++ [cell]]) [] EmptyString rest
          else parse_from Bare rows row add rest
      end
  end.

Definition parse (input : string) : list (list string) :=
  parse_from FieldStart [] [] EmptyString input.

End Csv.

(** ** components/metadata-display: the batch processing dashboard

    The component keeps its state in [jobs], [activeJobId] and the ref
    [processingController]. [startJob] is an async function: it runs until
    its next [await], is suspended there as a [Task], and is resumed when the
    awaited promise settles. Between two suspension points nothing else runs,
    so every function below is one such uninterrupted stretch. State updates
    [setJobs (prev => ...)] are applied in the order they are issued. The
    clock readings of one stretch are not told apart: a stretch takes one
    [now]. *)

Module Dashboard.

Module FileStatus.
Inductive t := queued | processing | completed | error | paused.

Definition eqb (a b : t) : bool :=
  match a, b with
  | queued, queued | processing, processing | completed, completed
  | error, error | paused, paused => true
  | _, _ => false
  end.
End FileStatus.

Module JobStatus.
Inductive t := idle | running | paused | completed | error.

Definition eqb (a b : t) : bool :=
  match a, b with
  | idle, idle | running, running | paused, paused
  | completed, completed | error, error => true
  | _, _ => false
  end.
End JobStatus.

(** The browser's [File]; the component reads its name and size only. *)
Record File := { file_name : string; file_size : Z }.

Module BatchFile.
Record t := {
  id : string;
  file : File;
  status : FileStatus.t;
  progress : Z;
  metadata : option Processor.DicomMetadata;
  error : option string;
  processingTime : option Z;
  startTime : option Z
}.
End BatchFile.

Module BatchJob.
Record t := {
  id : string;
  name : string;
  files : list BatchFile.t;
  status : JobStatus.t;
  progress : Z;
  startTime : option Z;
  endTime : option Z;
  processingOptions : Processor.ProcessingOptions
}.
End BatchJob.

(** *** Numbers *)

(** The number of elements of an array, as a number (exact below 2^53). *)
Definition number_of_nat (n : nat) : float :=
  PrimFloat.of_uint63 (Uint63.of_Z (Z.of_nat n)).

(** [Math.round]: the integer nearest to [x], ties going up; [None] stands
    for the results that are not integers (NaN and the infinities). A finite
    float is [m * 2^e] for integers [m] and [e]. *)
Definition Math_round (x : float) : option Z :=
  match Prim2SF x with
  | S754_zero _ => Some 0%Z
  | S754_finite sign m e =>
      let v := if sign then Z.neg m else Z.pos m in
      Some (if (0 <=? e)%Z then v * 2 ^ e else (2 * v + 2 ^ (- e)) / 2 ^ (1 - e))%Z
  | S754_infinity _ => None
  | S754_nan => None
  end.

(** [Math.round ((completedFiles / totalFiles) * 100)]. The division is NaN
    only for [0 / 0]; the source evaluates it inside the loop over a
    non-empty sub-list of the files, where [totalFiles] is positive. The
    value [0] below stands for that unreachable NaN. *)
Definition jobProgressOf (completedFiles totalFiles : nat) : Z :=
  match Math_round (number_of_nat completedFiles / number_of_nat totalFiles * 100)%float with
  | Some z => z
  | None => 0%Z
  end.

(** *** Component state *)

Record State := {
  jobs : list BatchJob.t;
  activeJobId : option string;
  (** the [aborted] flag of every [AbortController] created so far *)
  controllers : list bool;
  (** [processingController.current]: a position in [controllers], or null *)
  processingController : option nat;
  (** the live [setInterval] timers: handle, job id and file id they update *)
  intervals : list (nat * (string * string));
  nextInterval : nat
}.

Definition initial : State :=
  {| jobs := []; activeJobId := None; controllers := []; processingController := None;
     intervals := []; nextInterval := 0 |}.

Definition setJobs (f : list BatchJob.t -> list BatchJob.t) (s : State) : State :=
  {| jobs := f (jobs s);
     activeJobId := activeJobId s;
     controllers := controllers s;
     processingController := processingController s;
     intervals := intervals s;
     nextInterval := nextInterval s |}.

(** [prev.map (j => j.id === jobId ? f j : j)] *)
Definition onJob (jobId : string) (f : BatchJob.t -> BatchJob.t)
    (prev : list BatchJob.t) : list BatchJob.t :=
  map (fun j => if String.eqb (BatchJob.id j) jobId then f j else j) prev.

Definition withFiles (files : list BatchFile.t) (j : BatchJob.t) : BatchJob.t :=
  {| BatchJob.id := BatchJob.id j;
     BatchJob.name := BatchJob.name j;
     BatchJob.files := files;
     BatchJob.status := BatchJob.status j;
     BatchJob.progress := BatchJob.progress j;
     BatchJob.startTime := BatchJob.startTime j;
     BatchJob.endTime := BatchJob.endTime j;
     BatchJob.processingOptions := BatchJob.processingOptions j |}.

(** [{ ...j, files: j.files.map (f => cond f ? g f : f) }] *)
Definition onFiles (cond : BatchFile.t -> bool) (g : BatchFile.t -> BatchFile.t)
    (j : BatchJob.t) : BatchJob.t :=
  withFiles (map (fun f => if cond f then g f else f) (BatchJob.files j)) j.

Definition hasId (fileId : string) (f : BatchFile.t) : bool :=
  String.eqb (BatchFile.id f) fileId.

(** [{ ...j, status: "running", startTime: Date.now() }] *)
Definition jobRunning (now : Z) (j : BatchJob.t) : BatchJob.t :=
  {| BatchJob.id := BatchJob.id j;
     BatchJob.name := BatchJob.name j;
     BatchJob.files := BatchJob.files j;
     BatchJob.status := JobStatus.running;
     BatchJob.progress := BatchJob.progress j;
     BatchJob.startTime := Some now;
     BatchJob.endTime := BatchJob.endTime j;
     BatchJob.processingOptions := BatchJob.processingOptions j |}.

(** [{ ...j, progress: jobProgress }] *)
Definition jobWithProgress (jobProgress : Z) (j : BatchJob.t) : BatchJob.t :=
  {| BatchJob.id := BatchJob.id j;
     BatchJob.name := BatchJob.name j;
     BatchJob.files := BatchJob.files j;
     BatchJob.status := BatchJob.status j;
     BatchJob.progress := jobProgress;
     BatchJob.startTime := BatchJob.startTime j;
     BatchJob.endTime := BatchJob.endTime j;
     BatchJob.processingOptions := BatchJob.processingOptions j |}.

(** [{ ...j, status: "completed", endTime: Date.now(), progress: 100 }] *)
Definition jobCompleted (now : Z) (j : BatchJob.t) : BatchJob.t :=
  {| BatchJob.id := BatchJob.id j;
     BatchJob.name := BatchJob.name j;
     BatchJob.files := BatchJob.files j;
     BatchJob.status := JobStatus.completed;
     BatchJob.progress := 100;
     BatchJob.startTime := BatchJob.startTime j;
     BatchJob.endTime := Some now;
     BatchJob.processingOptions := BatchJob.processingOptions j |}.

(** [{ ...j, status: "paused" }] *)
Definition jobPaused (j : BatchJob.t) : BatchJob.t :=
  {| BatchJob.id := BatchJob.id j;
     BatchJob.name := BatchJob.name j;
     BatchJob.files := BatchJob.files j;
     BatchJob.status := JobStatus.paused;
     BatchJob.progress := BatchJob.progress j;
     BatchJob.startTime := BatchJob.startTime j;
     BatchJob.endTime := BatchJob.endTime j;
     BatchJob.processingOptions := BatchJob.processingOptions j |}.

(** [{ ...f, status: "processing", progress: 0, startTime: Date.now() }] *)
Definition fileProcessing (now : Z) (f : BatchFile.t) : BatchFile.t :=
  {| BatchFile.id := BatchFile.id f;
     BatchFile.file := BatchFile.file f;
     BatchFile.status := FileStatus.processing;
     BatchFile.progress := 0;
     BatchFile.metadata := BatchFile.metadata f;
     BatchFile.error := BatchFile.error f;
     BatchFile.processingTime := BatchFile.processingTime f;
     BatchFile.startTime := Some now |}.

(** [{ ...f, progress: Math.min (f.progress + 10, 90) }] *)
Definition fileTick (f : BatchFile.t) : BatchFile.t :=
  {| BatchFile.id := BatchFile.id f;
     BatchFile.file := BatchFile.file f;
     BatchFile.status := BatchFile.status f;
     BatchFile.progress := Z.min (BatchFile.progress f + 10) 90;
     BatchFile.metadata := BatchFile.metadata f;
     BatchFile.error := BatchFile.error f;
     BatchFile.processingTime := BatchFile.processingTime f;
     BatchFile.startTime := BatchFile.startTime f |}.

(** The body of a successful reply of [/api/dicom/process], as far as it is
    read: [result.metadata] and [result.processing_time]. *)
Record ProcessReply := {
  reply_metadata : option Processor.DicomMetadata;
  reply_processing_time : option Z
}.

(** [{ ...f, status: "completed", progress: 100, metadata: result.metadata,
       processingTime: result.processing_time }] *)
Definition fileCompleted (result : ProcessReply) (f : BatchFile.t) : BatchFile.t :=
  {| BatchFile.id := BatchFile.id f;
     BatchFile.file := BatchFile.file f;
     BatchFile.status := FileStatus.completed;
     BatchFile.progress := 100;
     BatchFile.metadata := reply_metadata result;
     BatchFile.error := BatchFile.error f;
     BatchFile.processingTime := reply_processing_time result;
     BatchFile.startTime := BatchFile.startTime f |}.

(** [{ ...f, status: "error", progress: 0, error: message }] *)
Definition fileError (message : string) (f : BatchFile.t) : BatchFile.t :=
  {| BatchFile.id := BatchFile.id f;
     BatchFile.file := BatchFile.file f;
     BatchFile.status := FileStatus.error;
     BatchFile.progress := 0;
     BatchFile.metadata := BatchFile.metadata f;
     BatchFile.error := Some message;
     BatchFile.processingTime := BatchFile.processingTime f;
     BatchFile.startTime := BatchFile.startTime f |}.

(** [{ ...f, status: "paused", progress: 0 }] *)
Definition filePaused (f : BatchFile.t) : BatchFile.t :=
  {| BatchFile.id := BatchFile.id f;
     BatchFile.file := BatchFile.file f;
     BatchFile.status := FileStatus.paused;
     BatchFile.progress := 0;
     BatchFile.metadata := BatchFile.metadata f;
     BatchFile.error := BatchFile.error f;
     BatchFile.processingTime := BatchFile.processingTime f;
     BatchFile.startTime := BatchFile.startTime f |}.

(** *** createNewJob *)

(** [jobId] is built by the source from the clock and the random source and
    [name] from the clock; both are inputs here. Files get the ids
    [jobId_file_index]. *)
Definition createNewJob (jobId name : string) (files : list File)
    (processingOptions : Processor.ProcessingOptions) (s : State) : State :=
  let batchFiles :=
    imap (fun index file =>
      {| BatchFile.id := jobId +:+ "_file_" +:+ pretty index;
         BatchFile.file := file;
         BatchFile.status := FileStatus.queued;
         BatchFile.progress := 0;
         BatchFile.metadata := None;
         BatchFile.error := None;
         BatchFile.processingTime := None;
         BatchFile.startTime := None |}) files in
  let newJob :=
    {| BatchJob.id := jobId;
       BatchJob.name := name;
       BatchJob.files := batchFiles;
       BatchJob.status := JobStatus.idle;
       BatchJob.progress := 0;
       BatchJob.startTime := None;
       BatchJob.endTime := None;
       BatchJob.processingOptions := processingOptions |} in
  setJobs (fun prev => newJob :: prev) s.

(** *** startJob *)

(** The promise a suspended [startJob] is waiting for. *)
Inductive Await :=
| AwaitFetch        (* [await fetch (...)] *)
| AwaitResult       (* [await response.json ()] after [response.ok] *)
| AwaitErrorBody.   (* [await response.json ()] otherwise *)

(** A suspended call of [startJob]: its locals. [job] is what
    [jobs.find (j => j.id === jobId)] returns inside the call; [jobs] there is
    the array the closure was created with, so the same [job] is found every
    time the call looks again. *)
Record Task := {
  jobId : string;
  job : BatchJob.t;
  queuedFiles : list BatchFile.t;
  i : nat;
  file : BatchFile.t;
  awaiting : Await;
  (** the [signal] option handed to [fetch] *)
  signal : option nat;
  progressInterval : nat
}.

(** How an awaited promise settles. *)
Inductive Thrown := AbortError | OtherError.

Inductive Settlement :=
| Response (ok : bool)                (* [fetch] resolved; [response.ok] *)
| Result (result : ProcessReply)      (* [response.json ()] of a success *)
| ErrorBody (error : option string)   (* [response.json ()] of a failure; its [error] field *)
| Rejected (e : Thrown).              (* the awaited promise rejected *)

(** [processingController.current?.signal.aborted] as a condition. *)
Definition aborted (s : State) : bool :=
  match processingController s with
  | Some c => default false (controllers s !! c)
  | None => false
  end.

Definition isQueuedOrPaused (f : BatchFile.t) : bool :=
  FileStatus.eqb (BatchFile.status f) FileStatus.queued
  || FileStatus.eqb (BatchFile.status f) FileStatus.paused.

Definition isSettled (f : BatchFile.t) : bool :=
  FileStatus.eqb (BatchFile.status f) FileStatus.completed
  || FileStatus.eqb (BatchFile.status f) FileStatus.error.

(** After the loop: mark the job as completed, then the [finally] block.
    Nothing between the outer [try] and its [catch] throws outside the inner
    [try], so the outer [catch] (job status "error") is never entered. *)
Definition finishJob (jobId : string) (now : Z) (s : State) : State :=
  let s := setJobs (onJob jobId (jobCompleted now)) s in
  {| jobs := jobs s;
     activeJobId := None;
     controllers := controllers s;
     processingController := None;
     intervals := intervals s;
     nextInterval := nextInterval s |}.

(** One pass through the head of the loop body for index [i], up to the
    [await fetch]: leave the loop when [i] is past the end or the controller
    is aborted; otherwise mark the file as processing, start the progress
    timer and issue the request. *)
Definition loopFrom (jobId : string) (job : BatchJob.t) (queuedFiles : list BatchFile.t)
    (i : nat) (now : Z) (s : State) : State * option Task :=
  match queuedFiles !! i with
  | None => (finishJob jobId now s, None)
  | Some file =>
      if aborted s then (finishJob jobId now s, None)
      else
        let s := setJobs (onJob jobId
                   (onFiles (hasId (BatchFile.id file)) (fileProcessing now))) s in
        let handle := nextInterval s in
        let s :=
          {| jobs := jobs s;
             activeJobId := activeJobId s;
             controllers := controllers s;
             processingController := processingController s;
             intervals := intervals s ++ [(handle, (jobId, BatchFile.id file))];
             nextInterval := S handle |} in
        (s, Some {| jobId := jobId; job := job; queuedFiles := queuedFiles; i := i;
                    file := file; awaiting := AwaitFetch;
                    signal := processingController s;
                    progressInterval := handle |})
  end.

(** [startJob] as called from the latest render: the [jobs] of its closure
    are those of the state it is called in. *)
Definition startJob (jobId : string) (now : Z) (s : State) : State * option Task :=
  match List.find (fun j => String.eqb (BatchJob.id j) jobId) (jobs s) with
  | None => (s, None)
  | Some job =>
      if JobStatus.eqb (BatchJob.status job) JobStatus.running then (s, None)
      else
        let s :=
          {| jobs := jobs s;
             activeJobId := Some jobId;
             controllers := controllers s ++ [false];
             processingController := Some (length (controllers s));
             intervals := intervals s;
             nextInterval := nextInterval s |} in
        let s := setJobs (onJob jobId (jobRunning now)) s in
        let queuedFiles := List.filter isQueuedOrPaused (BatchJob.files job) in
        loopFrom jobId job queuedFiles 0 now s
  end.

(** The callback of the progress timer of ([jobId], [fileId]). *)
Definition progressTick (jobId fileId : string) (s : State) : State :=
  setJobs (onJob jobId
    (onFiles (fun f => hasId fileId f
                       && FileStatus.eqb (BatchFile.status f) FileStatus.processing)
             fileTick)) s.

Definition clearInterval (handle : nat) (s : State) : State :=
  {| jobs := jobs s;
     activeJobId := activeJobId s;
     controllers := controllers s;
     processingController := processingController s;
     intervals := List.filter (fun t => negb (Nat.eqb (fst t) handle)) (intervals s);
     nextInterval := nextInterval s |}.

(** The end of the loop body, "update job progress", and the next pass. The
    count is taken on [job], the array element found at the start. *)
Definition afterFile (t : Task) (now : Z) (s : State) : State * option Task :=
  let updatedJob := job t in
  let completedFiles := length (List.filter isSettled (BatchJob.files updatedJob)) in
  let totalFiles := length (BatchJob.files updatedJob) in
  let jobProgress := jobProgressOf completedFiles totalFiles in
  let s := setJobs (onJob (jobId t) (jobWithProgress jobProgress)) s in
  loopFrom (jobId t) (job t) (queuedFiles t) (S (i t)) now s.

Definition awaitNext (a : Await) (t : Task) : Task :=
  {| jobId := jobId t; job := job t; queuedFiles := queuedFiles t; i := i t;
     file := file t; awaiting := a; signal := signal t;
     progressInterval := progressInterval t |}.

(** The [catch] block of the loop body. *)
Definition catchBlock (e : Thrown) (t : Task) (s : State) : State :=
  match e with
  | AbortError =>
      setJobs (onJob (jobId t) (onFiles (hasId (BatchFile.id (file t))) filePaused)) s
  | OtherError =>
      setJobs (onJob (jobId t)
        (onFiles (hasId (BatchFile.id (file t))) (fileError "Network error"))) s
  end.

(** Resume a suspended call with the settlement of the promise it awaits,
    and run it to its next [await] or to its end. A settlement that does not
    fit the awaited promise leaves everything as it is. *)
Definition resume (t : Task) (x : Settlement) (now : Z) (s : State) : State * option Task :=
  match awaiting t, x with
  | AwaitFetch, Response ok =>
      let s := clearInterval (progressInterval t) s in
      (s, Some (awaitNext (if ok then AwaitResult else AwaitErrorBody) t))
  | AwaitResult, Result result =>
      let s := setJobs (onJob (jobId t)
                 (onFiles (hasId (BatchFile.id (file t))) (fileCompleted result))) s in
      afterFile t now s
  | AwaitErrorBody, ErrorBody error =>
      let s := setJobs (onJob (jobId t)
                 (onFiles (hasId (BatchFile.id (file t)))
                    (fileError (Js.or_default error "Processing failed")))) s in
      afterFile t now s
  | _, Rejected e => afterFile t now (catchBlock e t s)
  | _, _ => (s, Some t)
  end.

(** *** pauseJob, deleteJob *)

Definition pauseJob (jobId : string) (s : State) : State :=
  let controllers :=
    match processingController s with
    | Some c => <[c := true]> (controllers s)
    | None => controllers s
    end in
  let s := setJobs (onJob jobId jobPaused) s in
  {| jobs := jobs s;
     activeJobId := None;
     controllers := controllers;
     processingController := processingController s;
     intervals := intervals s;
     nextInterval := nextInterval s |}.

Definition deleteJob (jobId : string) (s : State) : State :=
  let s :=
    match activeJobId s with
    | Some a => if String.eqb a jobId then pauseJob jobId s else s
    | None => s
    end in
  setJobs (List.filter (fun j => negb (String.eqb (BatchJob.id j) jobId))) s.

(** *** The controls of a job card *)

(** The Start (or Resume) button is shown for an idle or paused job, the
    Pause button for a running one. *)
Definition startShown (j : BatchJob.t) : bool :=
  JobStatus.eqb (BatchJob.status j) JobStatus.idle
  || JobStatus.eqb (BatchJob.status j) JobStatus.paused.

Definition pauseShown (j : BatchJob.t) : bool :=
  JobStatus.eqb (BatchJob.status j) JobStatus.running.

(** [disabled={activeJobId !== null && activeJobId !== job.id}] *)
Definition startDisabled (s : State) (j : BatchJob.t) : bool :=
  match activeJobId s with
  | Some a => negb (String.eqb a (BatchJob.id j))
  | None => false
  end.

(** The delete button: [disabled={job.status === "running"}] *)
Definition deleteDisabled (j : BatchJob.t) : bool :=
  JobStatus.eqb (BatchJob.status j) JobStatus.running.

(** *** The component and its suspended calls *)

Record System := { state : State; tasks : list Task }.

Inductive Event :=
| Create (jobId name : string) (files : list File) (options : Processor.ProcessingOptions)
| Start (jobId : string) (now : Z)
| Pause (jobId : string)
| Delete (jobId : string)
| Settle (k : nat) (x : Settlement) (now : Z)   (* the k-th suspended call resumes *)
| Tick (handle : nat).                          (* a progress timer fires *)

Definition step (e : Event) (sys : System) : System :=
  match e with
  | Create jobId name files options =>
      {| state := createNewJob jobId name files options (state sys); tasks := tasks sys |}
  | Start jobId now =>
      let '(s, t) := startJob jobId now (state sys) in
      {| state := s; tasks := tasks sys ++ option_list t |}
  | Pause jobId => {| state := pauseJob jobId (state sys); tasks := tasks sys |}
  | Delete jobId => {| state := deleteJob jobId (state sys); tasks := tasks sys |}
  | Settle k x now =>
      match tasks sys !! k with
      | None => sys
      | Some t =>
          let '(s, t') := resume t x now (state sys) in
          {| state := s;
             tasks := match t' with
                      | Some t' => <[k := t']> (tasks sys)
                      | None => delete k (tasks sys)
                      end |}
      end
  | Tick handle =>
      match List.find (fun t => Nat.eqb (fst t) handle) (intervals (state sys)) with
      | Some (_, (jobId, fileId)) =>
          {| state := progressTick jobId fileId (state sys); tasks := tasks sys |}
      | None => sys
      end
  end.

Definition run (events : list Event) (sys : System) : System :=
  fold_left (fun sys e => step e sys) events sys.

Definition boot : System := {| state := initial; tasks := [] |}.

(** *** Reading the state *)

Definition findJob (jobId : string) (s : State) : option BatchJob.t :=
  List.find (fun j => String.eqb (BatchJob.id j) jobId) (jobs s).

Definition jobStatus (jobId : string) (s : State) : option JobStatus.t :=
  BatchJob.status <$> findJob jobId s.

Definition jobProgress (jobId : string) (s : State) : option Z :=
  BatchJob.progress <$> findJob jobId s.

(** Status and progress of every file of a job, in order. *)
Definition fileStates (jobId : string) (s : State) : list (FileStatus.t * Z) :=
  match findJob jobId s with
  | Some j => map (fun f => (BatchFile.status f, BatchFile.progress f)) (BatchJob.files j)
  | None => []
  end.

(** *** Runs driven through the controls

    What the browser and the user can make happen. A job is created under an
    id no other job has. Start, Pause and Delete go through the buttons of a
    job card, so only where the button is shown and enabled. A pending
    promise settles in a way that fits it; it rejects with [AbortError] when,
    and as soon as, its signal is aborted: the rejection is handled before
    the next event. *)

Definition fits (a : Await) (x : Settlement) : bool :=
  match a, x with
  | AwaitFetch, Response _ => true
  | AwaitResult, Result _ => true
  | AwaitErrorBody, ErrorBody _ => true
  | _, Rejected OtherError => true
  | _, _ => false
  end.

Definition signalAborted (t : Task) (s : State) : bool :=
  match signal t with
  | Some c => default false (controllers s !! c)
  | None => false
  end.

(** Every suspended call whose request carries an aborted signal resumes
    with [AbortError], in the order the calls were made. *)
Fixpoint rejectAborted (now : Z) (ts : list Task) (s : State) : State * list Task :=
  match ts with
  | [] => (s, [])
  | t :: ts =>
      if signalAborted t s then
        let '(s, t') := resume t (Rejected AbortError) now s in
        let '(s, rest) := rejectAborted now ts s in
        (s, option_list t' ++ rest)
      else
        let '(s, rest) := rejectAborted now ts s in
        (s, t :: rest)
  end.

Definition settleAborted (now : Z) (sys : System) : System :=
  let '(s, ts) := rejectAborted now (tasks sys) (state sys) in
  {| state := s; tasks := ts |}.

Inductive ui_step (sys : System) : System -> Prop :=
| ui_create jobId name files options :
    (forall j, In j (jobs (state sys)) -> BatchJob.id j <> jobId) ->
    ui_step sys (step (Create jobId name files options) sys)
| ui_start jobId now j :
    findJob jobId (state sys) = Some j ->
    startShown j = true -> startDisabled (state sys) j = false ->
    ui_step sys (step (Start jobId now) sys)
| ui_pause jobId now j :
    findJob jobId (state sys) = Some j ->
    pauseShown j = true ->
    ui_step sys (settleAborted now (step (Pause jobId) sys))
| ui_delete jobId now j :
    findJob jobId (state sys) = Some j ->
    deleteDisabled j = false ->
    ui_step sys (settleAborted now (step (Delete jobId) sys))
| ui_settle k x now t :
    tasks sys !! k = Some t -> fits (awaiting t) x = true ->
    ui_step sys (step (Settle k x now) sys)
| ui_tick handle :
    ui_step sys (step (Tick handle) sys).

Inductive reachable : System -> Prop :=
| reachable_boot : reachable boot
| reachable_step sys sys' : reachable sys -> ui_step sys sys' -> reachable sys'.

(** *** The progress a job should show *)

(** The percentage the specification asks for: the nearest integer to
    [100 * settled / total], ties going up. *)
Definition roundedPercent (settled total : nat) : Z :=
  ((200 * Z.of_nat settled + Z.of_nat total) / (2 * Z.of_nat total))%Z.

Definition expectedProgress (j : BatchJob.t) : Z :=
  roundedPercent (length (List.filter isSettled (BatchJob.files j)))
                 (length (BatchJob.files j)).

End Dashboard.

(** ** Where the jobs stand between two events *)

Module Invariant.
Import Dashboard.

(** An update of one job that keeps its id. *)
Definition keeps_id (f : BatchJob.t -> BatchJob.t) : Prop :=
  forall j, BatchJob.id (f j) = BatchJob.id j.

(** An update of one job that does not make it running. *)
Definition starts_nothing (f : BatchJob.t -> BatchJob.t) : Prop :=
  forall j, BatchJob.status (f j) = JobStatus.running ->
            BatchJob.status j = JobStatus.running.

(** An update of one job that keeps its status. *)
Definition keeps_status (f : BatchJob.t -> BatchJob.t) : Prop :=
  forall j, BatchJob.status (f j) = BatchJob.status j.

(** An update of one file that keeps its id. *)
Definition keeps_file_id (g : BatchFile.t -> BatchFile.t) : Prop :=
  forall f, BatchFile.id (g f) = BatchFile.id f.

(** Where the jobs stand while one call of [startJob] is suspended on the
    file [fileId] of the job [jobId]. *)
Definition only_running (jobId : string) (l : list BatchJob.t) : Prop :=
  forall j, In j l -> BatchJob.status j = JobStatus.running -> BatchJob.id j = jobId.

Definition all_running (jobId : string) (l : list BatchJob.t) : Prop :=
  forall j, In j l -> BatchJob.id j = jobId -> BatchJob.status j = JobStatus.running.

Definition present (jobId : string) (l : list BatchJob.t) : Prop :=
  exists j, In j l /\ BatchJob.id j = jobId.

Definition in_flight (jobId fileId : string) (l : list BatchJob.t) : Prop :=
  forall j g, In j l -> BatchJob.id j = jobId -> In g (BatchJob.files j) ->
              BatchFile.id g = fileId -> BatchFile.status g = FileStatus.processing.

Definition none_running (l : list BatchJob.t) : Prop :=
  forall j, In j l -> BatchJob.status j <> JobStatus.running.

(** No call of [startJob] is suspended: no job is active or running. *)
Definition calm (s : State) : Prop :=
  activeJobId s = None /\ none_running (jobs s).

(** The call [t] is suspended: its job is the active one, exists, and is the
    one running job; its request carries the signal of the current
    controller, which is not aborted; its file is marked processing. *)
Definition busy (t : Task) (s : State) : Prop :=
  activeJobId s = Some (jobId t) /\
  (exists c, processingController s = Some c /\ signal t = Some c /\
             controllers s !! c = Some false) /\
  present (jobId t) (jobs s) /\
  only_running (jobId t) (jobs s) /\
  all_running (jobId t) (jobs s) /\
  in_flight (jobId t) (BatchFile.id (file t)) (jobs s).

Definition one_at_a_time (sys : System) : Prop :=
  match tasks sys with
  | [] => calm (state sys)
  | [t] => busy t (state sys)
  | _ => False
  end.

Definition settled_as (r : State * option Task) : Prop :=
  match r with
  | (s, None) => calm s
  | (s, Some t) => busy t s
  end.

End Invariant.

(** ** Inputs and runs used in the examples *)

Module Samples.
Import Processor Report Dashboard.

(** Anonymization in mode [remove], nothing else configured. *)
Definition remove_options : ProcessingOptions :=
  {| anonymize := true;
     anonymize_mode := remove;
     anonymize_tags := None;
     anonymize_salt := None;
     remove_private_tags := false;
     output_formats := ["json"] |}.

(** One reading of the clock and of the random source, and the text of an
    exception. *)
Definition sample_env : Env :=
  {| startTime := 0; isoNow := "2024-01-01T00:00:00.000Z";
     uidNow1 := 1; uidRnd1 := 2; uidNow2 := 3; uidRnd2 := 4; endTime := 1500;
     thrownMessage := "Invalid character" |}.

(** A study as the extraction service reports it, with the given modality
    and manufacturer, and the successful outcome that carries it. *)
Definition study (modality manufacturer : string) : Processor.DicomMetadata :=
  {| Processor.patient_id := "PATIENT_001";
     Processor.patient_name := "John Doe";
     Processor.patient_age := "45Y";
     Processor.patient_sex := "M";
     Processor.modality := modality;
     Processor.body_part_examined := "CHEST";
     Processor.study_description := "Routine examination";
     Processor.study_date_time := "2024-01-01T00:00:00.000Z";
     Processor.phi_removed := "NO";
     Processor.manufacturer := manufacturer;
     Processor.model := "SOMATOM Definition AS";
     Processor.software_versions := "syngo CT 2012B";
     Processor.magnetic_field_strength := "N/A";
     Processor.slice_thickness := "5.0";
     Processor.pixel_spacing := "[0.976562, 0.976562]";
     Processor.rows := "512";
     Processor.columns := "512";
     Processor.photometric_interpretation := "MONOCHROME2";
     Processor.study_instance_uid := "1.2.840.10008.1.2";
     Processor.series_instance_uid := "1.2.840.10008.3.4";
     Processor.transfer_syntax_uid := "1.2.840.10008.1.2.1";
     Processor.number_of_frames := None;
     Processor.phi_flags := ["PatientName"; "PatientID"];
     Processor.urgent := false;
     Processor.urgent_reasons := [];
     Processor.private_tags := [] |}.

Definition outcome (name modality manufacturer : string) : ProcessedFileData :=
  {| fileName := name;
     fileSize := 1024;
     metadata := study modality manufacturer;
     processingTime := 1500;
     status := success;
     error_message := None |}.

(** The options the dashboard starts with. *)
Definition options : Processor.ProcessingOptions :=
  {| Processor.anonymize := false;
     Processor.anonymize_mode := Processor.pseudonymize;
     Processor.anonymize_tags := None;
     Processor.anonymize_salt := None;
     Processor.remove_private_tags := false;
     Processor.output_formats := ["json"] |}.

Definition dcm (name : string) : File := {| file_name := name; file_size := 1024 |}.

Definition reply : ProcessReply :=
  {| reply_metadata := None; reply_processing_time := Some 1500%Z |}.

(** Job J is created with three files and started; the request for the
    first file succeeds, and the call is waiting for the second file. *)
Definition first_file_done : list Event :=
  [ Create "J" "Batch Job" [dcm "a.dcm"; dcm "b.dcm"; dcm "c.dcm"] options;
    Start "J" 10;
    Settle 0 (Response true) 20;
    Settle 0 (Result reply) 30 ].

(** Then the job is paused, and the pending request rejects as aborted. *)
Definition paused_mid_flight : list Event :=
  first_file_done ++ [ Pause "J"; Settle 0 (Rejected AbortError) 40 ].

(** Then the job is started again and both remaining requests succeed. *)
Definition resumed_to_end : list Event :=
  paused_mid_flight ++
  [ Start "J" 50;
    Settle 0 (Response true) 60; Settle 0 (Result reply) 70;
    Settle 0 (Response true) 80; Settle 0 (Result reply) 90 ].

(** Jobs A and B are created and A is started. *)
Definition two_jobs_first_running : list Event :=
  [ Create "A" "Batch Job A" [dcm "a.dcm"] options;
    Create "B" "Batch Job B" [dcm "b.dcm"] options;
    Start "A" 10 ].

(** The state and the suspended call once the first of three files is done. *)
Definition mid_flight : System := run first_file_done boot.

(** Defaults for reading the head of a list. *)
Definition blank_file : BatchFile.t :=
  {| BatchFile.id := EmptyString; BatchFile.file := dcm EmptyString;
     BatchFile.status := FileStatus.queued; BatchFile.progress := 0;
     BatchFile.metadata := None; BatchFile.error := None;
     BatchFile.processingTime := None; BatchFile.startTime := None |}.

Definition blank_job : BatchJob.t :=
  {| BatchJob.id := EmptyString; BatchJob.name := EmptyString; BatchJob.files := [];
     BatchJob.status := JobStatus.idle; BatchJob.progress := 0;
     BatchJob.startTime := None; BatchJob.endTime := None;
     BatchJob.processingOptions := options |}.

Definition blank_task : Task :=
  {| jobId := EmptyString; job := blank_job; queuedFiles := []; i := 0;
     file := blank_file; awaiting := AwaitFetch; signal := None; progressInterval := 0 |}.

Definition suspended_call : Task := hd blank_task (tasks mid_flight).

Definition first_job : BatchJob.t := hd blank_job (jobs (state mid_flight)).

Definition first_file : BatchFile.t := hd blank_file (BatchJob.files first_job).

(** The two jobs of [two_jobs_first_running]; the newest job comes first. *)
Definition job_A : BatchJob.t := hd blank_job (tl (jobs (state (run two_jobs_first_running boot)))).
Definition job_B : BatchJob.t := hd blank_job (jobs (state (run two_jobs_first_running boot))).

End Samples.

(** ** lib/dicom-processor: processBatchFiles *)

Module Batch.
Import Processor.




End Batch.

(** ** app/api/dicom/process and app/api/dicom/batch

    A request is what the handlers read of the form data. The field
    [options] is absent (or empty), or holds a text that [JSON.parse]
    accepts, given by the value it parses to, or something that
    [JSON.parse] rejects. Fields named [file] that hold a string are
    outside the model. *)

Module Routes.
Import Processor.

(** An uploaded [File]: name, size and bytes. *)
Record Upload := {
  upload_name : string;
  upload_size : Z;
  upload_bytes : list Byte.byte
}.

Inductive OptionsField :=
| Absent
| Json (value : OptionsValue)
| Malformed.

Definition defaultOptions : ProcessingOptions :=
  {| anonymize := false;
     anonymize_mode := pseudonymize;
     anonymize_tags := None;
     anonymize_salt := None;
     remove_private_tags := false;
     output_formats := ["json"] |}.

(** [optionsJson ? JSON.parse (optionsJson) : { ... }]; [None] when
    [JSON.parse] throws. The text [null] parses, to [null]. *)
Definition parseOptions (optionsJson : OptionsField) : option OptionsValue :=
  match optionsJson with
  | Absent => Some (Options defaultOptions)
  | Json value => Some value
  | Malformed => None
  end.

(** [name.toLowerCase ().endsWith (".dcm")] *)
Definition isDicomName (name : string) : bool :=
  Js.endsWith (Js.toLowerCase name) ".dcm".

(** *** process *)

Record ProcessRequest := {
  file : option Upload;
  options : OptionsField
}.

Inductive ProcessBody :=
| ProcessError (error : option string)
| Processed (metadata : option DicomMetadata) (processing_time : Z)
            (file_name : string) (file_size : Z).

Record ProcessResponse := {
  status : nat;
  body : ProcessBody
}.

Definition processRoute (env : Env) (request : ProcessRequest) : ProcessResponse :=
  match file request with
  | None => {| status := 400; body := ProcessError (Some "No file provided") |}
  | Some file =>
      if negb (isDicomName (upload_name file)) then
        {| status := 400;
           body := ProcessError (Some "Invalid file type. Only .dcm files are supported.") |}
      else
        match parseOptions (options request) with
        | None =>
            {| status := 500;
               body := ProcessError (Some "Internal server error during DICOM processing") |}
        | Some options =>
            let result :=
              processDicomFile_value env (upload_bytes file) (upload_name file) options in
            if negb (success result) then
              {| status := 500; body := ProcessError (error result) |}
            else
              {| status := 200;
                 body := Processed (Processor.metadata result) (processing_time result)
                           (upload_name file) (upload_size file) |}
        end
  end.

(** The request [startJob] sends for the file [f] of [job]: the form data
    holds the browser's file under [file] and the JSON text of the job's
    options under [options]; that text parses back to the options, whatever
    the salt. [bytes] are the bytes of the file. *)
Definition requestFor (job : Dashboard.BatchJob.t) (f : Dashboard.BatchFile.t)
    (bytes : list Byte.byte) : ProcessRequest :=
  {| file := Some {| upload_name := Dashboard.file_name (Dashboard.BatchFile.file f);
                     upload_size := Dashboard.file_size (Dashboard.BatchFile.file f);
                     upload_bytes := bytes |};
     options := Json (Options (Dashboard.BatchJob.processingOptions job)) |}.

(** *** batch *)









End Routes.

(** ** lib/report-generator: the file lists behind the HTML sections *)

Module Sections.
Import Report.

(** [generateTableSection], section "urgent": the rows of the table. *)
Definition urgentFiles (files : list ProcessedFileData) : list ProcessedFileData :=
  List.filter (fun f => Status_eqb (status f) success && Processor.urgent (metadata f)) files.

(** [generateComplianceSection]: the rows of the table of files with PHI. *)
Definition phiFiles (files : list ProcessedFileData) : list ProcessedFileData :=
  List.filter (fun f => Status_eqb (status f) success
                        && (0 <? length (Processor.phi_flags (metadata f)))%nat) files.

(** [generateMetadataSection]: the rows of the metadata table. *)
Definition successfulFiles (files : list ProcessedFileData) : list ProcessedFileData :=
  List.filter (fun f => Status_eqb (status f) success) files.

(** How often a key occurs among the successful outcomes. *)
Definition occurrences (key : ProcessedFileData -> string) (k : string)
    (files : list ProcessedFileData) : nat :=
  length (List.filter (fun f => Status_eqb (status f) success && String.eqb (key f) k) files).

(** The entry a counter object holds for a key that was counted [n] times. *)
Definition counted (n : nat) : option JsValue :=
  match n with
  | 0 => None
  | S _ => Some (VNumber n)
  end.

End Sections.

(** ** components/metadata-display: upload, statistics and report files *)

Module JobCard.
Import Dashboard.

(** [file.name.toLowerCase ().endsWith (".dcm")] *)
Definition isDicomFile (file : File) : bool :=
  Js.endsWith (Js.toLowerCase (file_name file)) ".dcm".

(** [files] are the files of the input element; [jobId] and [name] are what
    [createNewJob] would draw from the clock and the random source. The
    reset of the input element at the end is no part of the state. *)
Definition handleFileUpload (jobId name : string) (files : list File)
    (processingOptions : Processor.ProcessingOptions) (s : State) : State :=
  if (0 <? length files)%nat then
    let validFiles := List.filter isDicomFile files in
    if (0 <? length validFiles)%nat
    then createNewJob jobId name validFiles processingOptions s
    else s
  else s.

Record JobStats := {
  completed : nat;
  errors : nat;
  processing : nat;
  queued : nat;
  total : nat
}.

Definition withStatus (st : FileStatus.t) (files : list BatchFile.t) : list BatchFile.t :=
  List.filter (fun f => FileStatus.eqb (BatchFile.status f) st) files.

Definition getJobStats (job : BatchJob.t) : JobStats :=
  {| completed := length (withStatus FileStatus.completed (BatchJob.files job));
     errors := length (withStatus FileStatus.error (BatchJob.files job));
     processing := length (withStatus FileStatus.processing (BatchJob.files job));
     queued := length (withStatus FileStatus.queued (BatchJob.files job));
     total := length (BatchJob.files job) |}.

(** An element of the array [getReportFiles] returns. The non-null
    assertion on [f.metadata] does nothing at run time: the field is
    [undefined] where the file has no metadata. In [f.processingTime || 0]
    the only falsy number is 0 itself. *)
Record ReportFile := {
  fileName : string;
  fileSize : Z;
  metadata : option Processor.DicomMetadata;
  processingTime : Z;
  status : Report.Status;
  error : option string
}.

Definition getReportFiles (job : BatchJob.t) : list ReportFile :=
  map (fun f =>
         {| fileName := file_name (BatchFile.file f);
            fileSize := file_size (BatchFile.file f);
            metadata := BatchFile.metadata f;
            processingTime := default 0%Z (BatchFile.processingTime f);
            status :=
              if FileStatus.eqb (BatchFile.status f) FileStatus.completed
              then Report.success else Report.error;
            error := BatchFile.error f |})
      (List.filter (fun f => FileStatus.eqb (BatchFile.status f) FileStatus.completed
                             || FileStatus.eqb (BatchFile.status f) FileStatus.error)
                   (BatchJob.files job)).

End JobCard.

(** ** How requests end, and what holds of the files meanwhile *)

Module Course.
Import Dashboard.

(** How the request for one file ends. *)
Inductive Outcome :=
| Succeeds (result : ProcessReply)     (* a 2xx reply and its body *)
| Fails (error : option string)        (* another reply and the [error] of its body *)
| Unreachable                          (* [fetch] rejects *)
| Unreadable (ok : bool).              (* a reply whose body cannot be read *)

Definition settlements (o : Outcome) : list Settlement :=
  match o with
  | Succeeds result => [Response true; Result result]
  | Fails error => [Response false; ErrorBody error]
  | Unreachable => [Rejected OtherError]
  | Unreadable ok => [Response ok; Rejected OtherError]
  end.

(** The requests of the one suspended call end as [outcomes] tell, one
    after the other, each at its own time. *)
Definition answers (outcomes : list (Outcome * Z)) : list Event :=
  flat_map (fun o => map (fun x => Settle 0 x (snd o)) (settlements (fst o))) outcomes.

(** The updates the component applies to one job. *)
Inductive job_update : (BatchJob.t -> BatchJob.t) -> Prop :=
| update_running now : job_update (jobRunning now)
| update_progress p : job_update (jobWithProgress p)
| update_completed now : job_update (jobCompleted now)
| update_paused : job_update jobPaused
| update_file_processing fileId now :
    job_update (onFiles (hasId fileId) (fileProcessing now))
| update_file_tick fileId :
    job_update (onFiles (fun f => hasId fileId f
                                  && FileStatus.eqb (BatchFile.status f) FileStatus.processing)
                        fileTick)
| update_file_completed fileId result :
    job_update (onFiles (hasId fileId) (fileCompleted result))
| update_file_error fileId message :
    job_update (onFiles (hasId fileId) (fileError message))
| update_file_paused fileId : job_update (onFiles (hasId fileId) filePaused).

(** How [jobs] can change: a job is updated, jobs are filtered out, a new
    job is put in front. *)
Inductive evolves (l : list BatchJob.t) : list BatchJob.t -> Prop :=
| evolves_refl : evolves l l
| evolves_update l' jobId f :
    evolves l l' -> job_update f -> evolves l (onJob jobId f l')
| evolves_filter l' keep :
    evolves l l' -> evolves l (List.filter keep l')
| evolves_create l' jobId name files options s j :
    evolves l l' ->
    jobs (createNewJob jobId name files options s) = j :: jobs s ->
    evolves l (j :: l').

(** A property of jobs that new jobs have and every update keeps. *)
Definition stable (P : BatchJob.t -> Prop) : Prop :=
  (forall jobId name files options s j,
     jobs (createNewJob jobId name files options s) = j :: jobs s -> P j) /\
  (forall f j, job_update f -> P j -> P (f j)).

(** Status and progress of a file go together: a completed file shows 100,
    a file being processed a multiple of 10 up to 90, any other file 0. *)
Definition file_coupled (f : BatchFile.t) : Prop :=
  match BatchFile.status f with
  | FileStatus.completed => BatchFile.progress f = 100%Z
  | FileStatus.processing =>
      (0 <= BatchFile.progress f <= 90)%Z /\ (BatchFile.progress f mod 10 = 0)%Z
  | _ => BatchFile.progress f = 0%Z
  end.

(** The files of a job carry the ids [createNewJob] gave them. *)
Definition ids_as_created (j : BatchJob.t) : Prop :=
  map BatchFile.id (BatchJob.files j)
  = imap (fun index _ => BatchJob.id j +:+ "_file_" +:+ pretty index) (BatchJob.files j).

(** No file is marked as being processed. *)
Definition quiet (l : list BatchJob.t) : Prop :=
  forall j f, In j l -> In f (BatchJob.files j) ->
              BatchFile.status f <> FileStatus.processing.

(** The files marked as being processed are files of the job of the
    suspended call [t] and carry the id of the file it waits for. *)
Definition marked (t : Task) (l : list BatchJob.t) : Prop :=
  forall j f, In j l -> In f (BatchJob.files j) ->
              BatchFile.status f = FileStatus.processing ->
              BatchJob.id j = jobId t /\ BatchFile.id f = BatchFile.id (file t).

(** A job that is idle, running or completed. *)
Definition plain_status (j : BatchJob.t) : Prop :=
  BatchJob.status j = JobStatus.idle \/ BatchJob.status j = JobStatus.running \/
  BatchJob.status j = JobStatus.completed.

Definition plain (l : list BatchJob.t) : Prop := forall j, In j l -> plain_status j.

(** A file is marked as being processed only while a call is suspended on
    it, and the jobs are idle, running or completed. *)
Definition tidy (sys : System) : Prop :=
  match tasks sys with
  | [] => quiet (jobs (state sys))
  | [t] => marked t (jobs (state sys))
  | _ => True
  end /\ plain (jobs (state sys)).

(** Every file of [j] that is still queued or paused has the id of a file
    of the queue [q] from position [i] on. *)
Definition pending_ahead (q : list BatchFile.t) (i : nat) (j : BatchJob.t) : Prop :=
  forall f, In f (BatchJob.files j) -> isQueuedOrPaused f = true ->
            In (BatchFile.id f) (map BatchFile.id (drop i q)).

(** One call of [startJob] for the job [jobId] is suspended on the request
    for the file at position [i] of its queue [q], not aborted. *)
Definition waiting (jobId : string) (q : list BatchFile.t) (i : nat) (sys : System) : Prop :=
  (exists t, tasks sys = [t] /\ Dashboard.jobId t = jobId /\ queuedFiles t = q /\
             Dashboard.i t = i /\ q !! i = Some (file t) /\ awaiting t = AwaitFetch) /\
  aborted (state sys) = false /\
  exists j, findJob jobId (state sys) = Some j /\ pending_ahead q (S i) j.

(** No call is suspended, no job is active, and the job [jobId] is marked
    completed at 100 with no file left queued or paused. *)
Definition finished (jobId : string) (sys : System) : Prop :=
  tasks sys = [] /\ activeJobId (state sys) = None /\
  exists j, findJob jobId (state sys) = Some j /\
            BatchJob.status j = JobStatus.completed /\ BatchJob.progress j = 100%Z /\
            forall f, In f (BatchJob.files j) -> isQueuedOrPaused f = false.

(** The update of the file whose request ended as [o]. *)
Definition settle_with (o : Outcome) : BatchFile.t -> BatchFile.t :=
  match o with
  | Succeeds result => fileCompleted result
  | Fails error => fileError (Js.or_default error "Processing failed")
  | Unreachable => fileError "Network error"
  | Unreadable _ => fileError "Network error"
  end.

(** The state in which that update is made: the progress timer has been
    cleared if a reply arrived. *)
Definition replied (o : Outcome) (t : Task) (s : State) : State :=
  match o with
  | Unreachable => s
  | _ => clearInterval (progressInterval t) s
  end.

(** The file [f'] is the file [f0] after its request ended as [o]. *)
Definition settled_by (o : Outcome) (f0 f' : BatchFile.t) : Prop :=
  BatchFile.id f' = BatchFile.id f0 /\ BatchFile.file f' = BatchFile.file f0 /\
  match o with
  | Succeeds result =>
      BatchFile.status f' = FileStatus.completed /\ BatchFile.progress f' = 100%Z /\
      BatchFile.metadata f' = reply_metadata result /\
      BatchFile.processingTime f' = reply_processing_time result
  | Fails error =>
      BatchFile.status f' = FileStatus.error /\ BatchFile.progress f' = 0%Z /\
      BatchFile.error f' = Some (Js.or_default error "Processing failed")
  | Unreachable | Unreadable _ =>
      BatchFile.status f' = FileStatus.error /\ BatchFile.progress f' = 0%Z /\
      BatchFile.error f' = Some "Network error"
  end.

(** Where the files [files'] of a job stand, against the queue [q] they
    started as: the requests for the files before position [i] have ended
    as [outcomes] tell, the files from [i] on are untouched. *)
Definition between (q : list BatchFile.t) (outcomes : list (Outcome * Z)) (i : nat)
    (files' : list BatchFile.t) : Prop :=
  length files' = length q /\
  forall n f0 f', q !! n = Some f0 -> files' !! n = Some f' ->
    (n < i -> exists o, outcomes !! n = Some o /\ settled_by (fst o) f0 f') /\
    (i <= n -> f' = f0).

(** The same while the request for the file at position [i] is pending. *)
Definition during (q : list BatchFile.t) (outcomes : list (Outcome * Z)) (i : nat)
    (files' : list BatchFile.t) : Prop :=
  length files' = length q /\
  forall n f0 f', q !! n = Some f0 -> files' !! n = Some f' ->
    (n < i -> exists o, outcomes !! n = Some o /\ settled_by (fst o) f0 f') /\
    (n = i -> BatchFile.id f' = BatchFile.id f0 /\ BatchFile.file f' = BatchFile.file f0 /\
              BatchFile.status f' = FileStatus.processing) /\
    (i < n -> f' = f0).

(** What the process route answers to the request of [startJob] for the
    file [f] of [job], as the call sees it: [response.ok] holds for the
    statuses 200 to 299; the call reads [metadata] and [processing_time]
    of a good reply and [error] of any other. *)
Definition served (env : Processor.Env) (job : BatchJob.t) (f : BatchFile.t)
    (bytes : list Byte.byte) : Outcome :=
  let response := Routes.processRoute env (Routes.requestFor job f bytes) in
  if (200 <=? Routes.status response)%nat && (Routes.status response <? 300)%nat then
    match Routes.body response with
    | Routes.Processed metadata processing_time _ _ =>
        Succeeds {| reply_metadata := metadata;
                    reply_processing_time := Some processing_time |}
    | Routes.ProcessError _ =>
        Succeeds {| reply_metadata := None; reply_processing_time := None |}
    end
  else
    match Routes.body response with
    | Routes.Processed _ _ _ _ => Fails None
    | Routes.ProcessError error => Fails error
    end.

End Course.

(** * Facts about strings *)

Module JsFacts.

Lemma append_nil_l (s : string) : EmptyString +:+ s = s.
Proof. reflexivity. Qed.

Lemma append_cons (a : ascii) (s t : string) : String a s +:+ t = String a (s +:+ t).
Proof. reflexivity. Qed.

Lemma append_nil_r (s : string) : s +:+ EmptyString = s.
Proof.
  induction s as [|c s IH]; [reflexivity|]. rewrite append_cons, IH. reflexivity.
Qed.

Lemma append_assoc (s t u : string) : (s +:+ t) +:+ u = s +:+ (t +:+ u).
Proof.
  induction s as [|c s IH]; [reflexivity|]. rewrite !append_cons, IH. reflexivity.
Qed.

Lemma append_snoc (s t : string) (c : ascii) :
  (s +:+ String c EmptyString) +:+ t = s +:+ String c t.
Proof. rewrite append_assoc. reflexivity. Qed.

Lemma substring_0_empty (m : nat) : substring 0 m EmptyString = EmptyString.
Proof. destruct m; reflexivity. Qed.

Lemma substring_0_0 (s : string) : substring 0 0 s = EmptyString.
Proof. destruct s; reflexivity. Qed.

End JsFacts.
(** * Properties of the processor *)

Module ProcessorFacts.
Import Js Processor Samples JsFacts.

(** ** Base64 is injective and commutes with prefixes *)

Lemma b64_value_char (x : sextet) : b64_value (b64_char x) = Some x.
Proof.
  destruct x as [[[[[x5 x4] x3] x2] x1] x0].
  destruct x5, x4, x3, x2, x1, x0; vm_compute; reflexivity.
Qed.

Lemma b64_char_inj (x y : sextet) : b64_char x = b64_char y -> x = y.
Proof.
  intros H. apply (f_equal b64_value) in H. rewrite !b64_value_char in H.
  injection H as H. exact H.
Qed.

Lemma b64_char_not_pad (x : sextet) : b64_char x <> b64_pad.
Proof.
  destruct x as [[[[[x5 x4] x3] x2] x1] x0].
  destruct x5, x4, x3, x2, x1, x0; vm_compute; discriminate.
Qed.

Ltac b64_clash :=
  match goal with
  | H : b64_pad = b64_char _ |- _ => symmetry in H; apply b64_char_not_pad in H; destruct H
  | H : b64_char _ = b64_pad |- _ => apply b64_char_not_pad in H; destruct H
  end.

Ltac b64_bits :=
  repeat match goal with
  | H : b64_char _ = b64_char _ |- _ =>
      apply b64_char_inj in H; injection H; clear H; intros; subst
  end.

Lemma btoa_inj_bounded (n : nat) :
  forall s t : string, String.length s < n -> btoa s = btoa t -> s = t.
Proof.
  induction n as [|n IH]; intros s t Hlen Heq; [lia|].
  destruct s as [|[a0 a1 a2 a3 a4 a5 a6 a7] [|[b0 b1 b2 b3 b4 b5 b6 b7]
                  [|[c0 c1 c2 c3 c4 c5 c6 c7] s]]];
  destruct t as [|[d0 d1 d2 d3 d4 d5 d6 d7] [|[e0 e1 e2 e3 e4 e5 e6 e7]
                  [|[f0 f1 f2 f3 f4 f5 f6 f7] t]]];
  cbn [btoa] in Heq; try discriminate Heq; try reflexivity;
  injection Heq; intros; try b64_clash; b64_bits; try reflexivity.
  do 3 f_equal. apply IH; [cbn [String.length] in Hlen; lia | assumption].
Qed.

Lemma btoa_inj (s t : string) : btoa s = btoa t -> s = t.
Proof. apply (btoa_inj_bounded (S (String.length s))). lia. Qed.

Lemma slice_btoa (k : nat) :
  forall s : string, substring 0 (4 * k) (btoa s) = btoa (substring 0 (3 * k) s).
Proof.
  induction k as [|k IH]; intros s.
  - cbn [Nat.mul]. rewrite !substring_0_0. reflexivity.
  - replace (4 * S k) with (S (S (S (S (4 * k))))) by lia.
    replace (3 * S k) with (S (S (S (3 * k)))) by lia.
    destruct s as [|[a0 a1 a2 a3 a4 a5 a6 a7] [|[b0 b1 b2 b3 b4 b5 b6 b7]
                    [|[c0 c1 c2 c3 c4 c5 c6 c7] s]]];
      cbn [btoa substring]; try reflexivity.
    + destruct (4 * k); reflexivity.
    + destruct (4 * k); reflexivity.
    + rewrite IH. reflexivity.
Qed.

(** The twelve characters kept by [generatePseudonym] are the encoding of the
    first nine characters of [value + actualSalt]. *)
Lemma generatePseudonym_prefix (v : string) (salt : option string) :
  generatePseudonym v salt = "anon_" +:+ btoa (slice0 9 (v +:+ actualSalt salt)).
Proof.
  unfold generatePseudonym, slice0. cbv zeta.
  change 12 with (4 * 3). change 9 with (3 * 3). rewrite slice_btoa. reflexivity.
Qed.

Lemma generatePseudonym_eq_iff (v : string) (s1 s2 : option string) :
  generatePseudonym v s1 = generatePseudonym v s2 <->
  slice0 9 (v +:+ actualSalt s1) = slice0 9 (v +:+ actualSalt s2).
Proof.
  rewrite !generatePseudonym_prefix. split.
  - intros H. cbn in H. injection H as H. apply btoa_inj. exact H.
  - intros ->. reflexivity.
Qed.

(** ** Pseudonyms and salts *)

(** C10. An explicitly supplied empty salt is the same as no salt, and both
    are the same as the salt "default_salt": for every value, the three
    calls of [generatePseudonym] return the same pseudonym. *)
Theorem generatePseudonym_empty_salt_is_default (v : string) :
  generatePseudonym v (Some EmptyString) = generatePseudonym v None /\
  generatePseudonym v None = generatePseudonym v (Some "default_salt").
Proof. split; reflexivity. Qed.

(** Only nine characters of [value + salt] reach the pseudonym, so for a
    value of nine or more characters every salt gives the same pseudonym. *)
Lemma generatePseudonym_long_value_ignores_salt (v : string) (s1 s2 : option string) :
  9 <= String.length v -> generatePseudonym v s1 = generatePseudonym v s2.
Proof.
  intros Hlen. apply generatePseudonym_eq_iff. unfold slice0.
  do 9 (destruct v as [|? v]; [cbn in Hlen; lia|]).
  rewrite !append_cons. cbn [substring]. rewrite !substring_0_0. reflexivity.
Qed.

(** C4, on the code. The salt is concatenated to the value, but
    [slice (0, 12)] keeps the base64 text of the first nine characters of
    [value + salt] only. Two salts give the same pseudonym exactly when
    these nine characters agree; so for every value of nine or more
    characters all salts give the same pseudonym. The patient id that
    [processDicomFile] hashes, PATIENT_001, is such a value: the different
    salts s1 and s2 give the same pseudonym for it. Of the salt hashed with
    the patient name John Doe, eight characters long, only the first
    character counts: site-A and site-B give the same pseudonym. *)
Theorem generatePseudonym_salt_lost_after_nine_characters :
  (forall (v : string) (s1 s2 : option string),
     generatePseudonym v s1 = generatePseudonym v s2 <->
     slice0 9 (v +:+ actualSalt s1) = slice0 9 (v +:+ actualSalt s2)) /\
  (forall (v : string) (s1 s2 : option string),
     9 <= String.length v -> generatePseudonym v s1 = generatePseudonym v s2) /\
  ("s1" <> "s2" /\
   generatePseudonym "PATIENT_001" (Some "s1") = "anon_UEFUSUVOVF8w" /\
   generatePseudonym "PATIENT_001" (Some "s2") = "anon_UEFUSUVOVF8w") /\
  ("site-A" <> "site-B" /\
   generatePseudonym "John Doe" (Some "site-A")
   = generatePseudonym "John Doe" (Some "site-B")).
Proof.
  split; [exact generatePseudonym_eq_iff|].
  split; [exact generatePseudonym_long_value_ignores_salt|].
  split; (split; [discriminate|]); [split|]; reflexivity.
Qed.

(** ** Binary strings and the [catch] branch *)

Lemma binary_codeUnits (s : string) : binary (codeUnits s) = Some s.
Proof.
  unfold codeUnits. induction s as [|c s IH]; [reflexivity|].
  cbn [list_ascii_of_string map binary].
  pose proof (N_ascii_bounded c) as Hc. apply N.ltb_lt in Hc. rewrite Hc, IH.
  cbn [option_map]. rewrite ascii_N_embedding. reflexivity.
Qed.

Lemma binary_isBinary (units : list N) : is_Some (binary units) <-> isBinary units = true.
Proof.
  induction units as [|unit units IH]; cbn [binary isBinary forallb].
  - split; [reflexivity | intros _; eexists; reflexivity].
  - destruct (unit <? 256)%N; cbn [andb].
    + rewrite <- IH. destruct (binary units); cbn [option_map]; split;
        intros [x Hx]; try discriminate Hx; eexists; reflexivity.
    + split; [intros [x Hx]; discriminate Hx | discriminate].
Qed.

Lemma binary_None (units : list N) : binary units = None <-> isBinary units = false.
Proof.
  pose proof (binary_isBinary units) as H.
  destruct (binary units) as [s|] eqn:Hb.
  - assert (Hi : isBinary units = true) by (apply H; eexists; reflexivity).
    rewrite Hi. split; discriminate.
  - destruct (isBinary units); [|split; reflexivity].
    destruct (proj2 H eq_refl) as [x Hx]. discriminate Hx.
Qed.

(** The pseudonyms are there exactly for a binary salt. *)
Lemma generatePseudonym_text_Some (value : string) (options : ProcessingOptions) :
  is_Some (generatePseudonym_text value (anonymize_salt options)) <-> binarySalt options = true.
Proof.
  unfold generatePseudonym_text, binarySalt.
  destruct (anonymize_salt options) as [units|].
  - rewrite <- binary_isBinary. destruct (binary units); cbn [option_map]; split;
      intros [x Hx]; try discriminate Hx; eexists; reflexivity.
  - split; [reflexivity | intros _; eexists; reflexivity].
Qed.

(** [processDicomFile] succeeds unless anonymization is asked for with a
    salt that is not a binary string; it then returns through the [catch]
    branch. *)
Lemma processDicomFile_success env buf fileName (options : ProcessingOptions) :
  success (processDicomFile env buf fileName options)
  = negb (anonymize options) || binarySalt options.
Proof.
  unfold processDicomFile. cbv zeta.
  destruct (anonymize options); cbn [negb orb]; [|reflexivity].
  pose proof (generatePseudonym_text_Some "PATIENT_001" options) as H1.
  pose proof (generatePseudonym_text_Some "John Doe" options) as H2.
  destruct (generatePseudonym_text "PATIENT_001" (anonymize_salt options)) as [x|],
           (generatePseudonym_text "John Doe" (anonymize_salt options)) as [y|],
           (binarySalt options); cbn [success caught]; try reflexivity.
  - destruct (proj1 H1 ltac:(eexists; reflexivity)). reflexivity.
  - destruct (proj2 H2 eq_refl) as [z Hz]. discriminate Hz.
  - destruct (proj2 H1 eq_refl) as [z Hz]. discriminate Hz.
  - destruct (proj2 H1 eq_refl) as [z Hz]. discriminate Hz.
Qed.

Lemma processDicomFile_success_iff env buf fileName (options : ProcessingOptions) :
  success (processDicomFile env buf fileName options) = true <->
  anonymize options = false \/ binarySalt options = true.
Proof.
  rewrite processDicomFile_success.
  destruct (anonymize options), (binarySalt options); cbn; split; auto;
    intros [H | H]; discriminate H.
Qed.

Lemma processDicomFile_caught env buf fileName (options : ProcessingOptions) :
  success (processDicomFile env buf fileName options) = false ->
  processDicomFile env buf fileName options = caught env fileName.
Proof.
  unfold processDicomFile. cbv zeta.
  destruct (if anonymize options then _ else _) as [x|];
    [destruct (if anonymize options then _ else _) as [y|]|]; cbn [success];
    [discriminate | reflexivity..].
Qed.

Lemma processDicomFile_metadata_iff env buf fileName (options : ProcessingOptions) :
  is_Some (metadata (processDicomFile env buf fileName options)) <->
  success (processDicomFile env buf fileName options) = true.
Proof.
  unfold processDicomFile. cbv zeta.
  destruct (if anonymize options then _ else _) as [x|];
    [destruct (if anonymize options then _ else _) as [y|]|]; cbn [success metadata caught];
    split; try discriminate; try (intros [z Hz]; discriminate Hz);
    intros _; eexists; reflexivity.
Qed.


Lemma processDicomFile_file_path env buf fileName (options : ProcessingOptions) :
  file_path (processDicomFile env buf fileName options) = fileName /\
  processing_time (processDicomFile env buf fileName options) = (endTime env - startTime env)%Z.
Proof.
  unfold processDicomFile. cbv zeta.
  destruct (if anonymize options then _ else _) as [x|];
    [destruct (if anonymize options then _ else _) as [y|]|]; split; reflexivity.
Qed.

Lemma processDicomFile_value_success env buf fileName (options : OptionsValue) :
  success (processDicomFile_value env buf fileName options) = accepted options.
Proof. destruct options as [|o]; [reflexivity | apply processDicomFile_success]. Qed.

Lemma processDicomFile_value_caught env buf fileName (options : OptionsValue) :
  accepted options = false ->
  processDicomFile_value env buf fileName options = caught env fileName.
Proof.
  destruct options as [|o]; [reflexivity|]. intros H.
  apply processDicomFile_caught. rewrite processDicomFile_success. exact H.
Qed.

Lemma processDicomFile_value_file_path env buf fileName (options : OptionsValue) :
  file_path (processDicomFile_value env buf fileName options) = fileName /\
  processing_time (processDicomFile_value env buf fileName options)
  = (endTime env - startTime env)%Z.
Proof.
  destruct options as [|o]; [split; reflexivity | apply processDicomFile_file_path].
Qed.


(** The record of a result, up to the two pseudonymized fields. *)
Lemma processDicomFile_record env buf fileName (options : ProcessingOptions) m :
  metadata (processDicomFile env buf fileName options) = Some m ->
  exists patientId patientName,
    m = {| patient_id := patientId;
           patient_name := patientName;
           patient_age := "45Y";
           patient_sex := "M";
           modality := getModalityFromFileName fileName;
           body_part_examined := getBodyPartFromFileName fileName;
           study_description := "Routine examination";
           study_date_time := isoNow env;
           phi_removed := if anonymize options then "YES" else "NO";
           manufacturer := "SIEMENS";
           model := "SOMATOM Definition AS";
           software_versions := "syngo CT 2012B";
           magnetic_field_strength := "N/A";
           slice_thickness := "5.0";
           pixel_spacing := "[0.976562, 0.976562]";
           rows := "512";
           columns := "512";
           photometric_interpretation := "MONOCHROME2";
           study_instance_uid := generateUID (uidNow1 env) (uidRnd1 env);
           series_instance_uid := generateUID (uidNow2 env) (uidRnd2 env);
           transfer_syntax_uid := "1.2.840.10008.1.2.1";
           number_of_frames := None;
           phi_flags := if anonymize options then [] else ["PatientName"; "PatientID"];
           urgent := checkUrgency (getModalityFromFileName fileName) "Routine examination";
           urgent_reasons :=
             if checkUrgency (getModalityFromFileName fileName) "Routine examination"
             then ["Routine screening"]
             else [];
           private_tags := [] |}.
Proof.
  unfold processDicomFile. cbv zeta.
  destruct (if anonymize options then _ else _) as [x|];
    [destruct (if anonymize options then _ else _) as [y|]|]; cbn [metadata caught];
    intros H; try discriminate H.
  injection H as <-. eexists _, _. reflexivity.
Qed.

(** ** Anonymization inside [processDicomFile] *)

(** [processDicomFile] never reads [anonymize_mode]. *)
Lemma processDicomFile_ignores_mode env buf fileName (o : ProcessingOptions) :
  processDicomFile env buf fileName (with_mode remove o)
  = processDicomFile env buf fileName (with_mode pseudonymize o).
Proof. reflexivity. Qed.

(** C5, on the code. With [anonymize] set and mode [remove], whatever the
    file, the output carries two different pseudonyms in [patient_id] and
    [patient_name], the same values as in mode [pseudonymize]; so the
    configured fields do not hold one fixed redaction marker, and neither is
    the marker "REDACTED" that the settings panel announces. *)
Theorem processDicomFile_remove_mode_pseudonymizes env buf fileName :
  exists m,
    metadata (processDicomFile env buf fileName remove_options) = Some m /\
    patient_id m = "anon_UEFUSUVOVF8w" /\
    patient_name m = "anon_Sm9obiBEb2Vk" /\
    patient_id m <> patient_name m /\
    patient_id m <> "REDACTED" /\
    metadata (processDicomFile env buf fileName (with_mode pseudonymize remove_options))
    = Some m.
Proof.
  eexists. split; [reflexivity|]. cbn.
  repeat split; discriminate.
Qed.

(** C6. Every record produced by [processDicomFile] has [phi_removed] equal
    to "YES" exactly when [options.anonymize] is set, has no [phi_flags] when
    anonymization was applied, and has [urgent] set exactly when
    [urgent_reasons] is not empty. A record is produced for all options but
    those that ask for anonymization with a salt that is not a binary
    string. *)
Theorem processDicomFile_flags_consistent env buf fileName (options : ProcessingOptions) :
  (forall m,
     metadata (processDicomFile env buf fileName options) = Some m ->
     (phi_removed m = "YES" <-> anonymize options = true) /\
     (anonymize options = true -> phi_flags m = []) /\
     (urgent m = true <-> urgent_reasons m <> [])) /\
  (is_Some (metadata (processDicomFile env buf fileName options)) <->
   anonymize options = false \/ binarySalt options = true).
Proof.
  split.
  - intros m Hm. apply processDicomFile_record in Hm as (patientId & patientName & ->).
    cbn [phi_removed phi_flags urgent urgent_reasons].
    repeat split.
    + destruct (anonymize options); [reflexivity | discriminate].
    + intros ->. reflexivity.
    + intros ->. reflexivity.
    + intros ->. discriminate.
    + destruct (checkUrgency _ _); [reflexivity | intros H; destruct H; reflexivity].
  - rewrite <- processDicomFile_success_iff. apply processDicomFile_metadata_iff.
Qed.

Lemma processDicomFile_flags_consistent_witness :
  anonymize remove_options = true /\
  exists m,
    metadata (processDicomFile sample_env [] "head_ct.dcm" remove_options) = Some m /\
    phi_removed m = "YES" /\ phi_flags m = [].
Proof.
  split; [reflexivity|].
  destruct (processDicomFile_flags_consistent sample_env [] "head_ct.dcm" remove_options)
    as (Hrecord & Hsome).
  destruct (proj2 Hsome (or_intror eq_refl)) as [m Hm].
  destruct (Hrecord m Hm) as (Hphi & Hflags & _).
  exists m. split; [exact Hm|].
  split; [apply Hphi; reflexivity | apply Hflags; reflexivity].
Defined.

(** The scenario of the specification: with [anonymize] set and mode
    [remove], the flags that would read PatientName, PatientID are empty and
    [phi_removed] is YES. *)
Example processDicomFile_remove_scenario env buf fileName :
  exists m,
    metadata (processDicomFile env buf fileName remove_options) = Some m /\
    phi_flags m = [] /\ phi_removed m = "YES" /\
    exists m',
      metadata (processDicomFile env buf fileName (with_mode remove Samples.options)) = Some m' /\
      phi_flags m' = ["PatientName"; "PatientID"] /\ phi_removed m' = "NO".
Proof.
  eexists. split; [reflexivity|]. split; [reflexivity|]. split; [reflexivity|].
  eexists. split; [reflexivity|]. split; reflexivity.
Qed.

(** The mock study is never urgent: its description is the constant
    "Routine examination". *)
Lemma processDicomFile_never_urgent env buf fileName (options : ProcessingOptions) m :
  metadata (processDicomFile env buf fileName options) = Some m ->
  urgent m = false /\ urgent_reasons m = [].
Proof.
  intros Hm. apply processDicomFile_record in Hm as (patientId & patientName & ->).
  cbn [urgent urgent_reasons].
  assert (H : forall modality, checkUrgency modality "Routine examination" = false).
  { intros modality. unfold checkUrgency.
    destruct (String.eqb modality "CT"); reflexivity. }
  rewrite H. split; reflexivity.
Qed.

End ProcessorFacts.

(** * Properties of the report generator *)

Module ReportFacts.
Import Report Samples.

(** ** Counting in plain objects *)

Lemma sum_values_insert_fresh (o : gmap string JsValue) k v :
  o !! k = None -> sum_values (<[k := v]> o) = value_number v + sum_values o.
Proof.
  intros Hk. unfold sum_values.
  rewrite map_fold_insert_L; [reflexivity | intros; lia | exact Hk].
Qed.

Lemma sum_values_lookup (o : gmap string JsValue) k v :
  o !! k = Some v -> sum_values o = value_number v + sum_values (delete k o).
Proof.
  intros Hk. unfold sum_values.
  rewrite (map_fold_delete_L _ _ k v o); [reflexivity | intros; lia | exact Hk].
Qed.

Lemma sum_values_insert_over (o : gmap string JsValue) k v v' :
  o !! k = Some v ->
  sum_values (<[k := v']> o) + value_number v = sum_values o + value_number v'.
Proof.
  intros Hk. rewrite (sum_values_lookup o k v Hk).
  rewrite <- (insert_delete_eq o k v').
  rewrite sum_values_insert_fresh by apply lookup_delete_eq. lia.
Qed.

Lemma count_ordinary (o : gmap string JsValue) k :
  ordinary k -> numbers_only o ->
  numbers_only (count o k) /\ sum_values (count o k) = S (sum_values o).
Proof.
  intros [Hproto Hmeth] Hnum. unfold count, set, get. rewrite Hproto, Hmeth.
  destruct (o !! k) as [v|] eqn:Hk.
  - pose proof (Hnum k v Hk) as Hv. destruct v as [n|]; [|destruct Hv]. cbn [or0_plus1].
    split.
    + apply map_Forall_insert_2; [exact I | exact Hnum].
    + pose proof (sum_values_insert_over o k (VNumber n) (VNumber (n + 1)) Hk) as H.
      cbn [value_number] in H. lia.
  - cbn [or0_plus1]. split.
    + apply map_Forall_insert_2; [exact I | exact Hnum].
    + rewrite sum_values_insert_fresh by exact Hk. reflexivity.
Qed.

(** The key [__proto__] is never counted: the object is left as it was. *)
Lemma count_proto (o : gmap string JsValue) : count o "__proto__" = o.
Proof. reflexivity. Qed.

(** ** Totals *)

Lemma filter_partition (l : list ProcessedFileData) :
  length (List.filter (fun f => Status_eqb (status f) success) l)
  + length (List.filter (fun f => Status_eqb (status f) error) l)
  = length l.
Proof.
  induction l as [|f l IH]; [reflexivity|].
  cbn [List.filter]. destruct (status f); cbn [Status_eqb length]; lia.
Qed.

Lemma generateSummary_totals (files : list ProcessedFileData) :
  successfulFiles (generateSummary files) + failedFiles (generateSummary files)
  = totalFiles (generateSummary files).
Proof. apply filter_partition. Qed.

Lemma forEach_counts (l : list ProcessedFileData) :
  forall n c, Forall ordinary_keys l -> counters_ok n c ->
  counters_ok (n + length l) (fold_left forEach_body l c).
Proof.
  induction l as [|f l IH]; intros n c Hl Hc.
  - cbn. rewrite Nat.add_0_r. exact Hc.
  - apply Forall_cons_1 in Hl as [(Hm & Hb & Hf) Hl].
    cbn [fold_left length]. replace (n + S (length l)) with (S n + length l) by lia.
    apply IH; [exact Hl|].
    destruct Hc as ((Hn1 & Hs1) & (Hn2 & Hs2) & (Hn3 & Hs3)).
    unfold counters_ok, forEach_body; cbn.
    destruct (count_ordinary _ _ Hm Hn1) as [? ->].
    destruct (count_ordinary _ _ Hb Hn2) as [? ->].
    destruct (count_ordinary _ _ Hf Hn3) as [? ->].
    rewrite Hs1, Hs2, Hs3. repeat split; assumption.
Qed.

(** On outcomes whose modality, body part and manufacturer are ordinary keys,
    each frequency map holds numbers only and they add up to the number of
    successful files. *)
Lemma generateSummary_sums_ordinary (files : list ProcessedFileData) :
  Forall ordinary_keys files ->
  sum_values (modalities (generateSummary files)) = successfulFiles (generateSummary files) /\
  sum_values (bodyParts (generateSummary files)) = successfulFiles (generateSummary files) /\
  sum_values (manufacturers (generateSummary files)) = successfulFiles (generateSummary files).
Proof.
  intros Hall. unfold generateSummary; cbn.
  set (ok := List.filter (fun f => Status_eqb (status f) success) files).
  assert (Hok : Forall ordinary_keys ok).
  { apply List.Forall_forall. intros f Hf. apply List.filter_In in Hf as [Hf _].
    revert f Hf. apply List.Forall_forall. exact Hall. }
  pose proof (forEach_counts ok 0
    {| c_modalities := ∅; c_bodyParts := ∅; c_manufacturers := ∅;
       c_urgentStudies := 0; c_phiDetected := 0; c_anonymizedFiles := 0 |} Hok) as H.
  destruct H as ((_ & H1) & (_ & H2) & (_ & H3)).
  { repeat split; solve [apply map_Forall_empty | reflexivity]. }
  cbn in H1, H2, H3. rewrite H1, H2, H3. repeat split.
Qed.

(** What [processDicomFile] puts in the three counted fields are ordinary
    keys, so the sums are right on everything the processor produces. *)
Lemma processed_ordinary (f : ProcessedFileData) : processed f -> ordinary_keys f.
Proof.
  intros (env & buf & name & options & H).
  apply ProcessorFacts.processDicomFile_record in H as (patientId & patientName & H).
  unfold ordinary_keys. rewrite H. cbn.
  unfold Processor.getModalityFromFileName, Processor.getBodyPartFromFileName.
  repeat split;
    repeat match goal with
    | |- context [if ?b then _ else _] => destruct b
    end; reflexivity.
Qed.

Lemma generateSummary_sums_processed (files : list ProcessedFileData) :
  Forall processed files ->
  sum_values (modalities (generateSummary files)) = successfulFiles (generateSummary files) /\
  sum_values (bodyParts (generateSummary files)) = successfulFiles (generateSummary files) /\
  sum_values (manufacturers (generateSummary files)) = successfulFiles (generateSummary files).
Proof.
  intros H. apply generateSummary_sums_ordinary.
  eapply Forall_impl; [exact H|]. exact processed_ordinary.
Qed.

(** C7, on the code. The totals add up, but a successful outcome whose
    manufacturer is the string [__proto__] is counted in no entry of
    [manufacturers]: the summary reports one successful file while the values
    of [manufacturers] add up to zero (the object stays empty). The other two
    maps count the file. *)
Theorem generateSummary_proto_key_uncounted :
  let s := generateSummary [outcome "a.dcm" "CT" "__proto__"] in
  successfulFiles s + failedFiles s = totalFiles s /\
  successfulFiles s = 1 /\
  manufacturers s = ∅ /\
  sum_values (manufacturers s) = 0 /\
  sum_values (modalities s) = 1 /\
  sum_values (bodyParts s) = 1.
Proof. cbv zeta. repeat split; vm_compute; reflexivity. Qed.

(** An inherited method name is counted as text, not as a number. *)
Example generateSummary_constructor_key :
  manufacturers (generateSummary [outcome "a.dcm" "CT" "constructor"]) !! "constructor"
  = Some VText.
Proof. vm_compute. reflexivity. Qed.

Example generateSummary_ordinary_modalities :
  let s := generateSummary [outcome "a.dcm" "CT" "SIEMENS"; outcome "b.dcm" "MR" "GE";
                            outcome "c.dcm" "CT" "SIEMENS"] in
  modalities s !! "CT" = Some (VNumber 2) /\ modalities s !! "MR" = Some (VNumber 1) /\
  sum_values (modalities s) = 3 /\ sum_values (manufacturers s) = 3.
Proof. cbv zeta. repeat split; vm_compute; reflexivity. Qed.

End ReportFacts.

(** * Delimited text is read back as written *)

Module CsvFacts.
Import Report Csv JsFacts.

(** Inside a quoted field, the escaped text of [s] followed by the closing
    quote adds exactly [s] to the cell being read. *)
Lemma parse_quoted_body (s : string) :
  forall rows row cell rest,
    parse_from Quoted rows row cell (escape_quotes s +:+ String dquote rest)
    = parse_from QuoteSeen rows row (cell +:+ s) rest.
Proof.
  induction s as [|c s IH]; intros rows row cell rest.
  - rewrite append_nil_r. reflexivity.
  - cbn [escape_quotes]. destruct (Ascii.eqb c dquote) eqn:Hc.
    + apply Ascii.eqb_eq in Hc. subst c.
      change (parse_from Quoted rows row (cell +:+ String dquote EmptyString)
                (escape_quotes s +:+ String dquote rest)
              = parse_from QuoteSeen rows row (cell +:+ String dquote s) rest).
      rewrite IH, append_snoc. reflexivity.
    + rewrite append_cons. cbn [parse_from]. rewrite Hc, IH, append_snoc. reflexivity.
Qed.

Lemma parse_cell (s : string) rows row rest :
  parse_from FieldStart rows row EmptyString (quote_cell s +:+ rest)
  = parse_from QuoteSeen rows row s rest.
Proof.
  unfold quote_cell. rewrite !append_cons, append_assoc.
  change (parse_from Quoted rows row EmptyString
            (escape_quotes s +:+ String dquote rest)
          = parse_from QuoteSeen rows row s rest).
  rewrite parse_quoted_body. reflexivity.
Qed.

Lemma render_row_cons (c d : string) (cells : list string) :
  render_row (c :: d :: cells)
  = quote_cell c +:+ String comma (render_row (d :: cells)).
Proof. reflexivity. Qed.

(** A rendered row followed by a line break closes the row. *)
Lemma parse_row_newline (cells : list string) :
  forall c rows row rest,
    parse_from FieldStart rows row EmptyString
      (render_row (c :: cells) +:+ String newline rest)
    = parse_from FieldStart (rows ++ [row ++ c :: cells]) [] EmptyString rest.
Proof.
  induction cells as [|d cells IH]; intros c rows row rest.
  - change (render_row [c]) with (quote_cell c). rewrite parse_cell. reflexivity.
  - rewrite render_row_cons, append_assoc, parse_cell.
    change (parse_from FieldStart rows (row ++ [c]) EmptyString
              (render_row (d :: cells) +:+ String newline rest)
            = parse_from FieldStart (rows ++ [row ++ c :: d :: cells]) [] EmptyString rest).
    rewrite IH, <- app_assoc. reflexivity.
Qed.

(** A rendered row at the end of the text closes the row as well. *)
Lemma parse_row_end (cells : list string) :
  forall c rows row,
    parse_from FieldStart rows row EmptyString (render_row (c :: cells))
    = rows ++ [row ++ c :: cells].
Proof.
  induction cells as [|d cells IH]; intros c rows row.
  - change (render_row [c]) with (quote_cell c).
    rewrite <- (append_nil_r (quote_cell c)), parse_cell. reflexivity.
  - rewrite render_row_cons, parse_cell.
    change (parse_from FieldStart rows (row ++ [c]) EmptyString (render_row (d :: cells))
            = rows ++ [row ++ c :: d :: cells]).
    rewrite IH, <- app_assoc. reflexivity.
Qed.

Lemma render_rows_cons (r r' : list string) (table : list (list string)) :
  render_rows (r :: r' :: table)
  = render_row r +:+ String newline (render_rows (r' :: table)).
Proof. reflexivity. Qed.

Lemma parse_table (table : list (list string)) :
  Forall (fun row => row <> []) table ->
  forall rows, parse_from FieldStart rows [] EmptyString (render_rows table) = rows ++ table.
Proof.
  induction table as [|r table IH]; intros Hne rows.
  - cbn. rewrite app_nil_r. reflexivity.
  - apply Forall_cons_1 in Hne as [Hr Hne].
    destruct r as [|c cells]; [destruct Hr; reflexivity|].
    destruct table as [|r' table].
    + change (render_rows [c :: cells]) with (render_row (c :: cells)).
      rewrite parse_row_end. reflexivity.
    + rewrite render_rows_cons, parse_row_newline, (IH Hne), <- app_assoc. reflexivity.
Qed.

(** Every table with at least one cell per row is read back unchanged. *)
Lemma parse_render_rows (table : list (list string)) :
  Forall (fun row => row <> []) table -> parse (render_rows table) = table.
Proof. intros Hne. unfold parse. rewrite parse_table by exact Hne. reflexivity. Qed.

(** [escape_quotes] writes every character once, and a quote twice. *)
Lemma concat_empty_cons (x : string) (l : list string) :
  String.concat EmptyString (x :: l) = x +:+ String.concat EmptyString l.
Proof. destruct l; [cbn; rewrite append_nil_r|]; reflexivity. Qed.

Lemma escape_quotes_doubles (cell : string) :
  escape_quotes cell
  = String.concat EmptyString
      (map (fun c => if Ascii.eqb c dquote
                     then String dquote (String dquote EmptyString)
                     else String c EmptyString)
           (list_ascii_of_string cell)).
Proof.
  induction cell as [|c cell IH]; [reflexivity|].
  cbn [escape_quotes list_ascii_of_string map]. rewrite concat_empty_cons, <- IH.
  destruct (Ascii.eqb c dquote); reflexivity.
Qed.

(** C8. The delimited text of a report over N outcomes is made of lines,
    one per row, each the cells of the row separated by commas, every cell
    written between quotes with each quote inside it written twice. Read
    back, the text gives exactly N + 1 rows of sixteen cells: the header
    row, and for each outcome, in order, the row of its values: file name,
    status, processing time, and, for a success, the patient id, name, age
    and sex, the modality, the body part, the study description and date,
    the manufacturer, the model, YES or NO for urgent, the PHI-removed mark
    and the PHI flags joined by semicolons; for a failure these thirteen
    cells are empty. This holds whatever the values contain (quotes,
    commas, line breaks). *)
Theorem generateCSVReport_round_trip (data : ReportData) :
  let written (cell : string) : string :=
    String dquote
      (String.concat EmptyString
         (map (fun c => if Ascii.eqb c dquote
                        then String dquote (String dquote EmptyString)
                        else String c EmptyString)
              (list_ascii_of_string cell))
       +:+ String dquote EmptyString) in
  let header : list string :=
    [ "File Name"; "Status"; "Processing Time (ms)"; "Patient ID"; "Patient Name";
      "Age"; "Sex"; "Modality"; "Body Part"; "Study Description"; "Study Date";
      "Manufacturer"; "Model"; "Urgent"; "PHI Removed"; "PHI Flags" ] in
  let values (file : ProcessedFileData) : list string :=
    let m := metadata file in
    match status file with
    | success =>
        [ fileName file; "success"; pretty (processingTime file);
          Processor.patient_id m; Processor.patient_name m; Processor.patient_age m;
          Processor.patient_sex m; Processor.modality m; Processor.body_part_examined m;
          Processor.study_description m; Processor.study_date_time m;
          Processor.manufacturer m; Processor.model m;
          if Processor.urgent m then "YES" else "NO";
          Processor.phi_removed m;
          String.concat ";" (Processor.phi_flags m) ]
    | error =>
        [ fileName file; "error"; pretty (processingTime file);
          EmptyString; EmptyString; EmptyString; EmptyString; EmptyString;
          EmptyString; EmptyString; EmptyString; EmptyString; EmptyString;
          EmptyString; EmptyString; EmptyString ]
    end in
  generateCSVReport data
  = String.concat (String newline EmptyString)
      (map (fun row => String.concat (String comma EmptyString) (map written row))
           (header :: map values (files data))) /\
  parse (generateCSVReport data) = header :: map values (files data) /\
  length (parse (generateCSVReport data)) = S (length (files data)) /\
  Forall (fun row => length row = 16) (parse (generateCSVReport data)).
Proof.
  intros written header values.
  assert (Hrow : forall file, csv_row file = values file).
  { intros file. unfold csv_row, values, on_success. cbv zeta.
    destruct (status file); reflexivity. }
  assert (Hrows : map csv_row (files data) = map values (files data))
    by (apply List.map_ext; exact Hrow).
  assert (Hcell : forall cell, quote_cell cell = written cell).
  { intros cell. unfold quote_cell, written. rewrite escape_quotes_doubles. reflexivity. }
  assert (Hparse : parse (generateCSVReport data) = header :: map values (files data)).
  { unfold generateCSVReport. cbv zeta. rewrite Hrows.
    change headers with header. apply parse_render_rows.
    constructor; [discriminate|].
    apply Forall_forall. intros row Hrow'.
    apply list_elem_of_fmap in Hrow' as (f & -> & _).
    unfold values. cbv zeta. destruct (status f); discriminate. }
  split; [|split; [exact Hparse|split]].
  - unfold generateCSVReport, render_rows, render_row, Js.join. cbv zeta.
    rewrite Hrows. change headers with header.
    f_equal. apply List.map_ext. intros row. f_equal. apply List.map_ext. exact Hcell.
  - rewrite Hparse. cbn [length]. rewrite length_map. reflexivity.
  - rewrite Hparse. constructor; [reflexivity|].
    apply Forall_forall. intros row Hrow'.
    apply list_elem_of_fmap in Hrow' as (f & -> & _).
    unfold values. cbv zeta. destruct (status f); reflexivity.
Qed.

(** A report of one success and one failure, with a quote, a comma and a
    line break in the file names: the cells are read back as they were. *)
Example generateCSVReport_awkward_names :
  let quoted := "a" +:+ String dquote ("b,c" +:+ String newline "d.dcm") in
  let failed :=
    {| fileName := "x,y.dcm"; fileSize := 7; metadata := Samples.study "MR" "GE";
       processingTime := 12; status := error; error_message := Some "Disk full" |} in
  parse (generateCSVReport
           (generateReportData "2024-01-01T00:00:00.000Z" "R1"
              [Samples.outcome quoted "CT" "SIEMENS"; failed] Samples.options))
  = [ [ "File Name"; "Status"; "Processing Time (ms)"; "Patient ID"; "Patient Name";
        "Age"; "Sex"; "Modality"; "Body Part"; "Study Description"; "Study Date";
        "Manufacturer"; "Model"; "Urgent"; "PHI Removed"; "PHI Flags" ];
      [ quoted; "success"; "1500"; "PATIENT_001"; "John Doe"; "45Y"; "M"; "CT"; "CHEST";
        "Routine examination"; "2024-01-01T00:00:00.000Z"; "SIEMENS";
        "SOMATOM Definition AS"; "NO"; "NO"; "PatientName;PatientID" ];
      [ "x,y.dcm"; "error"; "12"; EmptyString; EmptyString; EmptyString; EmptyString;
        EmptyString; EmptyString; EmptyString; EmptyString; EmptyString; EmptyString;
        EmptyString; EmptyString; EmptyString ] ].
Proof. vm_compute. reflexivity. Qed.

(** A cell with a quote, a comma and a line break in it survives the trip. *)
Example parse_awkward_cell :
  let cell := "a" +:+ String dquote ("b,c" +:+ String newline "d") in
  parse (render_rows [["x"; cell]; [cell; EmptyString]]) = [["x"; cell]; [cell; EmptyString]].
Proof. vm_compute. reflexivity. Qed.

(** The reader on text written by hand: bare and quoted fields, an empty
    field, a line break at the end. *)
Example parse_plain_text :
  parse ("name,age" +:+ String newline ("Ann,41" +:+ String newline
         (String dquote ("Lee, Bo" +:+ String dquote (",," +:+ String newline EmptyString)))))
  = [["name"; "age"]; ["Ann"; "41"]; ["Lee, Bo"; EmptyString; EmptyString]].
Proof. vm_compute. reflexivity. Qed.

End CsvFacts.

(** * Properties of the dashboard *)

Module DashboardFacts.
Import Dashboard Samples.

(** ** Starting a job *)

Lemma findJob_status (jobId : string) (s : State) (st : JobStatus.t) :
  jobStatus jobId s = Some st ->
  exists j, findJob jobId s = Some j /\ BatchJob.status j = st.
Proof.
  unfold jobStatus. destruct (findJob jobId s) as [j|]; [|discriminate].
  cbn. intros [= <-]. eauto.
Qed.

(** C1, as stated, fails: with A running, [startJob] on the idle job B is
    carried out. B becomes running, its file is being processed and a second
    call is left in flight. *)
Lemma startJob_other_job_running_not_rejected :
  let s := state (run two_jobs_first_running boot) in
  "A" <> "B" /\
  jobStatus "A" s = Some JobStatus.running /\
  jobStatus "B" s = Some JobStatus.idle /\
  fileStates "B" s = [(FileStatus.queued, 0%Z)] /\
  jobStatus "B" (fst (startJob "B" 20 s)) = Some JobStatus.running /\
  fileStates "B" (fst (startJob "B" 20 s)) = [(FileStatus.processing, 0%Z)] /\
  is_Some (snd (startJob "B" 20 s)).
Proof.
  cbv zeta. split; [discriminate|].
  repeat split; try (vm_compute; reflexivity).
  vm_compute. eexists. reflexivity.
Qed.

(** ** Pausing a job *)

Lemma id_jobPaused j : BatchJob.id (jobPaused j) = BatchJob.id j.
Proof. reflexivity. Qed.
Lemma id_jobRunning now j : BatchJob.id (jobRunning now j) = BatchJob.id j.
Proof. reflexivity. Qed.
Lemma id_jobWithProgress p j : BatchJob.id (jobWithProgress p j) = BatchJob.id j.
Proof. reflexivity. Qed.
Lemma id_jobCompleted now j : BatchJob.id (jobCompleted now j) = BatchJob.id j.
Proof. reflexivity. Qed.
Lemma id_onFiles cond g j : BatchJob.id (onFiles cond g j) = BatchJob.id j.
Proof. reflexivity. Qed.

(** The updates of a job keep its id, so the tests [j.id === jobId] of
    successive updates all go the same way. *)
Ltac job_ids H :=
  repeat (progress (rewrite ?id_jobPaused, ?id_jobRunning, ?id_jobWithProgress,
                      ?id_jobCompleted, ?id_onFiles, ?H)).

(** [pauseJob] rewrites the status of the job and nothing else in [jobs]. *)
Lemma pauseJob_files (jobId : string) (s : State) :
  map BatchJob.files (jobs (pauseJob jobId s)) = map BatchJob.files (jobs s).
Proof.
  unfold pauseJob, setJobs, onJob; cbn [jobs].
  induction (jobs s) as [|j l IH]; [reflexivity|].
  cbn [map]. rewrite IH. destruct (String.eqb (BatchJob.id j) jobId); reflexivity.
Qed.

Lemma pauseJob_lookup (jobId : string) (s : State) (n : nat) (j : BatchJob.t) :
  jobs s !! n = Some j ->
  exists j', jobs (pauseJob jobId s) !! n = Some j' /\
             BatchJob.files j' = BatchJob.files j.
Proof.
  intros Hn. unfold pauseJob, setJobs, onJob; cbn [jobs].
  rewrite list_lookup_fmap, Hn. cbn. eexists. split; [reflexivity|].
  destruct (String.eqb (BatchJob.id j) jobId); reflexivity.
Qed.

Lemma aborted_after_pauseJob (jobId : string) (s : State) (c : nat) :
  processingController s = Some c -> c < length (controllers s) ->
  aborted (pauseJob jobId s) = true.
Proof.
  intros Hc Hlen. unfold aborted, pauseJob; cbn. rewrite Hc; cbn.
  rewrite list_lookup_insert_eq by exact Hlen. reflexivity.
Qed.

(** With the current controller aborted, a call that resumes in its [catch]
    block leaves the loop at once: the job is marked completed at 100. *)
Lemma resume_rejected_when_aborted (t : Task) (e : Thrown) (now : Z) (s : State) :
  aborted s = true ->
  resume t (Rejected e) now s
  = (finishJob (jobId t) now
       (setJobs (onJob (jobId t)
          (jobWithProgress
             (jobProgressOf (length (List.filter isSettled (BatchJob.files (job t))))
                            (length (BatchJob.files (job t))))))
          (catchBlock e t s)),
     None).
Proof.
  intros Hab.
  assert (Hres : resume t (Rejected e) now s = afterFile t now (catchBlock e t s))
    by (unfold resume; destruct (awaiting t); reflexivity).
  rewrite Hres. unfold afterFile, loopFrom. cbv zeta.
  assert (Hab' : forall f g, aborted (setJobs f (catchBlock e t (setJobs g s))) = true).
  { intros f g. destruct e; exact Hab. }
  specialize (Hab' (onJob (jobId t)
     (jobWithProgress (jobProgressOf (length (List.filter isSettled (BatchJob.files (job t))))
                                     (length (BatchJob.files (job t)))))) (fun l => l)).
  assert (Hid : setJobs (fun l => l) s = s) by (destruct s; reflexivity).
  rewrite Hid in Hab'. rewrite Hab'.
  destruct (queuedFiles t !! S (i t)); reflexivity.
Qed.

Lemma isSettled_not_processing (f : BatchFile.t) :
  isSettled f = true -> BatchFile.status f <> FileStatus.processing.
Proof. unfold isSettled. intros H Hp. rewrite Hp in H. discriminate H. Qed.

(** The cancellation signalled by [pauseJob] resumes the suspended call in
    its [catch] block. When a controller is installed and the file in flight
    is the one marked processing, every job keeps every settled file at its
    place, and the call ends. *)
Lemma abort_after_pause_keeps_settled (s : State) (jobId : string)
    (t : Task) (c : nat) (now : Z) :
  processingController s = Some c -> c < length (controllers s) ->
  (forall j g, In j (jobs s) -> BatchJob.id j = Dashboard.jobId t ->
               In g (BatchJob.files j) -> BatchFile.id g = BatchFile.id (file t) ->
               BatchFile.status g = FileStatus.processing) ->
  forall n m j f,
    jobs s !! n = Some j -> BatchJob.files j !! m = Some f -> isSettled f = true ->
    exists j',
      jobs (fst (resume t (Rejected AbortError) now (pauseJob jobId s))) !! n = Some j' /\
      BatchJob.files j' !! m = Some f /\
      snd (resume t (Rejected AbortError) now (pauseJob jobId s)) = None.
Proof.
  intros Hc Hlen Hflight n m j f Hn Hm Hset.
  rewrite (resume_rejected_when_aborted t AbortError now (pauseJob jobId s)
             (aborted_after_pauseJob jobId s c Hc Hlen)).
  cbn [fst snd]. unfold finishJob, catchBlock, pauseJob, setJobs, onJob; cbn [jobs].
  rewrite !list_lookup_fmap, Hn. cbn [fmap option_fmap option_map].
  eexists. split; [reflexivity|]. split; [|reflexivity].
  assert (Hkeep : BatchJob.id j = Dashboard.jobId t ->
                  hasId (BatchFile.id (file t)) f = false).
  { intros Hid. unfold hasId. apply String.eqb_neq. intros Hf.
    apply (isSettled_not_processing f Hset).
    apply (Hflight j f); [| exact Hid | | exact Hf].
    - apply list_elem_of_In. eapply list_elem_of_lookup_2. exact Hn.
    - apply list_elem_of_In. eapply list_elem_of_lookup_2. exact Hm. }
  destruct (String.eqb (BatchJob.id j) jobId);
    destruct (String.eqb (BatchJob.id j) (Dashboard.jobId t)) eqn:E2;
    job_ids E2;
    cbn [onFiles withFiles jobWithProgress jobCompleted jobPaused BatchJob.files];
    try exact Hm;
    apply String.eqb_eq in E2; rewrite list_lookup_fmap, Hm; cbn;
    rewrite (Hkeep E2); reflexivity.
Qed.

Example mid_flight_shape :
  length (tasks mid_flight) = 1 /\
  Dashboard.jobId suspended_call = "J" /\
  BatchFile.id (file suspended_call) = "J_file_1" /\
  awaiting suspended_call = AwaitFetch /\
  signal suspended_call = Some 0 /\
  BatchFile.id first_file = "J_file_0" /\
  BatchFile.status first_file = FileStatus.completed /\
  BatchFile.progress first_file = 100%Z.
Proof. repeat split; vm_compute; reflexivity. Qed.

(** ** The pause scenario of the specification *)

(** C2, on the code. A job of three files is started and its first file
    completes; [pauseJob] is called while the second request is pending.
    Right after the call the job is paused but the second file is still
    processing. When the aborted request rejects, the second file becomes
    paused with progress 0 and the third stays queued, but the same
    continuation falls out of the loop into "mark job as completed": the job
    ends completed with progress 100, not paused. A later [startJob] does
    process the two remaining files and the job is completed. *)
Theorem pause_scenario_job_marked_completed :
  let before := state (run first_file_done boot) in
  let called := pauseJob "J" before in
  let settled := state (run paused_mid_flight boot) in
  let resumed := state (run resumed_to_end boot) in
  jobStatus "J" before = Some JobStatus.running /\
  fileStates "J" before
    = [(FileStatus.completed, 100%Z); (FileStatus.processing, 0%Z); (FileStatus.queued, 0%Z)] /\
  jobStatus "J" called = Some JobStatus.paused /\
  fileStates "J" called
    = [(FileStatus.completed, 100%Z); (FileStatus.processing, 0%Z); (FileStatus.queued, 0%Z)] /\
  jobStatus "J" settled = Some JobStatus.completed /\
  jobProgress "J" settled = Some 100%Z /\
  fileStates "J" settled
    = [(FileStatus.completed, 100%Z); (FileStatus.paused, 0%Z); (FileStatus.queued, 0%Z)] /\
  tasks (run paused_mid_flight boot) = [] /\
  jobStatus "J" resumed = Some JobStatus.completed /\
  fileStates "J" resumed
    = [(FileStatus.completed, 100%Z); (FileStatus.completed, 100%Z);
       (FileStatus.completed, 100%Z)].
Proof. cbv zeta. repeat split; vm_compute; reflexivity. Qed.

(** The same holds whatever the job: once [pauseJob] has aborted the current
    controller, the call that resumes in its [catch] block marks its job as
    completed with progress 100. *)
Lemma pause_then_abort_marks_completed (s : State) (jobId : string) (t : Task)
    (c : nat) (now : Z) (n : nat) (j : BatchJob.t) :
  processingController s = Some c -> c < length (controllers s) ->
  jobs s !! n = Some j -> BatchJob.id j = Dashboard.jobId t ->
  exists j',
    jobs (fst (resume t (Rejected AbortError) now (pauseJob jobId s))) !! n = Some j' /\
    BatchJob.status j' = JobStatus.completed /\ BatchJob.progress j' = 100%Z.
Proof.
  intros Hc Hlen Hn Hid.
  rewrite (resume_rejected_when_aborted t AbortError now (pauseJob jobId s)
             (aborted_after_pauseJob jobId s c Hc Hlen)).
  cbn [fst]. unfold finishJob, catchBlock, pauseJob, setJobs, onJob; cbn [jobs].
  rewrite !list_lookup_fmap, Hn. cbn [fmap option_fmap option_map].
  eexists. split; [reflexivity|].
  apply String.eqb_eq in Hid.
  destruct (String.eqb (BatchJob.id j) jobId);
    job_ids Hid; split; reflexivity.
Qed.

(** ** Job progress *)

(** C3, on the code. After the first of three files completes, one file out
    of three is settled, so the progress should read 33; the job shows 0,
    because the count is taken on the job as it was when [startJob] was
    called. After the pause that follows, still one file out of three is
    settled, and the job shows 100. *)
Theorem job_progress_not_recomputed :
  let j1 := hd blank_job (jobs (state (run first_file_done boot))) in
  let j2 := hd blank_job (jobs (state (run paused_mid_flight boot))) in
  BatchJob.id j1 = "J" /\
  map BatchFile.status (BatchJob.files j1)
    = [FileStatus.completed; FileStatus.processing; FileStatus.queued] /\
  expectedProgress j1 = 33%Z /\
  BatchJob.progress j1 = 0%Z /\
  BatchJob.id j2 = "J" /\
  map BatchFile.status (BatchJob.files j2)
    = [FileStatus.completed; FileStatus.paused; FileStatus.queued] /\
  expectedProgress j2 = 33%Z /\
  BatchJob.progress j2 = 100%Z.
Proof. cbv zeta. repeat split; vm_compute; reflexivity. Qed.

(** [Math.round] sends ties up, also below zero. *)
Example Math_round_ties :
  Math_round 2.5 = Some 3%Z /\ Math_round (-2.5) = Some (-2)%Z /\
  Math_round 0.5 = Some 1%Z /\ Math_round 0.25 = Some 0%Z /\
  Math_round (0 / 0) = None.
Proof. repeat split; vm_compute; reflexivity. Qed.

(** The percentage itself is computed as asked when the counts are fresh. *)
Example jobProgressOf_thirds :
  jobProgressOf 0 3 = 0%Z /\ jobProgressOf 1 3 = 33%Z /\
  jobProgressOf 2 3 = 67%Z /\ jobProgressOf 3 3 = 100%Z.
Proof. repeat split; vm_compute; reflexivity. Qed.

End DashboardFacts.

(** * Runs driven through the controls: one job at a time *)

Module DashboardRuns.
Import Dashboard Invariant Samples DashboardFacts.

(** ** How the updates of [jobs] act on ids, statuses and files *)

Lemma In_onJob (jobId : string) (f : BatchJob.t -> BatchJob.t) (l : list BatchJob.t) j' :
  In j' (onJob jobId f l) ->
  exists j, In j l /\ j' = if String.eqb (BatchJob.id j) jobId then f j else j.
Proof.
  unfold onJob. intros H. apply List.in_map_iff in H as (j & <- & Hj). eauto.
Qed.

Lemma onJob_In (jobId : string) (f : BatchJob.t -> BatchJob.t) (l : list BatchJob.t) j :
  In j l -> In (if String.eqb (BatchJob.id j) jobId then f j else j) (onJob jobId f l).
Proof.
  intros H. unfold onJob.
  apply (List.in_map (fun j => if String.eqb (BatchJob.id j) jobId then f j else j)).
  exact H.
Qed.

Lemma In_onFiles cond g j f' :
  In f' (BatchJob.files (onFiles cond g j)) ->
  exists f, In f (BatchJob.files j) /\ f' = if cond f then g f else f.
Proof.
  unfold onFiles; cbn. intros H. apply List.in_map_iff in H as (f & <- & Hf). eauto.
Qed.

Lemma keeps_id_test (f : BatchJob.t -> BatchJob.t) (jobId : string) j :
  keeps_id f ->
  BatchJob.id (if String.eqb (BatchJob.id j) jobId then f j else j) = BatchJob.id j.
Proof. intros Hf. destruct (String.eqb _ _); [apply Hf | reflexivity]. Qed.

Lemma present_onJob jobId jobId' f l :
  keeps_id f -> present jobId l -> present jobId (onJob jobId' f l).
Proof.
  intros Hf (j & Hj & Hid). eexists. split; [apply onJob_In; exact Hj|].
  rewrite keeps_id_test by exact Hf. exact Hid.
Qed.

Lemma only_running_onJob jobId jobId' f l :
  keeps_id f -> starts_nothing f ->
  only_running jobId l -> only_running jobId (onJob jobId' f l).
Proof.
  intros Hid Hst Hl j' Hj' Hrun.
  apply In_onJob in Hj' as (j & Hj & ->).
  rewrite keeps_id_test by exact Hid. apply (Hl j Hj).
  destruct (String.eqb _ _); [apply Hst|]; exact Hrun.
Qed.

Lemma all_running_onJob jobId jobId' f l :
  keeps_id f -> keeps_status f ->
  all_running jobId l -> all_running jobId (onJob jobId' f l).
Proof.
  intros Hid Hst Hl j' Hj' Hjid.
  apply In_onJob in Hj' as (j & Hj & ->).
  rewrite keeps_id_test in Hjid by exact Hid.
  destruct (String.eqb _ _); [rewrite Hst|]; apply (Hl j Hj Hjid).
Qed.

(** Marking the files [fileId] of the job [jobId] as processing puts them in
    flight, whatever they were. *)
Lemma in_flight_marked jobId fileId now l :
  in_flight jobId fileId (onJob jobId (onFiles (hasId fileId) (fileProcessing now)) l).
Proof.
  intros j' g' Hj' Hjid Hg' Hgid.
  apply In_onJob in Hj' as (j & Hj & ->).
  assert (Hj_id : BatchJob.id j = jobId).
  { destruct (String.eqb _ _); exact Hjid. }
  apply String.eqb_eq in Hj_id. rewrite Hj_id in Hg'.
  apply In_onFiles in Hg' as (g & Hg & ->).
  destruct (hasId fileId g) eqn:Hh; [reflexivity|].
  unfold hasId in Hh. apply String.eqb_neq in Hh. contradiction.
Qed.

(** An update of the files of one job that leaves the files [fileId] alone,
    or keeps their status, keeps them in flight. *)
Lemma in_flight_onFiles jobId fileId jobId' cond g l :
  (forall f, BatchFile.id f = fileId -> BatchFile.status f = FileStatus.processing ->
             cond f = true ->
             BatchFile.id (g f) = fileId -> BatchFile.status (g f) = FileStatus.processing) ->
  keeps_file_id g ->
  in_flight jobId fileId l -> in_flight jobId fileId (onJob jobId' (onFiles cond g) l).
Proof.
  intros Hg Hgid Hl j' g' Hj' Hjid Hg' Hfid.
  apply In_onJob in Hj' as (j & Hj & ->).
  assert (Hj_id : BatchJob.id j = jobId).
  { destruct (String.eqb _ _); exact Hjid. }
  destruct (String.eqb (BatchJob.id j) jobId'); [|exact (Hl j g' Hj Hj_id Hg' Hfid)].
  apply In_onFiles in Hg' as (f & Hf & ->).
  destruct (cond f) eqn:Hc.
  - pose proof Hfid as Hfid'. rewrite Hgid in Hfid'.
    apply Hg; [exact Hfid' | exact (Hl j f Hj Hj_id Hf Hfid') | exact Hc | exact Hfid].
  - exact (Hl j f Hj Hj_id Hf Hfid).
Qed.

(** An update of one job that keeps its files keeps them in flight. *)
Lemma in_flight_onJob jobId fileId jobId' f l :
  keeps_id f -> (forall j, BatchJob.files (f j) = BatchJob.files j) ->
  in_flight jobId fileId l -> in_flight jobId fileId (onJob jobId' f l).
Proof.
  intros Hid Hfiles Hl j' g' Hj' Hjid Hg' Hfid.
  apply In_onJob in Hj' as (j & Hj & ->).
  rewrite keeps_id_test in Hjid by exact Hid.
  destruct (String.eqb _ _); [rewrite Hfiles in Hg'|]; exact (Hl j g' Hj Hjid Hg' Hfid).
Qed.

(** Once the only running job is marked completed, no job is running. *)
Lemma none_running_completed jobId now l :
  only_running jobId l -> none_running (onJob jobId (jobCompleted now) l).
Proof.
  intros Hl j' Hj' Hrun. apply In_onJob in Hj' as (j & Hj & ->).
  destruct (String.eqb (BatchJob.id j) jobId) eqn:E; [discriminate Hrun|].
  apply String.eqb_neq in E. apply E. exact (Hl j Hj Hrun).
Qed.

Lemma none_running_only jobId l : none_running l -> only_running jobId l.
Proof. intros H j Hj Hrun. destruct (H j Hj Hrun). Qed.

(** ** The invariant *)

Lemma keeps_id_onFiles cond g : keeps_id (onFiles cond g).
Proof. intros j. reflexivity. Qed.
Lemma keeps_status_onFiles cond g : keeps_status (onFiles cond g).
Proof. intros j. reflexivity. Qed.
Lemma starts_nothing_keeps f : keeps_status f -> starts_nothing f.
Proof. intros H j. rewrite H. auto. Qed.
Lemma keeps_id_jobWithProgress p : keeps_id (jobWithProgress p).
Proof. intros j. reflexivity. Qed.
Lemma keeps_status_jobWithProgress p : keeps_status (jobWithProgress p).
Proof. intros j. reflexivity. Qed.
Lemma keeps_id_jobPaused : keeps_id jobPaused.
Proof. intros j. reflexivity. Qed.
Lemma starts_nothing_jobPaused : starts_nothing jobPaused.
Proof. intros j H. discriminate H. Qed.

Create HintDb jobs.
#[local] Hint Resolve keeps_id_onFiles keeps_status_onFiles starts_nothing_keeps
  keeps_id_jobWithProgress keeps_status_jobWithProgress keeps_id_jobPaused
  starts_nothing_jobPaused : jobs.

Lemma aborted_false (s : State) (c : nat) :
  processingController s = Some c -> controllers s !! c = Some false -> aborted s = false.
Proof. intros Hc Hf. unfold aborted. rewrite Hc, Hf. reflexivity. Qed.

(** The head of the loop, entered with the job active and running and the
    controller not aborted, either suspends on the next file or ends the
    call, and the invariant holds either way. *)
Lemma loopFrom_settled jobId job queued i now s c :
  activeJobId s = Some jobId ->
  processingController s = Some c -> controllers s !! c = Some false ->
  present jobId (jobs s) -> only_running jobId (jobs s) -> all_running jobId (jobs s) ->
  settled_as (loopFrom jobId job queued i now s).
Proof.
  intros Hact Hc Hflag Hpres Honly Hall. unfold loopFrom.
  destruct (queued !! i) as [file|].
  - rewrite (aborted_false s c Hc Hflag). cbn.
    unfold busy; cbn. repeat split.
    + exact Hact.
    + exists c. repeat split; assumption.
    + apply present_onJob; auto with jobs.
    + apply only_running_onJob; auto with jobs.
    + apply all_running_onJob; auto with jobs.
    + apply in_flight_marked.
  - cbn. split; [reflexivity|]. cbn. apply none_running_completed. exact Honly.
Qed.

Lemma find_job_In jobId s j :
  findJob jobId s = Some j -> In j (jobs s) /\ BatchJob.id j = jobId.
Proof.
  intros H. apply List.find_some in H as [Hin Hid]. split; [exact Hin|].
  apply String.eqb_eq. exact Hid.
Qed.

Lemma startJob_settled jobId now s j :
  calm s -> findJob jobId s = Some j -> settled_as (startJob jobId now s).
Proof.
  intros [Hact Hnone] Hfind. unfold startJob. unfold findJob in Hfind. rewrite Hfind.
  destruct (find_job_In _ _ _ Hfind) as [Hin Hid].
  destruct (JobStatus.eqb (BatchJob.status j) JobStatus.running) eqn:Hst.
  { exfalso. apply (Hnone j Hin). destruct (BatchJob.status j); try discriminate Hst.
    reflexivity. }
  apply (loopFrom_settled _ _ _ _ _ _ (length (controllers s))); cbn.
  - reflexivity.
  - reflexivity.
  - rewrite lookup_app_r by lia. rewrite Nat.sub_diag. reflexivity.
  - apply present_onJob; [intros ?; reflexivity|]. exists j. split; assumption.
  - intros j' Hj' Hrun. apply In_onJob in Hj' as (j0 & Hj0 & ->).
    destruct (String.eqb (BatchJob.id j0) jobId) eqn:E.
    + apply String.eqb_eq in E. exact E.
    + exfalso. exact (Hnone j0 Hj0 Hrun).
  - intros j' Hj' Hid'. apply In_onJob in Hj' as (j0 & Hj0 & ->).
    destruct (String.eqb (BatchJob.id j0) jobId) eqn:E; [reflexivity|].
    apply String.eqb_neq in E. contradiction.
Qed.

Lemma afterFile_settled t now s c :
  activeJobId s = Some (jobId t) ->
  processingController s = Some c -> controllers s !! c = Some false ->
  present (jobId t) (jobs s) -> only_running (jobId t) (jobs s) ->
  all_running (jobId t) (jobs s) ->
  settled_as (afterFile t now s).
Proof.
  intros Hact Hc Hflag Hpres Honly Hall. unfold afterFile. cbv zeta.
  apply (loopFrom_settled _ _ _ _ _ _ c); cbn; try assumption.
  - apply present_onJob; auto with jobs.
  - apply only_running_onJob; auto with jobs.
  - apply all_running_onJob; auto with jobs.
Qed.

(** The files of one job rewritten: the conditions of [afterFile] hold. *)
Lemma afterFile_onFiles_settled t now s cond g :
  busy t s ->
  settled_as (afterFile t now (setJobs (onJob (jobId t) (onFiles cond g)) s)).
Proof.
  intros (Hact & (c & Hc & _ & Hflag) & Hpres & Honly & Hall & _).
  apply (afterFile_settled _ _ _ c); cbn; try assumption.
  - apply present_onJob; auto with jobs.
  - apply only_running_onJob; auto with jobs.
  - apply all_running_onJob; auto with jobs.
Qed.

Lemma resume_settled t x now s :
  busy t s -> fits (awaiting t) x = true -> settled_as (resume t x now s).
Proof.
  intros Hbusy Hfits. unfold resume.
  destruct (awaiting t), x as [ok | result | error | [|]]; try discriminate Hfits;
    try (apply afterFile_onFiles_settled; exact Hbusy).
  cbn. exact Hbusy.
Qed.

(** Pausing a job while a call is suspended ends that call at once. *)
Lemma rejectAborted_paused jobId now t s :
  busy t s ->
  exists s', rejectAborted now [t] (pauseJob jobId s) = (s', []) /\ calm s' /\
             s' = fst (resume t (Rejected AbortError) now (pauseJob jobId s)).
Proof.
  intros (Hact & (c & Hc & Hsig & Hflag) & Hpres & Honly & Hall & _).
  assert (Hlen : c < length (controllers s)) by (eapply lookup_lt_Some; exact Hflag).
  pose proof (aborted_after_pauseJob jobId s c Hc Hlen) as Hab.
  assert (Hsa : signalAborted t (pauseJob jobId s) = true).
  { unfold signalAborted. rewrite Hsig. unfold aborted in Hab.
    assert (Hpc : processingController (pauseJob jobId s) = Some c) by exact Hc.
    rewrite Hpc in Hab. exact Hab. }
  cbn [rejectAborted]. rewrite Hsa.
  rewrite (resume_rejected_when_aborted t AbortError now (pauseJob jobId s) Hab).
  cbn [fst]. eexists. split; [reflexivity|]. split; [|reflexivity].
  split; [reflexivity|]. cbn.
  apply none_running_completed.
  repeat (apply only_running_onJob; auto with jobs).
Qed.

Lemma rejectAborted_untouched now t s :
  signalAborted t s = false -> rejectAborted now [t] s = (s, [t]).
Proof. intros H. cbn [rejectAborted]. rewrite H. reflexivity. Qed.

Lemma signalAborted_busy t s : busy t s -> signalAborted t s = false.
Proof.
  intros (_ & (c & _ & Hsig & Hflag) & _). unfold signalAborted.
  rewrite Hsig, Hflag. reflexivity.
Qed.

(** ** Every step keeps the invariant *)

Lemma In_filter_jobs (P : BatchJob.t -> bool) l j : In j (List.filter P l) -> In j l.
Proof. intros H. apply List.filter_In in H as [H _]. exact H. Qed.

Lemma ui_step_one_at_a_time sys sys' :
  one_at_a_time sys -> ui_step sys sys' -> one_at_a_time sys'.
Proof.
  intros Hinv Hstep. destruct sys as [s ts]. unfold one_at_a_time in Hinv; cbn in Hinv.
  destruct Hstep as [jobId name files options Hfresh | jobId now j Hfind Hshown Hdis
                    | jobId now j Hfind Hshown | jobId now j Hfind Hdel
                    | k x now t Hk Hfits | handle]; cbn [state tasks] in *.
  - (* a job is created *)
    unfold one_at_a_time, step; cbn [state tasks].
    destruct ts as [|t [|? ?]]; [| |destruct Hinv].
    + destruct Hinv as [Hact Hnone]. split; [exact Hact|].
      intros j [<- | Hj]; [discriminate | exact (Hnone j Hj)].
    + destruct Hinv as (Hact & Hctl & (j0 & Hj0 & Hid0) & Honly & Hall & Hfl).
      repeat split.
      * exact Hact.
      * exact Hctl.
      * exists j0. split; [right; exact Hj0 | exact Hid0].
      * intros j [<- | Hj]; [discriminate | exact (Honly j Hj)].
      * intros j [<- | Hj] Hid; [|exact (Hall j Hj Hid)].
        cbn in Hid. destruct (Hfresh j0 Hj0). congruence.
      * intros j g [<- | Hj] Hid; [|exact (Hfl j g Hj Hid)].
        cbn in Hid. destruct (Hfresh j0 Hj0). congruence.
  - (* Start *)
    unfold one_at_a_time, step; cbn [state tasks].
    destruct ts as [|t [|? ?]]; [| |destruct Hinv].
    + pose proof (startJob_settled jobId now s j Hinv Hfind) as H.
      destruct (startJob jobId now s) as [s' [t'|]]; exact H.
    + exfalso. destruct Hinv as (Hact & _ & _ & _ & Hall & _).
      destruct (find_job_In _ _ _ Hfind) as [Hin Hid].
      unfold startDisabled in Hdis. rewrite Hact in Hdis.
      apply negb_false_iff, String.eqb_eq in Hdis.
      pose proof (Hall j Hin (eq_sym Hdis)) as Hrun.
      unfold startShown in Hshown. rewrite Hrun in Hshown. discriminate Hshown.
  - (* Pause *)
    unfold one_at_a_time, settleAborted, step; cbn [state tasks].
    destruct (find_job_In _ _ _ Hfind) as [Hin Hid].
    assert (Hrun : BatchJob.status j = JobStatus.running).
    { unfold pauseShown in Hshown. destruct (BatchJob.status j); try discriminate Hshown.
      reflexivity. }
    destruct ts as [|t [|? ?]]; [| |destruct Hinv].
    + exfalso. destruct Hinv as [_ Hnone]. exact (Hnone j Hin Hrun).
    + destruct (rejectAborted_paused jobId now t s Hinv) as (s' & -> & Hcalm & _).
      exact Hcalm.
  - (* Delete *)
    unfold one_at_a_time, settleAborted, step; cbn [state tasks].
    destruct (find_job_In _ _ _ Hfind) as [Hin Hid].
    assert (Hidle : BatchJob.status j <> JobStatus.running).
    { intros Hrun. unfold deleteDisabled in Hdel. rewrite Hrun in Hdel. discriminate Hdel. }
    destruct ts as [|t [|? ?]]; [| |destruct Hinv].
    + destruct Hinv as [Hact Hnone]. unfold deleteJob. rewrite Hact. cbn.
      split; [exact Hact|]. intros j' Hj'. apply In_filter_jobs in Hj'. exact (Hnone j' Hj').
    + pose proof (signalAborted_busy t s Hinv) as Hsa.
      destruct Hinv as (Hact & Hctl & (j0 & Hj0 & Hid0) & Honly & Hall & Hfl).
      assert (Hne : String.eqb (Dashboard.jobId t) jobId = false).
      { apply String.eqb_neq. intros E. apply Hidle. apply (Hall j Hin). congruence. }
      unfold deleteJob. rewrite Hact, Hne.
      rewrite rejectAborted_untouched by exact Hsa. cbn.
      repeat split.
      * exact Hact.
      * exact Hctl.
      * exists j0. split; [|exact Hid0]. apply List.filter_In. split; [exact Hj0|].
        rewrite Hid0, Hne. reflexivity.
      * intros j' Hj'. apply In_filter_jobs in Hj'. exact (Honly j' Hj').
      * intros j' Hj'. apply In_filter_jobs in Hj'. exact (Hall j' Hj').
      * intros j' g Hj'. apply In_filter_jobs in Hj'. exact (Hfl j' g Hj').
  - (* a promise settles *)
    unfold one_at_a_time, step; cbn [state tasks].
    destruct ts as [|t0 [|? ?]]; [discriminate Hk | | destruct Hinv].
    destruct k as [|k]; [|discriminate Hk]. cbn in Hk. injection Hk as ->.
    cbn [lookup list_lookup].
    pose proof (resume_settled t x now s Hinv Hfits) as H.
    destruct (resume t x now s) as [s' [t'|]]; exact H.
  - (* a progress timer fires *)
    unfold one_at_a_time, step; cbn [state tasks].
    destruct (List.find _ (intervals s)) as [[h [jid fid]]|]; cbn [state tasks];
      [|exact Hinv].
    destruct ts as [|t [|? ?]]; [| |destruct Hinv].
    + destruct Hinv as [Hact Hnone]. split; [exact Hact|]. cbn.
      intros j' Hj' Hrun. apply In_onJob in Hj' as (j0 & Hj0 & ->).
      apply (Hnone j0 Hj0). destruct (String.eqb _ _); exact Hrun.
    + destruct Hinv as (Hact & Hctl & Hpres & Honly & Hall & Hfl).
      repeat split; cbn.
      * exact Hact.
      * exact Hctl.
      * apply present_onJob; auto with jobs.
      * apply only_running_onJob; auto with jobs.
      * apply all_running_onJob; auto with jobs.
      * apply in_flight_onFiles; [| intros f; reflexivity | exact Hfl].
        intros f _ Hst _ _. exact Hst.
Qed.

Lemma reachable_one_at_a_time sys : reachable sys -> one_at_a_time sys.
Proof.
  induction 1 as [|sys sys' _ IH Hstep].
  - split; [reflexivity|]. intros j [].
  - exact (ui_step_one_at_a_time sys sys' IH Hstep).
Qed.

(** ** One job at a time *)

Lemma startJob_rejected (s : State) (jobId : string) (now : Z) :
  findJob jobId s = None \/ jobStatus jobId s = Some JobStatus.running ->
  startJob jobId now s = (s, None).
Proof.
  intros [Hnone | Hrun]; unfold startJob.
  - unfold findJob in Hnone. rewrite Hnone. reflexivity.
  - apply findJob_status in Hrun as (j & Hj & Hst). unfold findJob in Hj.
    rewrite Hj, Hst. reflexivity.
Qed.

Lemma running_job_is_active sys a :
  one_at_a_time sys -> In a (jobs (state sys)) ->
  BatchJob.status a = JobStatus.running ->
  activeJobId (state sys) = Some (BatchJob.id a) /\
  forall b, In b (jobs (state sys)) -> BatchJob.status b = JobStatus.running ->
            BatchJob.id b = BatchJob.id a.
Proof.
  intros Hinv Ha Hrun. unfold one_at_a_time in Hinv.
  destruct (tasks sys) as [|t [|? ?]]; [| |destruct Hinv].
  - destruct Hinv as [_ Hnone]. destruct (Hnone a Ha Hrun).
  - destruct Hinv as (Hact & _ & _ & Honly & _).
    rewrite (Honly a Ha Hrun). split; [exact Hact|].
    intros b Hb Hrunb. exact (Honly b Hb Hrunb).
Qed.

(** Peel the last event off a run. *)
Ltac last_event :=
  match goal with
  | |- reachable (step _ ?sys) => apply (reachable_step sys)
  end.

Lemma reachable_two_jobs : reachable (run two_jobs_first_running boot).
Proof.
  unfold run, two_jobs_first_running. cbn [fold_left].
  last_event; [last_event; [last_event; [apply reachable_boot|] |] |].
  - apply ui_create. intros j [].
  - apply ui_create. intros j Hj. vm_compute in Hj. destruct Hj as [<- | []].
    intros H. vm_compute in H. discriminate H.
  - eapply ui_start; [vm_compute; reflexivity | reflexivity | reflexivity].
Qed.

(** C1, amended. [startJob] on a job that does not exist, or whose own
    status is running, is rejected: the state is unchanged and no call is
    left in flight. [startJob] does not look at other jobs; it is the
    controls that keep a second job from starting: in every state reached
    through them, while a job A is running the Start control of every other
    job B is disabled and B is not running. *)
Theorem startJob_guard_and_one_job_at_a_time (sys : System) (jobId : string) (now : Z) :
  (findJob jobId (state sys) = None \/
   jobStatus jobId (state sys) = Some JobStatus.running ->
   startJob jobId now (state sys) = (state sys, None)) /\
  (reachable sys ->
   forall a b, In a (jobs (state sys)) -> In b (jobs (state sys)) ->
     BatchJob.status a = JobStatus.running -> BatchJob.id b <> BatchJob.id a ->
     startDisabled (state sys) b = true /\ BatchJob.status b <> JobStatus.running).
Proof.
  split; [apply startJob_rejected|].
  intros Hreach a b Ha Hb Hrun Hne.
  destruct (running_job_is_active sys a (reachable_one_at_a_time sys Hreach) Ha Hrun)
    as [Hact Honly].
  split.
  - unfold startDisabled. rewrite Hact. apply negb_true_iff, String.eqb_neq.
    intros E. apply Hne. symmetry. exact E.
  - intros Hrunb. apply Hne. exact (Honly b Hb Hrunb).
Qed.

Lemma startJob_guard_and_one_job_at_a_time_witness :
  jobStatus "A" (state (run two_jobs_first_running boot)) = Some JobStatus.running /\
  startJob "A" 20 (state (run two_jobs_first_running boot))
  = (state (run two_jobs_first_running boot), None) /\
  BatchJob.id job_A = "A" /\ BatchJob.id job_B = "B" /\
  BatchJob.status job_A = JobStatus.running /\
  startDisabled (state (run two_jobs_first_running boot)) job_B = true /\
  BatchJob.status job_B <> JobStatus.running.
Proof.
  pose proof (startJob_guard_and_one_job_at_a_time
                (run two_jobs_first_running boot) "A" 20) as [Hguard Hone].
  assert (Hrun : jobStatus "A" (state (run two_jobs_first_running boot))
                 = Some JobStatus.running) by (vm_compute; reflexivity).
  assert (HA : In job_A (jobs (state (run two_jobs_first_running boot))))
    by (vm_compute; auto).
  assert (HB : In job_B (jobs (state (run two_jobs_first_running boot))))
    by (vm_compute; auto).
  assert (HrunA : BatchJob.status job_A = JobStatus.running) by (vm_compute; reflexivity).
  assert (Hne : BatchJob.id job_B <> BatchJob.id job_A) by (vm_compute; discriminate).
  split; [exact Hrun|]. split; [exact (Hguard (or_intror Hrun))|].
  split; [vm_compute; reflexivity|]. split; [vm_compute; reflexivity|].
  split; [exact HrunA|].
  exact (Hone reachable_two_jobs job_A job_B HA HB HrunA Hne).
Defined.

(** ** Settled files stay as they are *)

Lemma reachable_mid_flight : reachable mid_flight.
Proof.
  unfold mid_flight, run, first_file_done. cbn [fold_left].
  last_event; [last_event; [last_event; [last_event; [apply reachable_boot|] |] |] |].
  - apply ui_create. intros j [].
  - eapply ui_start; [vm_compute; reflexivity | reflexivity | reflexivity].
  - eapply ui_settle; [vm_compute; reflexivity | reflexivity].
  - eapply ui_settle; [vm_compute; reflexivity | reflexivity].
Qed.

(** C9. [pauseJob] changes no file of any job. In every state reached
    through the controls, the cancellation it signals, which resumes the
    suspended [startJob] in its [catch] block, leaves every completed or
    failed file of every job at its place with its status, progress, metadata
    and error message. *)
Theorem pauseJob_settled_files_unchanged (sys : System) (jobId : string) (now : Z) :
  map BatchJob.files (jobs (pauseJob jobId (state sys)))
  = map BatchJob.files (jobs (state sys)) /\
  (reachable sys ->
   forall n m j f,
     jobs (state sys) !! n = Some j -> BatchJob.files j !! m = Some f ->
     isSettled f = true ->
     exists j',
       jobs (state (settleAborted now (step (Pause jobId) sys))) !! n = Some j' /\
       BatchJob.files j' !! m = Some f).
Proof.
  split; [apply pauseJob_files|].
  intros Hreach n m j f Hn Hm Hset.
  pose proof (reachable_one_at_a_time sys Hreach) as Hinv.
  destruct sys as [s ts]. unfold one_at_a_time in Hinv. cbn [state tasks] in *.
  unfold settleAborted, step; cbn [state tasks].
  destruct ts as [|t [|? ?]]; [| |destruct Hinv].
  - cbn. destruct (pauseJob_lookup jobId s n j Hn) as (j' & Hj' & Hfiles).
    exists j'. split; [exact Hj'|]. rewrite Hfiles. exact Hm.
  - destruct (rejectAborted_paused jobId now t s Hinv) as (s' & -> & _ & ->).
    cbn [state].
    destruct Hinv as (_ & (c & Hc & _ & Hflag) & _ & _ & _ & Hfl).
    assert (Hlen : c < length (controllers s)) by (eapply lookup_lt_Some; exact Hflag).
    destruct (abort_after_pause_keeps_settled s jobId t c now Hc Hlen Hfl n m j f Hn Hm Hset)
      as (j' & Hj' & Hf & _).
    exists j'. split; assumption.
Qed.

Lemma pauseJob_settled_files_unchanged_witness :
  jobs (state mid_flight) !! 0 = Some first_job /\
  BatchJob.files first_job !! 0 = Some first_file /\
  isSettled first_file = true /\
  exists j',
    jobs (state (settleAborted 40 (step (Pause "J") mid_flight))) !! 0 = Some j' /\
    BatchJob.files j' !! 0 = Some first_file.
Proof.
  assert (Hn : jobs (state mid_flight) !! 0 = Some first_job)
    by (vm_compute; reflexivity).
  assert (Hm : BatchJob.files first_job !! 0 = Some first_file)
    by (vm_compute; reflexivity).
  assert (Hset : isSettled first_file = true) by (vm_compute; reflexivity).
  repeat (split; [assumption|]).
  exact (proj2 (pauseJob_settled_files_unchanged mid_flight "J" 40)
           reachable_mid_flight 0 0 first_job first_file Hn Hm Hset).
Defined.

(** Pausing any running job through its control ends with the job marked
    completed at 100, whatever the state of its files. *)
Lemma reachable_pause_marks_completed (sys : System) (now : Z) (n : nat) (j : BatchJob.t) :
  reachable sys ->
  jobs (state sys) !! n = Some j -> BatchJob.status j = JobStatus.running ->
  exists j',
    jobs (state (settleAborted now (step (Pause (BatchJob.id j)) sys))) !! n = Some j' /\
    BatchJob.status j' = JobStatus.completed /\ BatchJob.progress j' = 100%Z.
Proof.
  intros Hreach Hn Hrun.
  pose proof (reachable_one_at_a_time sys Hreach) as Hinv.
  assert (Hin : In j (jobs (state sys))).
  { apply list_elem_of_In. eapply list_elem_of_lookup_2. exact Hn. }
  destruct sys as [s ts]. unfold one_at_a_time in Hinv. cbn [state tasks] in *.
  unfold settleAborted, step; cbn [state tasks].
  destruct ts as [|t [|? ?]]; [| |destruct Hinv].
  - destruct Hinv as [_ Hnone]. destruct (Hnone j Hin Hrun).
  - destruct (rejectAborted_paused (BatchJob.id j) now t s Hinv) as (s' & -> & _ & ->).
    cbn [state].
    destruct Hinv as (_ & (c & Hc & _ & Hflag) & _ & Honly & _).
    assert (Hlen : c < length (controllers s)) by (eapply lookup_lt_Some; exact Hflag).
    exact (pause_then_abort_marks_completed s (BatchJob.id j) t c now n j Hc Hlen Hn
             (Honly j Hin Hrun)).
Qed.

(** The pause of the scenario, taken through the Pause control, is the run
    [paused_mid_flight]. *)
Example pause_control_is_paused_mid_flight :
  settleAborted 40 (step (Pause "J") mid_flight) = run paused_mid_flight boot.
Proof. vm_compute. reflexivity. Qed.

End DashboardRuns.

(** * Properties of the upload, the statistics and the report files of a job *)

Module JobCardFacts.
Import Js Dashboard JobCard JsFacts.

(** ** [endsWith] *)

Lemma eqb_string_refl (s : string) : String.eqb s s = true.
Proof. apply String.eqb_eq. reflexivity. Qed.

Lemma endsWith_suffix (stem suffix : string) : endsWith (stem +:+ suffix) suffix = true.
Proof.
  induction stem as [|c stem IH].
  - rewrite append_nil_l. destruct suffix; cbn [endsWith]; rewrite eqb_string_refl; reflexivity.
  - rewrite append_cons. cbn [endsWith]. rewrite IH. apply orb_true_r.
Qed.

Lemma endsWith_stem (s suffix : string) :
  endsWith s suffix = true -> exists stem, s = stem +:+ suffix.
Proof.
  induction s as [|c s IH]; cbn [endsWith]; intros H.
  - apply orb_true_iff in H as [H | H]; [|discriminate H].
    apply String.eqb_eq in H. exists EmptyString. rewrite append_nil_l. exact H.
  - apply orb_true_iff in H as [H | H].
    + apply String.eqb_eq in H. exists EmptyString. rewrite append_nil_l. exact H.
    + destruct (IH H) as [stem ->]. exists (String c stem). rewrite append_cons. reflexivity.
Qed.

(** ** Counting files by status *)

Lemma status_partition (files : list BatchFile.t) :
  length (withStatus FileStatus.completed files)
  + length (withStatus FileStatus.error files)
  + length (withStatus FileStatus.processing files)
  + length (withStatus FileStatus.queued files)
  + length (withStatus FileStatus.paused files)
  = length files.
Proof.
  unfold withStatus. induction files as [|f files IH]; [reflexivity|].
  cbn [List.filter]. destruct (BatchFile.status f); cbn [FileStatus.eqb length]; lia.
Qed.

Lemma withStatus_nil_iff (st : FileStatus.t) (files : list BatchFile.t) :
  length (withStatus st files) = 0 <->
  forall f, In f files -> BatchFile.status f <> st.
Proof.
  unfold withStatus. split.
  - intros H f Hf Hst.
    assert (Hin : In f (List.filter (fun f => FileStatus.eqb (BatchFile.status f) st) files)).
    { apply List.filter_In. split; [exact Hf|]. rewrite Hst. destruct st; reflexivity. }
    destruct (List.filter _ files); [destruct Hin | discriminate H].
  - intros H. induction files as [|f files IH]; [reflexivity|].
    cbn [List.filter].
    destruct (FileStatus.eqb (BatchFile.status f) st) eqn:E.
    + exfalso. apply (H f (or_introl eq_refl)).
      destruct (BatchFile.status f), st; try discriminate E; reflexivity.
    + apply IH. intros g Hg. apply H. right. exact Hg.
Qed.

(** X1. The four counts that [getJobStats] returns and the number of paused
    files, which it does not return, add up to [total]. So the counts shown
    on a job card add up to the total exactly when no file of the job is
    paused. *)
Theorem getJobStats_misses_paused_files (job : BatchJob.t) :
  completed (getJobStats job) + errors (getJobStats job)
  + processing (getJobStats job) + queued (getJobStats job)
  + length (withStatus FileStatus.paused (BatchJob.files job))
  = total (getJobStats job) /\
  (completed (getJobStats job) + errors (getJobStats job)
   + processing (getJobStats job) + queued (getJobStats job)
   = total (getJobStats job) <->
   forall f, In f (BatchJob.files job) -> BatchFile.status f <> FileStatus.paused).
Proof.
  pose proof (status_partition (BatchJob.files job)) as H.
  split; [exact H|]. rewrite <- withStatus_nil_iff. cbn [getJobStats completed errors
    processing queued total]. lia.
Qed.

(** ** The files handed to the report generator *)

Lemma getReportFiles_counts (job : BatchJob.t) :
  length (getReportFiles job)
  = length (withStatus FileStatus.completed (BatchJob.files job))
    + length (withStatus FileStatus.error (BatchJob.files job)) /\
  length (List.filter (fun r => Report.Status_eqb (status r) Report.success)
            (getReportFiles job))
  = length (withStatus FileStatus.completed (BatchJob.files job)) /\
  length (List.filter (fun r => Report.Status_eqb (status r) Report.error)
            (getReportFiles job))
  = length (withStatus FileStatus.error (BatchJob.files job)).
Proof.
  unfold getReportFiles, withStatus.
  generalize (BatchJob.files job) as files.
  induction files as [|f files IH]; [repeat split; reflexivity|].
  destruct IH as (IH1 & IH2 & IH3).
  cbn [List.filter].
  destruct (BatchFile.status f) eqn:E; cbn [FileStatus.eqb orb map List.filter length];
    rewrite ?E; cbn [FileStatus.eqb status Report.Status_eqb List.filter length];
    repeat split; lia.
Qed.

(** X2. [getReportFiles] hands the report generator one outcome for each
    file that [getJobStats] counts as completed or as an error, and no
    other: the outcomes are the settled files in their order, by name; as
    many of them are successes as there are completed files, and as many
    are errors as there are files in error. Files that are queued, being
    processed or paused are left out of the report. *)
Theorem getReportFiles_covers_settled_files (job : BatchJob.t) :
  map fileName (getReportFiles job)
  = map (fun f => file_name (BatchFile.file f))
        (List.filter isSettled (BatchJob.files job)) /\
  length (getReportFiles job)
  = completed (getJobStats job) + errors (getJobStats job) /\
  length (List.filter (fun r => Report.Status_eqb (status r) Report.success)
            (getReportFiles job))
  = completed (getJobStats job) /\
  length (List.filter (fun r => Report.Status_eqb (status r) Report.error)
            (getReportFiles job))
  = errors (getJobStats job).
Proof.
  split.
  - unfold getReportFiles. rewrite List.map_map. reflexivity.
  - exact (getReportFiles_counts job).
Qed.

(** ** Upload *)

Lemma imap_files_of {A} (g : nat -> File -> A) (proj : A -> File) (files : list File) :
  (forall i f, proj (g i f) = f) -> map proj (imap g files) = files.
Proof.
  intros H. revert g H. induction files as [|f files IH]; intros g H; [reflexivity|].
  cbn [imap map]. rewrite H. f_equal. apply IH. intros i f'. apply H.
Qed.

Lemma In_imap {A B} (g : nat -> A -> B) (l : list A) (b : B) :
  In b (imap g l) -> exists i a, In a l /\ b = g i a.
Proof.
  revert g. induction l as [|a l IH]; intros g H; [destruct H|].
  cbn [imap] in H. destruct H as [<- | H].
  - exists 0, a. split; [left; reflexivity | reflexivity].
  - destruct (IH _ H) as (i & a' & Ha' & ->). exists (S i), a'.
    split; [right; exact Ha' | reflexivity].
Qed.

Lemma filter_nil_length {A} (P : A -> bool) (l : list A) :
  (0 <? length (List.filter P l)) = false <-> forall a, In a l -> P a = false.
Proof.
  rewrite Nat.ltb_ge. split.
  - intros H a Ha. destruct (P a) eqn:E; [|reflexivity].
    assert (Hin : In a (List.filter P l)) by (apply List.filter_In; split; assumption).
    destruct (List.filter P l); [destruct Hin | cbn in H; lia].
  - intros H. induction l as [|a l IH]; [cbn; lia|].
    cbn [List.filter]. rewrite (H a (or_introl eq_refl)).
    apply IH. intros b Hb. apply H. right. exact Hb.
Qed.

(** X3. [handleFileUpload] creates no job when no selected file has a name
    ending in .dcm (in any letter case), and the state is then left as it
    was. Otherwise it puts exactly one job in front of the others: an idle
    job at progress 0 whose files are the selected files with such a name,
    in the order of the selection, all queued at progress 0; the lowercased
    name of each of them ends in .dcm, and the job is not empty. *)
Theorem handleFileUpload_queues_dicom_files_only (jobId name : string)
    (files : list File) (options : Processor.ProcessingOptions) (s : State) :
  ((forall f, In f files -> isDicomFile f = false) ->
   handleFileUpload jobId name files options s = s) /\
  ((exists f, In f files /\ isDicomFile f = true) ->
   exists job,
     jobs (handleFileUpload jobId name files options s) = job :: jobs s /\
     BatchJob.id job = jobId /\
     BatchJob.status job = JobStatus.idle /\ BatchJob.progress job = 0%Z /\
     map BatchFile.file (BatchJob.files job) = List.filter isDicomFile files /\
     BatchJob.files job <> [] /\
     forall g, In g (BatchJob.files job) ->
       BatchFile.status g = FileStatus.queued /\ BatchFile.progress g = 0%Z /\
       exists stem, toLowerCase (file_name (BatchFile.file g)) = stem +:+ ".dcm").
Proof.
  split.
  - intros H. unfold handleFileUpload.
    apply filter_nil_length in H. rewrite H.
    destruct (0 <? length files); reflexivity.
  - intros (f & Hf & Hdcm). unfold handleFileUpload.
    assert (Hin : In f (List.filter isDicomFile files))
      by (apply List.filter_In; split; assumption).
    assert (H1 : (0 <? length files) = true).
    { apply Nat.ltb_lt. destruct files; [destruct Hf | cbn; lia]. }
    assert (H2 : (0 <? length (List.filter isDicomFile files)) = true).
    { apply Nat.ltb_lt. destruct (List.filter isDicomFile files); [destruct Hin | cbn; lia]. }
    rewrite H1, H2. unfold createNewJob. cbn [setJobs jobs].
    eexists. split; [reflexivity|]. cbn [BatchJob.id BatchJob.status BatchJob.progress
      BatchJob.files].
    split; [reflexivity|]. split; [reflexivity|]. split; [reflexivity|].
    split; [apply imap_files_of; reflexivity|].
    split.
    + destruct (List.filter isDicomFile files); [destruct Hin | discriminate].
    + intros g Hg. apply In_imap in Hg as (i & a & Ha & ->).
      cbn [BatchFile.status BatchFile.progress BatchFile.file].
      split; [reflexivity|]. split; [reflexivity|].
      apply List.filter_In in Ha as [_ Ha]. apply endsWith_stem. exact Ha.
Qed.

Lemma handleFileUpload_queues_dicom_files_only_witness :
  isDicomFile {| file_name := "Head.DCM"; file_size := 10 |} = true /\
  isDicomFile {| file_name := "notes.txt"; file_size := 20 |} = false /\
  exists job,
    jobs (handleFileUpload "J" "Batch Job"
            [ {| file_name := "notes.txt"; file_size := 20 |};
              {| file_name := "Head.DCM"; file_size := 10 |} ]
            Samples.options initial) = [job] /\
    map BatchFile.file (BatchJob.files job) = [ {| file_name := "Head.DCM"; file_size := 10 |} ].
Proof.
  split; [reflexivity|]. split; [reflexivity|].
  destruct (proj2 (handleFileUpload_queues_dicom_files_only "J" "Batch Job"
              [ {| file_name := "notes.txt"; file_size := 20 |};
                {| file_name := "Head.DCM"; file_size := 10 |} ]
              Samples.options initial)) as (job & Hjobs & _ & _ & _ & Hfiles & _).
  - exists {| file_name := "Head.DCM"; file_size := 10 |}.
    split; [right; left; reflexivity | reflexivity].
  - exists job. split; [exact Hjobs | exact Hfiles].
Defined.

(** ** deleteJob *)

Lemma filter_onJob (jobId : string) (f : BatchJob.t -> BatchJob.t) (l : list BatchJob.t) :
  (forall j, BatchJob.id (f j) = BatchJob.id j) ->
  List.filter (fun j => negb (String.eqb (BatchJob.id j) jobId)) (onJob jobId f l)
  = List.filter (fun j => negb (String.eqb (BatchJob.id j) jobId)) l.
Proof.
  intros Hid. unfold onJob. induction l as [|j l IH]; [reflexivity|].
  cbn [map List.filter].
  destruct (String.eqb (BatchJob.id j) jobId) eqn:E.
  - rewrite Hid, E. cbn [negb]. exact IH.
  - rewrite E. cbn [negb]. rewrite IH. reflexivity.
Qed.

(** X4. [deleteJob] removes the jobs with the given id and nothing else:
    the jobs left are the other jobs, unchanged and in their order, also
    when the deleted job is the active one and is paused first. Only in
    that case the request in flight is aborted and no job is active
    afterwards; deleting any other job leaves the controller and the active
    job as they are. *)
Theorem deleteJob_removes_only_that_job (jobId : string) (s : State) :
  jobs (deleteJob jobId s)
  = List.filter (fun j => negb (String.eqb (BatchJob.id j) jobId)) (jobs s) /\
  (forall j, In j (jobs (deleteJob jobId s)) -> BatchJob.id j <> jobId) /\
  (activeJobId s = Some jobId ->
   activeJobId (deleteJob jobId s) = None /\
   forall c, processingController s = Some c -> c < length (controllers s) ->
             aborted (deleteJob jobId s) = true) /\
  (activeJobId s <> Some jobId ->
   activeJobId (deleteJob jobId s) = activeJobId s /\
   controllers (deleteJob jobId s) = controllers s).
Proof.
  assert (Hjobs : jobs (deleteJob jobId s)
            = List.filter (fun j => negb (String.eqb (BatchJob.id j) jobId)) (jobs s)).
  { unfold deleteJob. destruct (activeJobId s) as [a|]; [|reflexivity].
    destruct (String.eqb a jobId); [|reflexivity].
    cbn [setJobs jobs pauseJob]. apply filter_onJob. intros j. reflexivity. }
  split; [exact Hjobs|]. split; [|split].
  - intros j Hj. rewrite Hjobs in Hj. apply List.filter_In in Hj as [_ Hj].
    apply negb_true_iff, String.eqb_neq in Hj. exact Hj.
  - intros Hact. unfold deleteJob. rewrite Hact, eqb_string_refl.
    split; [reflexivity|]. intros c Hc Hlen.
    exact (DashboardFacts.aborted_after_pauseJob jobId s c Hc Hlen).
  - intros Hact. unfold deleteJob.
    destruct (activeJobId s) as [a|] eqn:Ea;
      [|cbn [setJobs activeJobId controllers]; rewrite Ea; split; reflexivity].
    destruct (String.eqb a jobId) eqn:E;
      [|cbn [setJobs activeJobId controllers]; rewrite Ea; split; reflexivity].
    apply String.eqb_eq in E. subst a. destruct (Hact eq_refl).
Qed.

Lemma deleteJob_removes_only_that_job_witness :
  activeJobId (state Samples.mid_flight) = Some "J" /\
  jobs (deleteJob "J" (state Samples.mid_flight)) = [] /\
  activeJobId (deleteJob "J" (state Samples.mid_flight)) = None /\
  aborted (deleteJob "J" (state Samples.mid_flight)) = true.
Proof.
  assert (Hact : activeJobId (state Samples.mid_flight) = Some "J") by (vm_compute; reflexivity).
  destruct (deleteJob_removes_only_that_job "J" (state Samples.mid_flight))
    as (Hjobs & _ & Hactive & _).
  destruct (Hactive Hact) as [Hnone Hab].
  split; [exact Hact|]. split; [rewrite Hjobs; vm_compute; reflexivity|].
  split; [exact Hnone|].
  apply (Hab 0); [vm_compute; reflexivity | vm_compute; lia].
Defined.

End JobCardFacts.

(** * What holds of the jobs and their files in every run *)

Module CourseFacts.
Import Dashboard Invariant Course JsFacts DashboardFacts DashboardRuns.

(** ** Every event changes [jobs] by the updates of [job_update] *)

Lemma evolves_trans (l l' l'' : list BatchJob.t) :
  evolves l l' -> evolves l' l'' -> evolves l l''.
Proof.
  intros H1 H2. induction H2.
  - exact H1.
  - apply evolves_update; assumption.
  - apply evolves_filter; assumption.
  - eapply evolves_create; eassumption.
Qed.

Lemma finishJob_evolves l jobId now s :
  evolves l (jobs s) -> evolves l (jobs (finishJob jobId now s)).
Proof. intros H. cbn. apply evolves_update; [exact H | constructor]. Qed.

Lemma loopFrom_evolves l jobId job queued i now s :
  evolves l (jobs s) -> evolves l (jobs (fst (loopFrom jobId job queued i now s))).
Proof.
  intros H. unfold loopFrom.
  destruct (queued !! i) as [file|]; [|apply finishJob_evolves; exact H].
  destruct (aborted s); [apply finishJob_evolves; exact H|].
  cbn. apply evolves_update; [exact H | constructor].
Qed.

Lemma startJob_evolves l jobId now s :
  evolves l (jobs s) -> evolves l (jobs (fst (startJob jobId now s))).
Proof.
  intros H. unfold startJob.
  destruct (List.find _ (jobs s)) as [job|]; [|exact H].
  destruct (JobStatus.eqb _ _); [exact H|].
  apply loopFrom_evolves. cbn. apply evolves_update; [exact H | constructor].
Qed.

Lemma afterFile_evolves l t now s :
  evolves l (jobs s) -> evolves l (jobs (fst (afterFile t now s))).
Proof.
  intros H. unfold afterFile. cbv zeta.
  apply loopFrom_evolves. cbn. apply evolves_update; [exact H | constructor].
Qed.

Lemma resume_evolves l t x now s :
  evolves l (jobs s) -> evolves l (jobs (fst (resume t x now s))).
Proof.
  intros H. unfold resume.
  destruct (awaiting t), x as [ok | result | error | [|]]; try exact H;
    try (apply afterFile_evolves; cbn; apply evolves_update; [exact H | constructor]).
Qed.

Lemma pauseJob_evolves l jobId s :
  evolves l (jobs s) -> evolves l (jobs (pauseJob jobId s)).
Proof. intros H. cbn. apply evolves_update; [exact H | constructor]. Qed.

Lemma deleteJob_evolves l jobId s :
  evolves l (jobs s) -> evolves l (jobs (deleteJob jobId s)).
Proof.
  intros H. unfold deleteJob. cbn [setJobs jobs]. apply evolves_filter.
  destruct (activeJobId s) as [a|]; [|exact H].
  destruct (String.eqb a jobId); [apply pauseJob_evolves|]; exact H.
Qed.

Lemma step_evolves (e : Event) (sys : System) :
  evolves (jobs (state sys)) (jobs (state (step e sys))).
Proof.
  destruct e as [jobId name files options | jobId now | jobId | jobId | k x now | handle];
    cbn [step].
  - cbn [state createNewJob setJobs jobs].
    apply (evolves_create _ _ jobId name files options (state sys));
      [apply evolves_refl | reflexivity].
  - pose proof (startJob_evolves _ jobId now (state sys) (evolves_refl _)) as H.
    destruct (startJob jobId now (state sys)) as [s t]. exact H.
  - apply pauseJob_evolves, evolves_refl.
  - apply deleteJob_evolves, evolves_refl.
  - destruct (tasks sys !! k) as [t|]; [|apply evolves_refl].
    pose proof (resume_evolves _ t x now (state sys) (evolves_refl _)) as H.
    destruct (resume t x now (state sys)) as [s t']. exact H.
  - destruct (List.find _ (intervals (state sys))) as [[h [jid fid]]|]; [|apply evolves_refl].
    cbn. apply evolves_update; [apply evolves_refl | constructor].
Qed.

Lemma run_evolves (events : list Event) (sys : System) :
  evolves (jobs (state sys)) (jobs (state (run events sys))).
Proof.
  revert sys. induction events as [|e events IH]; intros sys; [apply evolves_refl|].
  cbn [run fold_left]. eapply evolves_trans; [apply step_evolves | apply IH].
Qed.

Lemma rejectAborted_evolves now ts : forall l s,
  evolves l (jobs s) -> evolves l (jobs (fst (rejectAborted now ts s))).
Proof.
  induction ts as [|t ts IH]; intros l s H; [exact H|].
  cbn [rejectAborted]. destruct (signalAborted t s).
  - pose proof (resume_evolves l t (Rejected AbortError) now s H) as H1.
    destruct (resume t (Rejected AbortError) now s) as [s1 t'].
    pose proof (IH l s1 H1) as H2.
    destruct (rejectAborted now ts s1) as [s2 rest]. exact H2.
  - pose proof (IH l s H) as H2.
    destruct (rejectAborted now ts s) as [s2 rest]. exact H2.
Qed.

(** A stable property that holds of every job keeps holding. *)
Lemma evolves_stable (P : BatchJob.t -> Prop) (l l' : list BatchJob.t) :
  stable P -> evolves l l' ->
  (forall j, In j l -> P j) -> forall j, In j l' -> P j.
Proof.
  intros [Hnew Hupd] Hev Hl. induction Hev as [|l' jobId f _ IH Hf|l' keep _ IH|l' ? ? ? ? ? j' _ IH Hj'].
  - exact Hl.
  - intros j Hj. apply In_onJob in Hj as (j0 & Hj0 & ->).
    destruct (String.eqb _ _); [apply Hupd; [exact Hf|] |]; apply IH; exact Hj0.
  - intros j Hj. apply List.filter_In in Hj as [Hj _]. apply IH. exact Hj.
  - intros j [<- | Hj]; [eapply Hnew; exact Hj' | apply IH; exact Hj].
Qed.

Lemma run_stable (P : BatchJob.t -> Prop) (events : list Event) :
  stable P -> forall j, In j (jobs (state (run events boot))) -> P j.
Proof.
  intros HP. apply (evolves_stable P [] _ HP (run_evolves events boot)).
  intros j [].
Qed.

(** ** Status and progress of a file *)

Lemma file_coupled_stable :
  stable (fun j => forall f, In f (BatchJob.files j) -> file_coupled f).
Proof.
  split.
  - intros jobId name files options s j Hj f Hf.
    cbn in Hj. injection Hj as <-. cbn in Hf.
    apply JobCardFacts.In_imap in Hf as (i & a & _ & ->). reflexivity.
  - intros g j Hg Hj.
    destruct Hg; try exact Hj; intros f' Hf';
      apply In_onFiles in Hf' as (f & Hf & ->); specialize (Hj f Hf);
      match goal with
      | |- file_coupled (if ?c then _ else _) => destruct c eqn:Hc; [|exact Hj]
      end; unfold file_coupled; cbn; try reflexivity.
    + split; [lia | reflexivity].
    + apply andb_true_iff in Hc as [_ Hc].
      unfold file_coupled in Hj.
      destruct (BatchFile.status f); try discriminate Hc.
      destruct Hj as [Hrange Hmod].
      destruct (Z.min_spec (BatchFile.progress f + 10) 90) as [[Hlt ->] | [_ ->]];
        [|split; [lia | reflexivity]].
      split; [lia|]. rewrite Z.add_mod, Hmod by lia. reflexivity.
Qed.

(** X5. Whatever the events (jobs created, started, paused and deleted,
    requests settling in any way, timers firing, in any order), status and
    progress of every file of every job go together: a completed file is at
    100, a file being processed at a multiple of 10 from 0 to 90, and a
    queued, paused or failed file at 0. *)
Theorem file_progress_follows_status (events : list Event) (j : BatchJob.t)
    (f : BatchFile.t) :
  In j (jobs (state (run events boot))) -> In f (BatchJob.files j) ->
  match BatchFile.status f with
  | FileStatus.completed => BatchFile.progress f = 100%Z
  | FileStatus.processing =>
      (0 <= BatchFile.progress f <= 90)%Z /\ (BatchFile.progress f mod 10 = 0)%Z
  | _ => BatchFile.progress f = 0%Z
  end.
Proof.
  intros Hj Hf. exact (run_stable _ events file_coupled_stable j Hj f Hf).
Qed.

Lemma file_progress_follows_status_witness :
  In Samples.first_job (jobs (state Samples.mid_flight)) /\
  In Samples.first_file (BatchJob.files Samples.first_job) /\
  BatchFile.status Samples.first_file = FileStatus.completed /\
  BatchFile.progress Samples.first_file = 100%Z.
Proof.
  assert (Hj : In Samples.first_job (jobs (state (run Samples.first_file_done boot))))
    by (vm_compute; left; reflexivity).
  assert (Hf : In Samples.first_file (BatchJob.files Samples.first_job))
    by (vm_compute; left; reflexivity).
  split; [exact Hj|]. split; [exact Hf|]. split; [vm_compute; reflexivity|].
  exact (file_progress_follows_status Samples.first_file_done
           Samples.first_job Samples.first_file Hj Hf).
Defined.

(** ** The ids of the files of a job *)

Lemma imap_by_index {A B} (h : nat -> B) (l : list A) :
  imap (fun index _ => h index) l = map h (seq 0 (length l)).
Proof.
  revert h. induction l as [|a l IH]; intros h; [reflexivity|].
  cbn [imap length seq map]. f_equal.
  rewrite <- List.seq_shift, List.map_map. apply (IH (fun index => h (S index))).
Qed.

Lemma map_imap {A B C} (proj : B -> C) (g : nat -> A -> B) (l : list A) :
  map proj (imap g l) = imap (fun index a => proj (g index a)) l.
Proof.
  revert g. induction l as [|a l IH]; intros g; [reflexivity|].
  cbn [imap map]. f_equal. apply IH.
Qed.

Lemma ids_onFiles cond g j :
  (forall f, BatchFile.id (g f) = BatchFile.id f) ->
  ids_as_created j -> ids_as_created (onFiles cond g j).
Proof.
  intros Hg Hj. unfold ids_as_created in *. cbn [onFiles withFiles BatchJob.files BatchJob.id].
  rewrite imap_by_index, List.length_map, <- imap_by_index, <- Hj, List.map_map.
  apply List.map_ext. intros f. destruct (cond f); [apply Hg | reflexivity].
Qed.

Lemma ids_as_created_stable : stable ids_as_created.
Proof.
  split.
  - intros jobId name files options s j Hj. cbn in Hj. injection Hj as <-.
    unfold ids_as_created. cbn [BatchJob.files BatchJob.id].
    rewrite map_imap. cbn [BatchFile.id].
    rewrite !imap_by_index, length_imap. reflexivity.
  - intros g j Hg Hj. destruct Hg; try exact Hj; apply ids_onFiles; auto.
Qed.

Lemma file_id_inj (jobId : string) (n m : nat) :
  jobId +:+ "_file_" +:+ pretty n = jobId +:+ "_file_" +:+ pretty m -> n = m.
Proof.
  intros H. apply (inj (String.app jobId)) in H. apply (inj (String.app "_file_")) in H.
  apply (inj pretty) in H. exact H.
Qed.

Lemma ids_as_created_lookup (j : BatchJob.t) (n : nat) (f : BatchFile.t) :
  ids_as_created j -> BatchJob.files j !! n = Some f ->
  BatchFile.id f = BatchJob.id j +:+ "_file_" +:+ pretty n.
Proof.
  intros Hj Hn. unfold ids_as_created in Hj.
  assert (H : map BatchFile.id (BatchJob.files j) !! n = Some (BatchFile.id f)).
  { change (map BatchFile.id (BatchJob.files j)) with (BatchFile.id <$> BatchJob.files j).
    rewrite list_lookup_fmap, Hn. reflexivity. }
  rewrite Hj, list_lookup_imap, Hn in H. cbn in H. injection H as H. symmetry. exact H.
Qed.

(** In a list of files with the ids of their positions, an update addressed
    to the id of the file at position [n] rewrites that position only. *)
Lemma update_by_id (jobId : string) (g : BatchFile.t -> BatchFile.t)
    (files : list BatchFile.t) (f : BatchFile.t) : forall n k,
  (forall m x, files !! m = Some x -> BatchFile.id x = jobId +:+ "_file_" +:+ pretty (k + m)) ->
  files !! n = Some f ->
  map (fun x => if hasId (BatchFile.id f) x then g x else x) files = <[n := g f]> files.
Proof.
  induction files as [|x files IH]; intros n k Hids Hn; [discriminate Hn|].
  destruct n as [|n].
  - cbn in Hn. injection Hn as ->. cbn [map]. unfold hasId at 1.
    rewrite JobCardFacts.eqb_string_refl. cbn. f_equal.
    rewrite <- (List.map_id files) at 2. apply List.map_ext_in. intros y Hy.
    apply list_elem_of_In, list_elem_of_lookup_1 in Hy as [m Hm].
    unfold hasId. destruct (String.eqb (BatchFile.id y) (BatchFile.id f)) eqn:E; [|reflexivity].
    apply String.eqb_eq in E.
    rewrite (Hids (S m) y Hm), (Hids 0 f eq_refl) in E. apply file_id_inj in E. lia.
  - cbn in Hn. cbn [map]. unfold hasId at 1.
    destruct (String.eqb (BatchFile.id x) (BatchFile.id f)) eqn:E.
    + apply String.eqb_eq in E.
      rewrite (Hids 0 x eq_refl), (Hids (S n) f Hn) in E. apply file_id_inj in E. lia.
    + cbn. f_equal. apply (IH n (S k)); [|exact Hn].
      intros m y Hm. rewrite (Hids (S m) y Hm). f_equal. f_equal. f_equal. lia.
Qed.

(** X6. Whatever the events, the files of a job keep the ids they were
    created with, job id, [_file_] and the position in the job: the file at
    position [n] has the id ending in [n], the ids within a job are pairwise
    different, and so an update addressed to a file by its id (the way
    [startJob] and the progress timer address files) rewrites the file at
    that position and no other file of the job. *)
Theorem file_ids_address_one_file (events : list Event) (j : BatchJob.t) (n : nat)
    (f : BatchFile.t) (g : BatchFile.t -> BatchFile.t) :
  In j (jobs (state (run events boot))) -> BatchJob.files j !! n = Some f ->
  BatchFile.id f = BatchJob.id j +:+ "_file_" +:+ pretty n /\
  NoDup (map BatchFile.id (BatchJob.files j)) /\
  BatchJob.files (onFiles (hasId (BatchFile.id f)) g j) = <[n := g f]> (BatchJob.files j).
Proof.
  intros Hj Hn.
  pose proof (run_stable _ events ids_as_created_stable j Hj) as Hids.
  split; [exact (ids_as_created_lookup j n f Hids Hn)|]. split.
  - rewrite Hids, imap_by_index.
    change (NoDup ((fun index => BatchJob.id j +:+ "_file_" +:+ pretty index)
                     <$> seq 0 (length (BatchJob.files j)))).
    apply NoDup_fmap_2; [|apply NoDup_seq].
    intros a b H. exact (file_id_inj _ a b H).
  - cbn [onFiles withFiles BatchJob.files].
    apply (update_by_id (BatchJob.id j) g (BatchJob.files j) f n 0); [|exact Hn].
    intros m x Hm. exact (ids_as_created_lookup j m x Hids Hm).
Qed.

Lemma file_ids_address_one_file_witness :
  In Samples.first_job (jobs (state (run Samples.first_file_done boot))) /\
  BatchJob.files Samples.first_job !! 0 = Some Samples.first_file /\
  BatchFile.id Samples.first_file = "J_file_0" /\
  BatchJob.files (onFiles (hasId (BatchFile.id Samples.first_file)) filePaused Samples.first_job)
  = <[0 := filePaused Samples.first_file]> (BatchJob.files Samples.first_job).
Proof.
  assert (Hj : In Samples.first_job (jobs (state (run Samples.first_file_done boot))))
    by (vm_compute; left; reflexivity).
  assert (Hn : BatchJob.files Samples.first_job !! 0 = Some Samples.first_file)
    by (vm_compute; reflexivity).
  destruct (file_ids_address_one_file Samples.first_file_done Samples.first_job 0
              Samples.first_file filePaused Hj Hn) as (Hid & _ & Hupd).
  split; [exact Hj|]. split; [exact Hn|]. split; [|exact Hupd].
  rewrite Hid. vm_compute. reflexivity.
Defined.

End CourseFacts.

(** * One file at a time, and the statuses a job card can show *)

Module SequenceFacts.
Import Dashboard Invariant Course JsFacts DashboardFacts DashboardRuns CourseFacts.

Lemma onJob_onJob (jobId : string) (f g : BatchJob.t -> BatchJob.t) (l : list BatchJob.t) :
  keeps_id g -> onJob jobId f (onJob jobId g l) = onJob jobId (fun j => f (g j)) l.
Proof.
  intros Hg. unfold onJob. rewrite List.map_map. apply List.map_ext. intros j.
  destruct (String.eqb (BatchJob.id j) jobId) eqn:E.
  - rewrite Hg, E. reflexivity.
  - rewrite E. reflexivity.
Qed.

(** ** Updates that leave the files alone, or their statuses *)

Lemma quiet_onJob jobId f l :
  (forall j, BatchJob.files (f j) = BatchJob.files j) -> quiet l -> quiet (onJob jobId f l).
Proof.
  intros Hf Hl j' g Hj' Hg. apply In_onJob in Hj' as (j & Hj & ->).
  apply (Hl j g Hj). destruct (String.eqb _ _); [rewrite Hf in Hg|]; exact Hg.
Qed.

Lemma marked_onJob t jobId f l :
  keeps_id f -> (forall j, BatchJob.files (f j) = BatchJob.files j) ->
  marked t l -> marked t (onJob jobId f l).
Proof.
  intros Hid Hf Hl j' g Hj' Hg Hst. apply In_onJob in Hj' as (j & Hj & ->).
  rewrite keeps_id_test by exact Hid. apply (Hl j g Hj); [|exact Hst].
  destruct (String.eqb _ _); [rewrite Hf in Hg|]; exact Hg.
Qed.

Lemma quiet_onFiles jobId cond g l :
  (forall f, BatchFile.status (g f) = BatchFile.status f) ->
  quiet l -> quiet (onJob jobId (onFiles cond g) l).
Proof.
  intros Hg Hl j' f' Hj' Hf' Hst. apply In_onJob in Hj' as (j & Hj & ->).
  destruct (String.eqb _ _).
  - apply In_onFiles in Hf' as (f & Hf & ->). apply (Hl j f Hj Hf).
    destruct (cond f); [rewrite Hg in Hst|]; exact Hst.
  - exact (Hl j f' Hj Hf' Hst).
Qed.

Lemma marked_onFiles t jobId cond g l :
  (forall f, BatchFile.status (g f) = BatchFile.status f) -> keeps_file_id g ->
  marked t l -> marked t (onJob jobId (onFiles cond g) l).
Proof.
  intros Hg Hid Hl j' f' Hj' Hf' Hst. apply In_onJob in Hj' as (j & Hj & ->).
  destruct (String.eqb _ _).
  - apply In_onFiles in Hf' as (f & Hf & ->). rewrite id_onFiles.
    destruct (cond f).
    + rewrite Hid. apply (Hl j f Hj Hf). rewrite Hg in Hst. exact Hst.
    + exact (Hl j f Hj Hf Hst).
  - exact (Hl j f' Hj Hf' Hst).
Qed.

(** The file of the suspended call is given a status other than
    processing: no file is marked any more. *)
Lemma settled_quiet t g l :
  (forall f, BatchFile.status (g f) <> FileStatus.processing) ->
  marked t l ->
  quiet (onJob (jobId t) (onFiles (hasId (BatchFile.id (file t))) g) l).
Proof.
  intros Hg Hl j' f' Hj' Hf' Hst. apply In_onJob in Hj' as (j & Hj & ->).
  destruct (String.eqb (BatchJob.id j) (jobId t)) eqn:E.
  - apply In_onFiles in Hf' as (f & Hf & ->).
    destruct (hasId (BatchFile.id (file t)) f) eqn:Eh; [exact (Hg f Hst)|].
    destruct (Hl j f Hj Hf Hst) as [_ Hid]. unfold hasId in Eh.
    rewrite Hid, JobCardFacts.eqb_string_refl in Eh. discriminate Eh.
  - destruct (Hl j f' Hj Hf' Hst) as [Hid _]. apply String.eqb_neq in E. contradiction.
Qed.

(** The next file is marked: it is the one marked file. *)
Lemma marking_marked t jobId fileId now l :
  Dashboard.jobId t = jobId -> BatchFile.id (file t) = fileId ->
  quiet l -> marked t (onJob jobId (onFiles (hasId fileId) (fileProcessing now)) l).
Proof.
  intros <- <- Hl j' f' Hj' Hf' Hst. apply In_onJob in Hj' as (j & Hj & ->).
  destruct (String.eqb (BatchJob.id j) (Dashboard.jobId t)) eqn:E.
  - apply In_onFiles in Hf' as (f & Hf & ->).
    destruct (hasId (BatchFile.id (file t)) f) eqn:Eh.
    + split; apply String.eqb_eq; [exact E | exact Eh].
    + destruct (Hl j f Hj Hf Hst).
  - destruct (Hl j f' Hj Hf' Hst).
Qed.

Lemma loopFrom_tidy jobId job queued i now s :
  quiet (jobs s) ->
  match loopFrom jobId job queued i now s with
  | (s', Some t') => marked t' (jobs s')
  | (s', None) => quiet (jobs s')
  end.
Proof.
  intros H. unfold loopFrom. destruct (queued !! i) as [file|].
  - destruct (aborted s); cbn.
    + apply quiet_onJob; [reflexivity | exact H].
    + apply marking_marked; [reflexivity | reflexivity | exact H].
  - cbn. apply quiet_onJob; [reflexivity | exact H].
Qed.

Lemma resume_tidy t x now s :
  marked t (jobs s) -> fits (awaiting t) x = true ->
  match resume t x now s with
  | (s', Some t') => marked t' (jobs s')
  | (s', None) => quiet (jobs s')
  end.
Proof.
  intros Hm Hfits. unfold resume.
  destruct (awaiting t), x as [ok | result | error | [|]]; try discriminate Hfits;
    try exact Hm;
    unfold afterFile, catchBlock; cbv zeta; apply loopFrom_tidy; cbn [setJobs jobs];
    (apply quiet_onJob; [reflexivity|]);
    (apply settled_quiet; [intros f Hf; discriminate Hf | exact Hm]).
Qed.

(** ** The statuses of the jobs *)

Lemma plain_onJob jobId f l :
  (forall j, plain_status j -> plain_status (f j)) -> plain l -> plain (onJob jobId f l).
Proof.
  intros Hf Hl j' Hj'. apply In_onJob in Hj' as (j & Hj & ->).
  destruct (String.eqb _ _); [apply Hf|]; exact (Hl j Hj).
Qed.

Lemma plain_completed now j : plain_status (jobCompleted now j).
Proof. right. right. reflexivity. Qed.

Lemma plain_running now j : plain_status (jobRunning now j).
Proof. right. left. reflexivity. Qed.

Lemma loopFrom_plain jobId job queued i now s :
  plain (jobs s) -> plain (jobs (fst (loopFrom jobId job queued i now s))).
Proof.
  intros H. unfold loopFrom. destruct (queued !! i) as [file|].
  - destruct (aborted s); cbn; (apply plain_onJob; [|exact H]).
    + intros j _. apply plain_completed.
    + intros j Hj. exact Hj.
  - cbn. apply plain_onJob; [|exact H]. intros j _. apply plain_completed.
Qed.

Lemma afterFile_plain t now s :
  plain (jobs s) -> plain (jobs (fst (afterFile t now s))).
Proof.
  intros H. unfold afterFile. cbv zeta. apply loopFrom_plain. cbn.
  apply plain_onJob; [|exact H]. intros j Hj. exact Hj.
Qed.

Lemma resume_plain t x now s :
  plain (jobs s) -> plain (jobs (fst (resume t x now s))).
Proof.
  intros H. unfold resume.
  destruct (awaiting t), x as [ok | result | error | [|]]; try exact H;
    apply afterFile_plain; cbn; (apply plain_onJob; [|exact H]); intros j Hj; exact Hj.
Qed.

Lemma created_files_queued jobId name files options s j f :
  jobs (createNewJob jobId name files options s) = j :: jobs s ->
  In f (BatchJob.files j) -> BatchFile.status f = FileStatus.queued.
Proof.
  intros Hj Hf. cbn in Hj. injection Hj as <-. cbn in Hf.
  apply JobCardFacts.In_imap in Hf as (n & a & _ & ->). reflexivity.
Qed.

(** ** Every step keeps the files and the jobs tidy *)

Lemma ui_step_tidy sys sys' :
  one_at_a_time sys -> tidy sys -> ui_step sys sys' -> tidy sys'.
Proof.
  intros Hinv [Hfiles Hplain] Hstep. destruct sys as [s ts].
  unfold one_at_a_time in Hinv; cbn [state tasks] in *.
  destruct Hstep as [jobId name files options Hfresh | jobId now j Hfind Hshown Hdis
                    | jobId now j Hfind Hshown | jobId now j Hfind Hdel
                    | k x now t Hk Hfits | handle]; cbn [state tasks] in *.
  - (* a job is created *)
    unfold tidy, step; cbn [state tasks].
    assert (Hnew : forall j f,
              In j (jobs (createNewJob jobId name files options s)) ->
              In f (BatchJob.files j) ->
              BatchFile.status f = FileStatus.processing ->
              In j (jobs s)).
    { intros j f [<- | Hj] Hf Hst; [|exact Hj].
      rewrite (created_files_queued jobId name files options s _ f eq_refl Hf) in Hst.
      discriminate Hst. }
    split.
    + destruct ts as [|t [|? ?]]; [| |exact I].
      * intros j f Hj Hf Hst. exact (Hfiles j f (Hnew j f Hj Hf Hst) Hf Hst).
      * intros j f Hj Hf Hst. exact (Hfiles j f (Hnew j f Hj Hf Hst) Hf Hst).
    + intros j [<- | Hj]; [left; reflexivity | exact (Hplain j Hj)].
  - (* Start *)
    unfold tidy, step; cbn [state tasks].
    destruct ts as [|t [|? ?]]; [| |destruct Hinv].
    + unfold startJob. unfold findJob in Hfind. rewrite Hfind.
      destruct (JobStatus.eqb (BatchJob.status j) JobStatus.running) eqn:Hst.
      { unfold startShown in Hshown. destruct (BatchJob.status j); discriminate. }
      match goal with
      | |- context [loopFrom ?a ?b ?c ?d ?e ?s1] =>
          pose proof (loopFrom_tidy a b c d e s1) as H1;
          pose proof (loopFrom_plain a b c d e s1) as H2;
          destruct (loopFrom a b c d e s1) as [s' [t'|]]
      end; cbn [state tasks app option_list fst] in *.
      * split; [apply H1 | apply H2]; cbn.
        -- apply quiet_onJob; [reflexivity | exact Hfiles].
        -- apply plain_onJob; [|exact Hplain]. intros j0 _. apply plain_running.
      * split; [apply H1 | apply H2]; cbn.
        -- apply quiet_onJob; [reflexivity | exact Hfiles].
        -- apply plain_onJob; [|exact Hplain]. intros j0 _. apply plain_running.
    + exfalso. destruct Hinv as (Hact & _ & _ & _ & Hall & _).
      destruct (find_job_In _ _ _ Hfind) as [Hin Hid].
      unfold startDisabled in Hdis. rewrite Hact in Hdis.
      apply negb_false_iff, String.eqb_eq in Hdis.
      pose proof (Hall j Hin (eq_sym Hdis)) as Hrun.
      unfold startShown in Hshown. rewrite Hrun in Hshown. discriminate Hshown.
  - (* Pause *)
    unfold tidy, settleAborted, step; cbn [state tasks].
    destruct (find_job_In _ _ _ Hfind) as [Hin Hid].
    assert (Hrun : BatchJob.status j = JobStatus.running).
    { unfold pauseShown in Hshown. destruct (BatchJob.status j); try discriminate Hshown.
      reflexivity. }
    destruct ts as [|t [|? ?]]; [| |destruct Hinv].
    + exfalso. destruct Hinv as [_ Hnone]. exact (Hnone j Hin Hrun).
    + destruct (rejectAborted_paused jobId now t s Hinv) as (s' & -> & _ & ->).
      destruct Hinv as (Hact & (c & Hc & Hsig & Hflag) & Hpres & Honly & Hall & _).
      assert (Hlen : c < length (controllers s)) by (eapply lookup_lt_Some; exact Hflag).
      rewrite (resume_rejected_when_aborted t AbortError now (pauseJob jobId s)
                 (aborted_after_pauseJob jobId s c Hc Hlen)).
      assert (Hjt : jobId = Dashboard.jobId t) by (rewrite <- Hid; exact (Honly j Hin Hrun)).
      rewrite Hjt. cbn [state tasks fst finishJob setJobs jobs catchBlock pauseJob].
      split.
      * apply quiet_onJob; [reflexivity|]. apply quiet_onJob; [reflexivity|].
        apply settled_quiet; [intros f Hf; discriminate Hf|].
        apply marked_onJob; [intros ?; reflexivity | reflexivity | exact Hfiles].
      * rewrite !onJob_onJob by (intros ?; reflexivity).
        apply plain_onJob; [|exact Hplain]. intros j0 _. apply plain_completed.
  - (* Delete *)
    unfold tidy, settleAborted, step; cbn [state tasks].
    destruct (find_job_In _ _ _ Hfind) as [Hin Hid].
    assert (Hidle : BatchJob.status j <> JobStatus.running).
    { intros Hrun. unfold deleteDisabled in Hdel. rewrite Hrun in Hdel. discriminate Hdel. }
    destruct ts as [|t [|? ?]]; [| |destruct Hinv].
    + destruct Hinv as [Hact Hnone]. unfold deleteJob. rewrite Hact. cbn.
      split.
      * intros j' f Hj'. apply In_filter_jobs in Hj'. exact (Hfiles j' f Hj').
      * intros j' Hj'. apply In_filter_jobs in Hj'. exact (Hplain j' Hj').
    + pose proof (signalAborted_busy t s Hinv) as Hsa.
      destruct Hinv as (Hact & Hctl & (j0 & Hj0 & Hid0) & Honly & Hall & Hfl).
      assert (Hne : String.eqb (Dashboard.jobId t) jobId = false).
      { apply String.eqb_neq. intros E. apply Hidle. apply (Hall j Hin). congruence. }
      unfold deleteJob. rewrite Hact, Hne.
      rewrite rejectAborted_untouched by exact Hsa. cbn.
      split.
      * intros j' f Hj'. apply In_filter_jobs in Hj'. exact (Hfiles j' f Hj').
      * intros j' Hj'. apply In_filter_jobs in Hj'. exact (Hplain j' Hj').
  - (* a promise settles *)
    unfold tidy, step; cbn [state tasks].
    destruct ts as [|t0 [|? ?]]; [discriminate Hk | | destruct Hinv].
    destruct k as [|k]; [|discriminate Hk]. cbn in Hk. injection Hk as ->.
    cbn [lookup list_lookup].
    pose proof (resume_tidy t x now s Hfiles Hfits) as H1.
    pose proof (resume_plain t x now s Hplain) as H2.
    destruct (resume t x now s) as [s' [t'|]]; cbn [state tasks fst] in *;
      split; assumption.
  - (* a progress timer fires *)
    unfold tidy, step; cbn [state tasks].
    destruct (List.find _ (intervals s)) as [[h [jid fid]]|]; cbn [state tasks];
      [|split; assumption].
    split.
    + destruct ts as [|t [|? ?]]; [| |exact I]; cbn.
      * apply quiet_onFiles; [reflexivity | exact Hfiles].
      * apply marked_onFiles; [reflexivity | intros ?; reflexivity | exact Hfiles].
    + cbn. apply plain_onJob; [|exact Hplain]. intros j0 Hj0. exact Hj0.
Qed.

Lemma reachable_tidy sys : reachable sys -> tidy sys.
Proof.
  induction 1 as [|sys sys' Hreach IH Hstep].
  - split; [intros j f [] | intros j []].
  - exact (ui_step_tidy sys sys' (reachable_one_at_a_time sys Hreach) IH Hstep).
Qed.

Lemma settleAborted_evolves l now sys :
  evolves l (jobs (state sys)) -> evolves l (jobs (state (settleAborted now sys))).
Proof.
  intros H. unfold settleAborted.
  pose proof (rejectAborted_evolves now (tasks sys) l (state sys) H) as H1.
  destruct (rejectAborted now (tasks sys) (state sys)) as [s ts]. exact H1.
Qed.

Lemma reachable_evolves sys : reachable sys -> evolves [] (jobs (state sys)).
Proof.
  induction 1 as [|sys sys' _ IH Hstep]; [apply evolves_refl|].
  destruct Hstep;
    try (apply settleAborted_evolves);
    (eapply evolves_trans; [exact IH | apply step_evolves]).
Qed.

Lemma reachable_ids sys j :
  reachable sys -> In j (jobs (state sys)) -> ids_as_created j.
Proof.
  intros Hreach. apply (evolves_stable _ [] _ ids_as_created_stable (reachable_evolves sys Hreach)).
  intros j0 [].
Qed.

(** Among files with pairwise different ids, those marked as being
    processed all carrying one id, at most one is marked. *)
Lemma one_marked (fileId : string) (files : list BatchFile.t) :
  NoDup (map BatchFile.id files) ->
  (forall f, In f files -> BatchFile.status f = FileStatus.processing ->
             BatchFile.id f = fileId) ->
  length (JobCard.withStatus FileStatus.processing files) <= 1.
Proof.
  unfold JobCard.withStatus. induction files as [|f files IH]; intros Hnd Hid; [cbn; lia|].
  cbn [map] in Hnd. apply NoDup_cons in Hnd as [Hnotin Hnd].
  cbn [List.filter].
  destruct (FileStatus.eqb (BatchFile.status f) FileStatus.processing) eqn:E.
  - assert (Hf : BatchFile.status f = FileStatus.processing)
      by (destruct (BatchFile.status f); try discriminate E; reflexivity).
    assert (Hnone : List.filter
              (fun g => FileStatus.eqb (BatchFile.status g) FileStatus.processing) files = []).
    { destruct (List.filter _ files) as [|g rest] eqn:Eg; [reflexivity|]. exfalso.
      assert (Hg : In g (List.filter
                (fun g => FileStatus.eqb (BatchFile.status g) FileStatus.processing) files))
        by (rewrite Eg; left; reflexivity).
      apply List.filter_In in Hg as [Hg Hst].
      assert (Hgp : BatchFile.status g = FileStatus.processing)
        by (destruct (BatchFile.status g); try discriminate Hst; reflexivity).
      apply Hnotin. apply list_elem_of_In.
      rewrite (Hid f (or_introl eq_refl) Hf), <- (Hid g (or_intror Hg) Hgp).
      apply List.in_map. exact Hg. }
    rewrite Hnone. cbn. lia.
  - apply IH; [exact Hnd|]. intros g Hg. apply Hid. right. exact Hg.
Qed.

Lemma ids_NoDup (j : BatchJob.t) :
  ids_as_created j -> NoDup (map BatchFile.id (BatchJob.files j)).
Proof.
  intros Hids. rewrite Hids, imap_by_index.
  change (NoDup ((fun index => BatchJob.id j +:+ "_file_" +:+ pretty index)
                   <$> seq 0 (length (BatchJob.files j)))).
  apply NoDup_fmap_2; [|apply NoDup_seq].
  intros a b H. exact (file_id_inj _ a b H).
Qed.

(** X7. Files are processed one at a time. In every state reached through
    the controls, a file marked as being processed is the file a suspended
    call of [startJob] waits for: there is exactly one such call, the job
    of the file is the active job and is running, it has no other file
    marked as being processed, and any file marked as being processed, in
    any job, carries the same job id and file id. In particular no file is
    left marked once no call is suspended, after a pause or at the end. *)
Theorem one_file_processed_at_a_time (sys : System) (j : BatchJob.t) (f : BatchFile.t) :
  reachable sys -> In j (jobs (state sys)) -> In f (BatchJob.files j) ->
  BatchFile.status f = FileStatus.processing ->
  (exists t, tasks sys = [t] /\ jobId t = BatchJob.id j /\
             BatchFile.id (file t) = BatchFile.id f) /\
  activeJobId (state sys) = Some (BatchJob.id j) /\
  BatchJob.status j = JobStatus.running /\
  length (JobCard.withStatus FileStatus.processing (BatchJob.files j)) = 1 /\
  forall j' f', In j' (jobs (state sys)) -> In f' (BatchJob.files j') ->
    BatchFile.status f' = FileStatus.processing ->
    BatchJob.id j' = BatchJob.id j /\ BatchFile.id f' = BatchFile.id f.
Proof.
  intros Hreach Hj Hf Hst.
  pose proof (reachable_one_at_a_time sys Hreach) as Hinv.
  pose proof (reachable_tidy sys Hreach) as [Hfiles _].
  pose proof (reachable_ids sys j Hreach Hj) as Hids.
  unfold one_at_a_time in Hinv.
  destruct (tasks sys) as [|t [|? ?]]; [| |destruct Hinv].
  - destruct (Hfiles j f Hj Hf Hst).
  - destruct (Hfiles j f Hj Hf Hst) as [Hjid Hfid].
    destruct Hinv as (Hact & _ & _ & _ & Hall & _).
    split; [exists t; repeat split; congruence|].
    split; [rewrite Hact, Hjid; reflexivity|].
    split; [exact (Hall j Hj Hjid)|].
    split.
    + pose proof (one_marked (BatchFile.id (file t)) (BatchJob.files j) (ids_NoDup j Hids)) as Hle.
      assert (Hin : In f (JobCard.withStatus FileStatus.processing (BatchJob.files j))).
      { apply List.filter_In. split; [exact Hf|]. rewrite Hst. reflexivity. }
      assert (Hone : length (JobCard.withStatus FileStatus.processing (BatchJob.files j)) <= 1).
      { apply Hle. intros g Hg Hgst. exact (proj2 (Hfiles j g Hj Hg Hgst)). }
      destruct (JobCard.withStatus FileStatus.processing (BatchJob.files j)) as [|? [|? ?]];
        [destruct Hin | reflexivity | cbn in Hone; lia].
    + intros j' f' Hj' Hf' Hst'. destruct (Hfiles j' f' Hj' Hf' Hst') as [H1 H2].
      split; congruence.
Qed.

Lemma one_file_processed_at_a_time_witness :
  In Samples.first_job (jobs (state Samples.mid_flight)) /\
  In (hd Samples.blank_file (tl (BatchJob.files Samples.first_job)))
     (BatchJob.files Samples.first_job) /\
  BatchFile.status (hd Samples.blank_file (tl (BatchJob.files Samples.first_job)))
  = FileStatus.processing /\
  activeJobId (state Samples.mid_flight) = Some (BatchJob.id Samples.first_job) /\
  length (JobCard.withStatus FileStatus.processing (BatchJob.files Samples.first_job)) = 1.
Proof.
  assert (Hj : In Samples.first_job (jobs (state Samples.mid_flight)))
    by (vm_compute; left; reflexivity).
  assert (Hf : In (hd Samples.blank_file (tl (BatchJob.files Samples.first_job)))
                  (BatchJob.files Samples.first_job))
    by (vm_compute; right; left; reflexivity).
  assert (Hst : BatchFile.status (hd Samples.blank_file (tl (BatchJob.files Samples.first_job)))
                = FileStatus.processing) by (vm_compute; reflexivity).
  destruct (one_file_processed_at_a_time Samples.mid_flight Samples.first_job _
              reachable_mid_flight Hj Hf Hst) as (_ & Hact & _ & Hone & _).
  split; [exact Hj|]. split; [exact Hf|]. split; [exact Hst|]. split; [exact Hact | exact Hone].
Defined.



End SequenceFacts.

(** * A started job runs to its end *)

Module CompletionFacts.
Import Dashboard Invariant Course JsFacts DashboardFacts DashboardRuns.

Lemma find_onJob (jobId : string) (f : BatchJob.t -> BatchJob.t) (l : list BatchJob.t) :
  keeps_id f ->
  List.find (fun j => String.eqb (BatchJob.id j) jobId) (onJob jobId f l)
  = option_map f (List.find (fun j => String.eqb (BatchJob.id j) jobId) l).
Proof.
  intros Hf. unfold onJob. induction l as [|j l IH]; [reflexivity|].
  cbn [map List.find]. destruct (String.eqb (BatchJob.id j) jobId) eqn:E.
  - rewrite Hf, E. reflexivity.
  - rewrite E. exact IH.
Qed.

Lemma findJob_setJobs (jobId : string) (f : BatchJob.t -> BatchJob.t) (s : State) j :
  keeps_id f -> findJob jobId s = Some j ->
  findJob jobId (setJobs (onJob jobId f) s) = Some (f j).
Proof.
  intros Hf Hj. unfold findJob in *. cbn [setJobs jobs].
  rewrite find_onJob by exact Hf. rewrite Hj. reflexivity.
Qed.

(** The head of the loop at position [i]: the call suspends on the file at
    that position, or the queue is used up and the job is finished. *)
Lemma loop_next jobId job q i now s j :
  aborted s = false -> findJob jobId s = Some j -> pending_ahead q i j ->
  match loopFrom jobId job q i now s with
  | (s', Some t') => waiting jobId q i {| state := s'; tasks := [t'] |}
  | (s', None) => length q <= i /\ finished jobId {| state := s'; tasks := [] |}
  end.
Proof.
  intros Hab Hfind Hpend. unfold loopFrom. destruct (q !! i) as [file|] eqn:Hq.
  - rewrite Hab. split; [|split].
    + eexists. cbn [tasks]. split; [reflexivity|]. cbn. repeat split. exact Hq.
    + exact Hab.
    + exists (onFiles (hasId (BatchFile.id file)) (fileProcessing now) j). split.
      * apply (findJob_setJobs jobId _ s j); [intros ?; reflexivity | exact Hfind].
      * intros f' Hf' Hp. apply In_onFiles in Hf' as (f & Hf & ->).
        destruct (hasId (BatchFile.id file) f) eqn:Eh; [discriminate Hp|].
        pose proof (Hpend f Hf Hp) as Hin.
        rewrite (drop_S q file i Hq) in Hin. cbn [map] in Hin.
        destruct Hin as [Heq | Hin]; [|exact Hin].
        unfold hasId in Eh. rewrite Heq, JobCardFacts.eqb_string_refl in Eh. discriminate Eh.
  - apply lookup_ge_None in Hq. split; [exact Hq|].
    split; [reflexivity|]. split; [reflexivity|].
    exists (jobCompleted now j). split.
    + apply (findJob_setJobs jobId _ s j); [intros ?; reflexivity | exact Hfind].
    + split; [reflexivity|]. split; [reflexivity|].
      intros f Hf. destruct (isQueuedOrPaused f) eqn:Hp; [|reflexivity].
      pose proof (Hpend f Hf Hp) as Hin. rewrite drop_ge in Hin by exact Hq. destruct Hin.
Qed.

(** The file of the suspended call is settled by [g]; then the end of the
    loop body and the next pass. *)
Lemma afterFile_next t g now s jobId q i j :
  Dashboard.jobId t = jobId -> queuedFiles t = q -> Dashboard.i t = i ->
  (forall f, isQueuedOrPaused (g f) = false) ->
  aborted s = false -> findJob jobId s = Some j -> pending_ahead q (S i) j ->
  match afterFile t now
          (setJobs (onJob jobId (onFiles (hasId (BatchFile.id (file t))) g)) s) with
  | (s', Some t') => waiting jobId q (S i) {| state := s'; tasks := [t'] |}
  | (s', None) => length q <= S i /\ finished jobId {| state := s'; tasks := [] |}
  end.
Proof.
  intros <- <- <- Hg Hab Hfind Hpend. unfold afterFile. cbv zeta.
  eapply loop_next.
  - exact Hab.
  - apply findJob_setJobs; [intros ?; reflexivity|].
    apply findJob_setJobs; [intros ?; reflexivity | exact Hfind].
  - intros f' Hf' Hp. cbn [jobWithProgress BatchJob.files] in Hf'.
    apply In_onFiles in Hf' as (f & Hf & ->).
    destruct (hasId (BatchFile.id (file t)) f); [rewrite Hg in Hp; discriminate Hp|].
    exact (Hpend f Hf Hp).
Qed.

(** One request ends, in any of the four ways. *)
Lemma settle_next jobId q i o now sys :
  waiting jobId q i sys ->
  let sys' := run (map (fun x => Settle 0 x now) (settlements o)) sys in
  waiting jobId q (S i) sys' \/ (length q <= S i /\ finished jobId sys').
Proof.
  intros ((t & Hts & Hjid & Hq & Hi & Hfile & Haw) & Hab & (j & Hfind & Hpend)).
  destruct sys as [s ts]. cbn [tasks state] in *. subst ts.
  destruct o as [result | error | | ok]; cbn [settlements map run fold_left step tasks
    state lookup list_lookup]; unfold resume; rewrite ?Haw;
    cbn [awaitNext awaiting insert list_insert lookup list_lookup tasks state].
  - (* a reply and its result *)
    pose proof (afterFile_next (awaitNext AwaitResult t) (fileCompleted result) now
                  (clearInterval (progressInterval t) s) jobId q i j
                  Hjid Hq Hi (fun f => eq_refl) Hab Hfind Hpend) as H.
    rewrite <- Hjid in H |- *. cbn [awaitNext Dashboard.jobId file] in H |- *.
    destruct (afterFile _ _ _) as [s' [t'|]]; cbn; [left | right]; exact H.
  - (* a reply and its error *)
    pose proof (afterFile_next (awaitNext AwaitErrorBody t)
                  (fileError (Js.or_default error "Processing failed")) now
                  (clearInterval (progressInterval t) s) jobId q i j
                  Hjid Hq Hi (fun f => eq_refl) Hab Hfind Hpend) as H.
    rewrite <- Hjid in H |- *. cbn [awaitNext Dashboard.jobId file] in H |- *.
    destruct (afterFile _ _ _) as [s' [t'|]]; cbn; [left | right]; exact H.
  - (* no reply *)
    pose proof (afterFile_next t (fileError "Network error") now s jobId q i j
                  Hjid Hq Hi (fun f => eq_refl) Hab Hfind Hpend) as H.
    rewrite <- Hjid in H |- *. unfold catchBlock.
    destruct (afterFile _ _ _) as [s' [t'|]]; cbn; [left | right]; exact H.
  - (* a reply that cannot be read *)
    pose proof (afterFile_next (awaitNext (if ok then AwaitResult else AwaitErrorBody) t)
                  (fileError "Network error") now
                  (clearInterval (progressInterval t) s) jobId q i j
                  Hjid Hq Hi (fun f => eq_refl) Hab Hfind Hpend) as H.
    rewrite <- Hjid in H |- *. cbn [awaitNext Dashboard.jobId file] in H |- *.
    destruct ok; cbn [awaiting]; unfold catchBlock;
      cbn [awaitNext Dashboard.jobId file];
      destruct (afterFile _ _ _) as [s' [t'|]]; cbn; [left | right | left | right]; exact H.
Qed.

Lemma answers_finish jobId q : forall outcomes i sys,
  waiting jobId q i sys -> length outcomes = length q - i ->
  finished jobId (run (answers outcomes) sys).
Proof.
  induction outcomes as [|[o now] outcomes IH]; intros i sys Hw Hlen.
  - exfalso. destruct Hw as ((t & _ & _ & _ & _ & Hfile & _) & _).
    apply lookup_lt_Some in Hfile. cbn in Hlen. lia.
  - unfold answers. cbn [flat_map fst snd]. unfold run. rewrite fold_left_app.
    fold (run (map (fun x => Settle 0 x now) (settlements o)) sys).
    match goal with
    | |- finished _ (fold_left _ ?rest ?mid) => change (finished jobId (run (answers outcomes) mid))
    end.
    destruct (settle_next jobId q i o now sys Hw) as [Hw' | [Hge Hfin]].
    + apply (IH (S i)); [exact Hw'|]. cbn in Hlen. lia.
    + destruct outcomes as [|? ?]; [exact Hfin|].
      destruct Hw as ((t & _ & _ & _ & _ & Hfile & _) & _).
      apply lookup_lt_Some in Hfile. cbn in Hlen. lia.
Qed.

(** X9. A started job runs to its end whatever the replies. Take a state
    with no suspended call and a job that is not running, start the job,
    and let the request for each of its queued or paused files end in any
    of the four ways (a success, an error reply, no reply, a reply whose
    body cannot be read). Then the call has returned, no job is active, the
    job is marked completed at progress 100, and none of its files is left
    queued or paused. A file that fails does not stop the batch, and the
    job is marked completed also when every file has failed. *)
Theorem started_job_runs_to_completion (sys : System) (jobId : string) (j : BatchJob.t)
    (now : Z) (outcomes : list (Outcome * Z)) :
  tasks sys = [] -> findJob jobId (state sys) = Some j ->
  BatchJob.status j <> JobStatus.running ->
  length outcomes = length (List.filter isQueuedOrPaused (BatchJob.files j)) ->
  let sys' := run (Start jobId now :: answers outcomes) sys in
  tasks sys' = [] /\ activeJobId (state sys') = None /\
  exists j',
    findJob jobId (state sys') = Some j' /\
    BatchJob.status j' = JobStatus.completed /\ BatchJob.progress j' = 100%Z /\
    forall f, In f (BatchJob.files j') -> isQueuedOrPaused f = false.
Proof.
  intros Hts Hfind Hst Hlen sys'. subst sys'.
  change (finished jobId (run (answers outcomes) (step (Start jobId now) sys))).
  unfold step, startJob. pose proof Hfind as Hfind'. unfold findJob in Hfind'. rewrite Hfind'.
  destruct (JobStatus.eqb (BatchJob.status j) JobStatus.running) eqn:E.
  { exfalso. apply Hst. destruct (BatchJob.status j); try discriminate E; reflexivity. }
  match goal with
  | |- context [loopFrom ?a ?b ?c ?d ?e ?s1] =>
      pose proof (loop_next a b c d e s1 (jobRunning now j)) as H;
      destruct (loopFrom a b c d e s1) as [s' [t'|]]
  end; rewrite Hts; cbn [app option_list].
  - apply (answers_finish jobId (List.filter isQueuedOrPaused (BatchJob.files j))
             outcomes 0); [|lia]. apply H.
    + unfold aborted. cbn. rewrite lookup_app_r by lia. rewrite Nat.sub_diag. reflexivity.
    + apply (findJob_setJobs jobId (jobRunning now)); [intros ?; reflexivity | exact Hfind].
    + intros f Hf Hp. rewrite drop_0. apply List.in_map. apply List.filter_In.
      split; assumption.
  - destruct H as [Hge Hfin].
    + unfold aborted. cbn. rewrite lookup_app_r by lia. rewrite Nat.sub_diag. reflexivity.
    + apply (findJob_setJobs jobId (jobRunning now)); [intros ?; reflexivity | exact Hfind].
    + intros f Hf Hp. rewrite drop_0. apply List.in_map. apply List.filter_In.
      split; assumption.
    + destruct outcomes as [|? ?]; [exact Hfin | cbn in Hlen; lia].
Qed.

Lemma started_job_runs_to_completion_witness :
  let sys := run [Create "J" "Batch Job"
                    [Samples.dcm "a.dcm"; Samples.dcm "b.dcm"; Samples.dcm "c.dcm"]
                    Samples.options] boot in
  let outcomes := [(Succeeds Samples.reply, 20%Z); (Fails None, 30%Z); (Unreachable, 40%Z)] in
  let sys' := run (Start "J" 10 :: answers outcomes) sys in
  findJob "J" (state sys) = Some (hd Samples.blank_job (jobs (state sys))) /\
  fileStates "J" (state sys')
  = [(FileStatus.completed, 100%Z); (FileStatus.error, 0%Z); (FileStatus.error, 0%Z)] /\
  tasks sys' = [] /\ activeJobId (state sys') = None /\
  exists j',
    findJob "J" (state sys') = Some j' /\
    BatchJob.status j' = JobStatus.completed /\ BatchJob.progress j' = 100%Z /\
    forall f, In f (BatchJob.files j') -> isQueuedOrPaused f = false.
Proof.
  intros sys outcomes sys'.
  assert (Hfind : findJob "J" (state sys) = Some (hd Samples.blank_job (jobs (state sys))))
    by (vm_compute; reflexivity).
  split; [exact Hfind|]. split; [vm_compute; reflexivity|].
  apply (started_job_runs_to_completion sys "J" (hd Samples.blank_job (jobs (state sys)))
           10 outcomes).
  - reflexivity.
  - exact Hfind.
  - vm_compute. discriminate.
  - vm_compute. reflexivity.
Defined.

(** ** The progress timers *)

Lemma loopFrom_keeps_timers jobId job q i now s h :
  In h (intervals s) -> In h (intervals (fst (loopFrom jobId job q i now s))).
Proof.
  intros H. unfold loopFrom. destruct (q !! i) as [file|]; [|exact H].
  destruct (aborted s); [exact H|]. cbn. apply List.in_or_app. left. exact H.
Qed.

(** X21. The progress timer of a file is cleared when the reply to its
    request arrives, and only then. When the request is rejected instead,
    because the job was paused (the abort) or the network failed, the call
    goes on without clearing the timer: every timer that was live before is
    still live afterwards, among them the timer of the file whose request
    was rejected, although no request for that file is pending any more. *)
Theorem rejected_request_leaves_its_timer_running (t : Task) (e : Thrown) (ok : bool)
    (now : Z) (s : State) (h : nat * (string * string)) :
  (In h (intervals s) -> In h (intervals (fst (resume t (Rejected e) now s)))) /\
  (awaiting t = AwaitFetch ->
   ~ In (progressInterval t) (map fst (intervals (fst (resume t (Response ok) now s))))).
Proof.
  split.
  - intros H.
    assert (Hres : resume t (Rejected e) now s = afterFile t now (catchBlock e t s))
      by (unfold resume; destruct (awaiting t); reflexivity).
    rewrite Hres. unfold afterFile. cbv zeta. apply loopFrom_keeps_timers.
    destruct e; exact H.
  - intros Haw Hin. unfold resume in Hin. rewrite Haw in Hin. cbn in Hin.
    apply List.in_map_iff in Hin as (x & Hx & Hin).
    apply List.filter_In in Hin as [_ Hne].
    rewrite Hx, Nat.eqb_refl in Hne. discriminate Hne.
Qed.

Lemma rejected_request_leaves_its_timer_running_witness :
  let t := Samples.suspended_call in
  let s := pauseJob "J" (state Samples.mid_flight) in
  let after := fst (resume t (Rejected AbortError) 40 s) in
  awaiting t = AwaitFetch /\ progressInterval t = 1 /\
  In (1, ("J", "J_file_1")) (intervals s) /\
  In (1, ("J", "J_file_1")) (intervals after) /\
  fileStates "J" after
  = [(FileStatus.completed, 100%Z); (FileStatus.paused, 0%Z); (FileStatus.queued, 0%Z)].
Proof.
  intros t s after.
  assert (H : In (1, ("J", "J_file_1")) (intervals s)) by (vm_compute; left; reflexivity).
  split; [reflexivity|]. split; [reflexivity|]. split; [exact H|]. split.
  - exact (proj1 (rejected_request_leaves_its_timer_running t AbortError true 40 s _) H).
  - vm_compute. reflexivity.
Defined.

End CompletionFacts.

(** * What the summary counts *)

Module SummaryFacts.
Import Processor Report Sections.

Lemma filter_filter {A} (P Q : A -> bool) (l : list A) :
  List.filter P (List.filter Q l) = List.filter (fun x => Q x && P x) l.
Proof.
  induction l as [|a l IH]; [reflexivity|]. cbn [List.filter].
  destruct (Q a); cbn [andb List.filter]; [|exact IH].
  destruct (P a); rewrite IH; reflexivity.
Qed.

Lemma filter_length {A} (P : A -> bool) (l : list A) :
  length (List.filter P l) <= length l.
Proof.
  induction l as [|a l IH]; [reflexivity|]. cbn [List.filter].
  destruct (P a); cbn [length]; lia.
Qed.

(** ** The three counters *)

Lemma fold_counters (l : list ProcessedFileData) : forall c,
  c_urgentStudies (fold_left forEach_body l c)
  = c_urgentStudies c + length (List.filter (fun f => urgent (metadata f)) l) /\
  c_phiDetected (fold_left forEach_body l c)
  = c_phiDetected c
    + length (List.filter (fun f => (0 <? length (phi_flags (metadata f)))%nat) l) /\
  c_anonymizedFiles (fold_left forEach_body l c)
  = c_anonymizedFiles c
    + length (List.filter (fun f => String.eqb (phi_removed (metadata f)) "YES") l).
Proof.
  induction l as [|f l IH]; intros c; [cbn; lia|].
  cbn [fold_left List.filter]. destruct (IH (forEach_body c f)) as (H1 & H2 & H3).
  rewrite H1, H2, H3. cbn [forEach_body c_urgentStudies c_phiDetected c_anonymizedFiles].
  repeat split;
    match goal with
    | |- context [if ?b then S _ else _] => destruct b
    end; cbn [length]; lia.
Qed.

(** X10. The tables of the HTML report and the numbers of the summary
    agree: the table of urgent studies has [summary.urgentStudies] rows, the
    table of files with PHI [summary.phiDetected] rows and the metadata
    table [summary.successfulFiles] rows; and none of the three counters
    (urgent, PHI detected, anonymized) exceeds the number of successful
    files, because failed outcomes are never counted. *)
Theorem report_tables_agree_with_summary (files : list ProcessedFileData) :
  length (urgentFiles files) = urgentStudies (generateSummary files) /\
  length (phiFiles files) = phiDetected (generateSummary files) /\
  length (Sections.successfulFiles files) = Report.successfulFiles (generateSummary files) /\
  urgentStudies (generateSummary files) <= Report.successfulFiles (generateSummary files) /\
  phiDetected (generateSummary files) <= Report.successfulFiles (generateSummary files) /\
  anonymizedFiles (generateSummary files) <= Report.successfulFiles (generateSummary files).
Proof.
  unfold generateSummary, urgentFiles, phiFiles, Sections.successfulFiles.
  cbn [urgentStudies phiDetected anonymizedFiles Report.successfulFiles].
  match goal with
  | |- context [fold_left forEach_body ?l ?c] =>
      destruct (fold_counters l c) as (H1 & H2 & H3)
  end.
  rewrite H1, H2, H3. cbn [c_urgentStudies c_phiDetected c_anonymizedFiles Nat.add].
  split; [rewrite filter_filter; reflexivity|].
  split; [rewrite filter_filter; reflexivity|].
  split; [reflexivity|].
  split; [|split]; apply filter_length.
Qed.

(** ** The three maps *)

Lemma count_lookup_other (o : gmap string JsValue) (k k' : string) :
  k' <> k -> count o k' !! k = o !! k.
Proof.
  intros Hne. unfold count, set. destruct (String.eqb k' "__proto__"); [reflexivity|].
  apply lookup_insert_ne. exact Hne.
Qed.

Lemma count_lookup_same (o : gmap string JsValue) (k : string) (n : nat) :
  ordinary k -> o !! k = counted n -> count o k !! k = counted (S n).
Proof.
  intros [Hproto Hmeth] Hk. unfold count, set, get. rewrite Hproto, Hmeth, Hk.
  rewrite lookup_insert_eq. destruct n as [|n]; cbn [counted or0_plus1]; [reflexivity|].
  rewrite Nat.add_1_r. reflexivity.
Qed.

Lemma fold_count_lookup (key : ProcessedFileData -> string) (k : string)
    (l : list ProcessedFileData) :
  ordinary k -> forall o n, o !! k = counted n ->
  fold_left (fun o f => count o (key f)) l o !! k
  = counted (n + length (List.filter (fun f => String.eqb (key f) k) l)).
Proof.
  intros Hk. induction l as [|f l IH]; intros o n Ho.
  - cbn. rewrite Nat.add_0_r. exact Ho.
  - cbn [fold_left List.filter]. destruct (String.eqb (key f) k) eqn:E.
    + apply String.eqb_eq in E. rewrite E. cbn [length].
      rewrite Nat.add_succ_r. apply (IH _ (S n)). apply count_lookup_same; assumption.
    + apply String.eqb_neq in E. apply IH. rewrite count_lookup_other by exact E. exact Ho.
Qed.

Lemma fold_maps (l : list ProcessedFileData) : forall c,
  c_modalities (fold_left forEach_body l c)
  = fold_left (fun o f => count o (modality (metadata f))) l (c_modalities c) /\
  c_bodyParts (fold_left forEach_body l c)
  = fold_left (fun o f => count o (body_part_examined (metadata f))) l (c_bodyParts c) /\
  c_manufacturers (fold_left forEach_body l c)
  = fold_left (fun o f => count o (manufacturer (metadata f))) l (c_manufacturers c).
Proof.
  induction l as [|f l IH]; intros c; [repeat split; reflexivity|].
  cbn [fold_left]. destruct (IH (forEach_body c f)) as (H1 & H2 & H3).
  rewrite H1, H2, H3. repeat split; reflexivity.
Qed.

(** X11. For a key that is not a property name of [Object.prototype], each
    of the three distribution maps of the summary holds exactly the number
    of successful outcomes with that key, and no entry at all when there is
    none; outcomes that failed are not counted, and neither the other keys
    nor keys such as [constructor] disturb the count. *)
Theorem generateSummary_counts_each_key (files : list ProcessedFileData) (k : string) :
  ordinary k ->
  modalities (generateSummary files) !! k
  = counted (occurrences (fun f => modality (metadata f)) k files) /\
  bodyParts (generateSummary files) !! k
  = counted (occurrences (fun f => body_part_examined (metadata f)) k files) /\
  manufacturers (generateSummary files) !! k
  = counted (occurrences (fun f => manufacturer (metadata f)) k files).
Proof.
  intros Hk. unfold generateSummary, occurrences.
  cbn [modalities bodyParts manufacturers].
  match goal with
  | |- context [fold_left forEach_body ?l ?c] =>
      destruct (fold_maps l c) as (H1 & H2 & H3)
  end.
  rewrite H1, H2, H3. cbn [c_modalities c_bodyParts c_manufacturers].
  rewrite <- !filter_filter.
  repeat split; apply (fold_count_lookup _ k _ Hk ∅ 0); apply lookup_empty.
Qed.

Lemma generateSummary_counts_each_key_witness :
  let failed :=
    {| fileName := "d.dcm"; fileSize := 1024; metadata := Samples.study "CT" "SIEMENS";
       processingTime := 10; status := error; error_message := Some "Processing failed" |} in
  let files :=
    [ Samples.outcome "a.dcm" "CT" "SIEMENS"; Samples.outcome "b.dcm" "MR" "constructor";
      Samples.outcome "c.dcm" "CT" "GE"; failed ] in
  ordinary "CT" /\
  modalities (generateSummary files) !! "CT" = Some (VNumber 2) /\
  manufacturers (generateSummary files) !! "CT" = None.
Proof.
  intros failed files.
  assert (Hk : ordinary "CT") by (split; reflexivity).
  destruct (generateSummary_counts_each_key files "CT" Hk) as (Hm & _ & Hf).
  split; [exact Hk|]. split; [rewrite Hm | rewrite Hf]; reflexivity.
Defined.

(** ** The order of the outcomes *)








End SummaryFacts.

(** * More on the processor: file names, urgency, identifiers, batches *)

Module NameFacts.
Import Js Processor JsFacts.

(** ** Substrings and letter case *)

Lemma prefix_empty (s : string) : String.prefix EmptyString s = true.
Proof. destruct s; reflexivity. Qed.

Lemma prefix_append (k post : string) : String.prefix k (k +:+ post) = true.
Proof.
  induction k as [|a k IH]; [apply prefix_empty|].
  rewrite append_cons. cbn [String.prefix].
  destruct (Ascii.ascii_dec a a) as [_|Hne]; [exact IH | destruct (Hne eq_refl)].
Qed.



Lemma includes_append (pre k post : string) : includes (pre +:+ k +:+ post) k = true.
Proof.
  induction pre as [|c pre IH].
  - rewrite append_nil_l.
    destruct (k +:+ post) eqn:E; cbn [includes]; rewrite <- E, prefix_append; reflexivity.
  - rewrite append_cons. cbn [includes]. rewrite IH. apply orb_true_r.
Qed.

Lemma toLowerCase_append (a b : string) :
  toLowerCase (a +:+ b) = toLowerCase a +:+ toLowerCase b.
Proof.
  induction a as [|c a IH]; [reflexivity|].
  rewrite append_cons. cbn [toLowerCase]. rewrite append_cons, IH. reflexivity.
Qed.




(** ** Urgency *)

(** X14. [checkUrgency] looks for its keywords as substrings of the
    lowercased description: a description is urgent as soon as one of
    trauma, stroke, emergency, stat, urgent occurs anywhere in it, in any
    letter case and also inside a longer word, whatever the modality; and
    for the modality CT as soon as [head] occurs in it in the same way. *)
Theorem checkUrgency_matches_substrings (modality pre word post : string) :
  (In (toLowerCase word) urgentKeywords ->
   checkUrgency modality (pre +:+ word +:+ post) = true) /\
  (toLowerCase word = "head" ->
   checkUrgency "CT" (pre +:+ word +:+ post) = true).
Proof.
  split; intros H; unfold checkUrgency; rewrite !toLowerCase_append; apply orb_true_iff.
  - left. apply existsb_exists. exists (toLowerCase word). split; [exact H|].
    apply includes_append.
  - right. rewrite H. cbn [String.eqb Ascii.eqb Bool.eqb andb]. apply includes_append.
Qed.

Lemma checkUrgency_matches_substrings_witness :
  In (toLowerCase "STAT") urgentKeywords /\
  checkUrgency "MR" "Prostate biopsy" = true /\
  checkUrgency "US" "STAT abdomen" = true /\
  checkUrgency "CT" "Arrowhead removal" = true.
Proof.
  assert (H : In (toLowerCase "stat") urgentKeywords) by (vm_compute; auto).
  split; [vm_compute; auto|]. split; [|split].
  - exact (proj1 (checkUrgency_matches_substrings "MR" "Pro" "stat" "e biopsy") H).
  - apply (proj1 (checkUrgency_matches_substrings "US" EmptyString "STAT" " abdomen")).
    vm_compute. auto.
  - exact (proj2 (checkUrgency_matches_substrings "CT" "Arrow" "head" " removal") eq_refl).
Defined.

(** ** What [processDicomFile] reads of its options *)

Lemma slice_after_eight (c1 c2 c3 c4 c5 c6 c7 c8 : ascii) (salt : string) :
  slice0 9 (String c1 (String c2 (String c3 (String c4 (String c5 (String c6
              (String c7 (String c8 EmptyString))))))) +:+ salt)
  = String c1 (String c2 (String c3 (String c4 (String c5 (String c6
              (String c7 (String c8 EmptyString))))))) +:+ slice0 1 salt.
Proof. unfold slice0. rewrite !append_cons, !append_nil_l. reflexivity. Qed.

(** The pseudonym of a value under the salt in effect. *)
Lemma generatePseudonym_text_in_effect (value : string) (o : ProcessingOptions) :
  generatePseudonym_text value (anonymize_salt o)
  = option_map (fun salt => "anon_" +:+ btoa (slice0 9 (value +:+ salt))) (saltInEffect o).
Proof.
  unfold generatePseudonym_text, saltInEffect.
  destruct (anonymize_salt o) as [units|].
  - destruct (binary units) as [s|]; [|reflexivity].
    cbn [option_map]. rewrite ProcessorFacts.generatePseudonym_prefix. reflexivity.
  - cbn [option_map]. rewrite ProcessorFacts.generatePseudonym_prefix. reflexivity.
Qed.

Lemma saltInEffect_binary (o : ProcessingOptions) :
  is_Some (saltInEffect o) <-> binarySalt o = true.
Proof.
  unfold saltInEffect, binarySalt. destruct (anonymize_salt o) as [units|].
  - rewrite <- ProcessorFacts.binary_isBinary.
    destruct (binary units); cbn [option_map]; split; intros [x Hx];
      try discriminate Hx; eexists; reflexivity.
  - split; [reflexivity | intros _; eexists; reflexivity].
Qed.

(** X15. Of its options [processDicomFile] reads the flag [anonymize] and,
    only when the flag is set, the salt: whether it is a binary string and,
    through the pseudonym of the patient name, the first character of the
    salt in effect. With the flag set and a binary salt the call succeeds,
    and the patient id in the output is the same constant for every such
    salt and every file. With the flag set and a salt that holds a code
    unit above 255 the call fails: the result has no metadata and carries
    the message of the exception. With the flag unset the salt is not read
    and the call succeeds. Two option records that agree on the flag and,
    when it is set, on whether the salt is binary and on the first character
    of the salt in effect give the same result for the same file, whatever
    their mode, tag list, other flags and the rest of their salts. *)
Theorem processDicomFile_reads_flag_and_first_salt_character (env : Env)
    (fileBuffer : list Byte.byte) (fileName : string) (o1 o2 : ProcessingOptions) :
  (anonymize o1 = true -> binarySalt o1 = true ->
   success (processDicomFile env fileBuffer fileName o1) = true /\
   patient_id <$> metadata (processDicomFile env fileBuffer fileName o1)
   = Some "anon_UEFUSUVOVF8w") /\
  (anonymize o1 = true -> binarySalt o1 = false ->
   processDicomFile env fileBuffer fileName o1
   = {| success := false; metadata := None; error := Some (thrownMessage env);
        file_path := fileName; processing_time := endTime env - startTime env |}) /\
  (anonymize o1 = false ->
   success (processDicomFile env fileBuffer fileName o1) = true /\
   patient_id <$> metadata (processDicomFile env fileBuffer fileName o1)
   = Some "PATIENT_001") /\
  (anonymize o1 = anonymize o2 ->
   (anonymize o1 = true ->
    slice0 1 <$> saltInEffect o1 = slice0 1 <$> saltInEffect o2) ->
   processDicomFile env fileBuffer fileName o1 = processDicomFile env fileBuffer fileName o2).
Proof.
  split; [|split; [|split]].
  - intros Hflag Hsalt.
    split; [rewrite ProcessorFacts.processDicomFile_success, Hsalt; apply orb_true_r|].
    apply saltInEffect_binary in Hsalt as [salt Hsalt].
    unfold processDicomFile. cbv zeta.
    rewrite Hflag, !generatePseudonym_text_in_effect, Hsalt. reflexivity.
  - intros Hflag Hsalt.
    apply ProcessorFacts.processDicomFile_caught.
    rewrite ProcessorFacts.processDicomFile_success, Hflag, Hsalt. reflexivity.
  - intros Hflag. unfold processDicomFile. cbv zeta. rewrite Hflag. split; reflexivity.
  - intros Hflag Hsalt. unfold processDicomFile. cbv zeta. rewrite <- Hflag.
    destruct (anonymize o1); [|reflexivity].
    specialize (Hsalt eq_refl). rewrite !generatePseudonym_text_in_effect.
    destruct (saltInEffect o1) as [salt1|], (saltInEffect o2) as [salt2|];
      cbn in Hsalt; try discriminate Hsalt; [|reflexivity].
    apply (inj Some) in Hsalt. cbn [option_map].
    rewrite !slice_after_eight, Hsalt. reflexivity.
Qed.

Lemma processDicomFile_reads_flag_and_first_salt_character_witness :
  let o1 := {| anonymize := true; anonymize_mode := pseudonymize;
               anonymize_tags := None; anonymize_salt := Some (codeUnits "site-A-secret");
               remove_private_tags := false; output_formats := ["json"] |} in
  let o2 := {| anonymize := true; anonymize_mode := remove;
               anonymize_tags := Some ["PatientName"]; anonymize_salt := Some (codeUnits "s");
               remove_private_tags := true; output_formats := [] |} in
  let o3 := {| anonymize := true; anonymize_mode := pseudonymize;
               anonymize_tags := None; anonymize_salt := Some [115; 8364]%N;
               remove_private_tags := false; output_formats := ["json"] |} in
  processDicomFile Samples.sample_env [] "head_ct.dcm" o1
  = processDicomFile Samples.sample_env [] "head_ct.dcm" o2 /\
  success (processDicomFile Samples.sample_env [] "head_ct.dcm" o2) = true /\
  success (processDicomFile Samples.sample_env [] "head_ct.dcm" o3) = false.
Proof.
  intros o1 o2 o3. split; [|split].
  - apply (proj2 (proj2 (proj2 (processDicomFile_reads_flag_and_first_salt_character
                                  Samples.sample_env [] "head_ct.dcm" o1 o2))));
      reflexivity.
  - apply (proj1 (processDicomFile_reads_flag_and_first_salt_character
                    Samples.sample_env [] "head_ct.dcm" o2 o2)); reflexivity.
  - rewrite (proj1 (proj2 (processDicomFile_reads_flag_and_first_salt_character
                             Samples.sample_env [] "head_ct.dcm" o3 o3)) eq_refl eq_refl).
    reflexivity.
Defined.

End NameFacts.

(** * Identifiers, batches and the two routes *)

Module UidFacts.
Import Js Processor JsFacts.

(** ** Decimal numerals hold no dot *)

Lemma no_dot_cons (c : ascii) (s : string) :
  c <> "."%char -> (forall a b, s <> a +:+ String "."%char b) ->
  forall a b, String c s <> a +:+ String "."%char b.
Proof.
  intros Hc Hs [|a0 a] b H.
  - rewrite append_nil_l in H. injection H as H _. exact (Hc H).
  - rewrite append_cons in H. injection H as _ H. exact (Hs a b H).
Qed.

Lemma no_dot_empty (a b : string) : EmptyString <> a +:+ String "."%char b.
Proof. destruct a; discriminate. Qed.

Lemma pretty_N_char_no_dot (x : N) : pretty_N_char x <> "."%char.
Proof. unfold pretty_N_char. repeat case_match; discriminate. Qed.

Lemma pretty_N_go_no_dot (x : N) : forall s,
  (forall a b, s <> a +:+ String "."%char b) ->
  forall a b, pretty_N_go x s <> a +:+ String "."%char b.
Proof.
  induction (N.lt_wf_0 x) as [x _ IH]; intros s Hs.
  assert (x = 0 \/ 0 < x)%N as [-> | Hpos] by lia.
  - rewrite pretty_N_go_0. exact Hs.
  - rewrite pretty_N_go_step by exact Hpos. apply IH.
    + apply N.div_lt; [exact Hpos | reflexivity].
    + apply no_dot_cons; [apply pretty_N_char_no_dot | exact Hs].
Qed.

Lemma pretty_N_no_dot (n : N) (a b : string) : pretty n <> a +:+ String "."%char b.
Proof.
  unfold pretty, pretty_N. destruct (decide (n = 0%N)).
  - apply no_dot_cons; [discriminate | apply no_dot_empty].
  - apply pretty_N_go_no_dot. apply no_dot_empty.
Qed.

Lemma pretty_Z_no_dot (z : Z) (a b : string) : pretty z <> a +:+ String "."%char b.
Proof.
  destruct z as [|p|p]; unfold pretty, pretty_Z.
  - apply no_dot_cons; [discriminate | apply no_dot_empty].
  - apply (pretty_N_no_dot (Npos p)).
  - apply no_dot_cons; [discriminate|]. apply (pretty_N_no_dot (Npos p)).
Qed.

Lemma split_at_first_dot (a : string) : forall a' b b',
  (forall x y, a <> x +:+ String "."%char y) -> (forall x y, a' <> x +:+ String "."%char y) ->
  a +:+ String "."%char b = a' +:+ String "."%char b' -> a = a' /\ b = b'.
Proof.
  induction a as [|c a IH]; intros [|c' a'] b b' Ha Ha' H.
  - rewrite !append_nil_l in H. injection H as H. split; [reflexivity | exact H].
  - rewrite append_nil_l, append_cons in H. injection H as Hc H. subst c'.
    destruct (Ha' EmptyString a' eq_refl).
  - rewrite append_nil_l, append_cons in H. injection H as Hc H. subst c.
    destruct (Ha EmptyString a eq_refl).
  - rewrite !append_cons in H. injection H as Hc H. subst c'.
    destruct (IH a' b b') as [-> ->]; [| |exact H|split; reflexivity].
    + intros x y E. apply (Ha (String c x) y). rewrite append_cons, E. reflexivity.
    + intros x y E. apply (Ha' (String c x) y). rewrite append_cons, E. reflexivity.
Qed.

(** X16. [generateUID] yields the same identifier for two readings of the
    clock and the random source only when both readings are the same: the
    clock value and the draw can be read back from the identifier. So the
    study UID and the series UID that [processDicomFile] puts in the record
    of one result coincide exactly when they were made at the same clock
    value with the same draw. *)
Theorem generateUID_equal_only_for_equal_readings (env : Env) (fileBuffer : list Byte.byte)
    (fileName : string) (options : ProcessingOptions) (now rnd now' rnd' : Z) :
  (generateUID now rnd = generateUID now' rnd' <-> now = now' /\ rnd = rnd') /\
  (forall m,
     metadata (processDicomFile env fileBuffer fileName options) = Some m ->
     (study_instance_uid m = series_instance_uid m
      <-> uidNow1 env = uidNow2 env /\ uidRnd1 env = uidRnd2 env)).
Proof.
  assert (Hinj : forall n r n' r',
            generateUID n r = generateUID n' r' <-> n = n' /\ r = r').
  { intros n r n' r'. split; [|intros [-> ->]; reflexivity].
    unfold generateUID. intros H.
    apply (inj (String.app "1.2.840.10008.")) in H.
    change ("." +:+ pretty r) with (String "."%char (pretty r)) in H.
    change ("." +:+ pretty r') with (String "."%char (pretty r')) in H.
    apply split_at_first_dot in H as [Hn Hr]; [|apply pretty_Z_no_dot..].
    split; apply (inj pretty); assumption. }
  split; [apply Hinj|].
  intros m Hm.
  apply ProcessorFacts.processDicomFile_record in Hm as (patientId & patientName & ->).
  cbn [study_instance_uid series_instance_uid]. apply Hinj.
Qed.

End UidFacts.

Module BatchFacts.
Import Processor Batch JsFacts.







End BatchFacts.

Module RoutesFacts.
Import Processor Routes JsFacts.

(** ** process *)

(** What the process route answers for a file with a valid name, once the
    options are parsed. *)
Lemma processRoute_parsed (env : Env) (upload : Upload) (optionsJson : OptionsField)
    (v : OptionsValue) :
  isDicomName (upload_name upload) = true ->
  parseOptions optionsJson = Some v ->
  processRoute env {| file := Some upload; options := optionsJson |}
  = if accepted v
    then {| status := 200;
            body := Processed
                      (metadata (processDicomFile_value env (upload_bytes upload)
                                   (upload_name upload) v))
                      (endTime env - startTime env)
                      (upload_name upload) (upload_size upload) |}
    else {| status := 500; body := ProcessError (Some (thrownMessage env)) |}.
Proof.
  intros H Hv. unfold processRoute. cbn [file options]. rewrite H, Hv. cbn [negb].
  rewrite ProcessorFacts.processDicomFile_value_success.
  destruct (accepted v) eqn:Hok; cbn [negb].
  - rewrite (proj2 (ProcessorFacts.processDicomFile_value_file_path _ _ _ _)). reflexivity.
  - rewrite (ProcessorFacts.processDicomFile_value_caught _ _ _ _ Hok). reflexivity.
Qed.



(** X19. The dashboard and the process route apply the same test to file
    names, and the options a job carries are those it was created with.
    So every request that [startJob] sends for a file of a job made by
    [handleFileUpload] passes the validation of the route and is never
    answered 400. It is answered 200, with the result of [processDicomFile]
    for that file under the options in force when the files were selected,
    unless these options ask for anonymization with a salt that holds a
    code unit above 255: then it is answered 500 with the message of the
    exception, for every file of the job. *)
Theorem uploaded_files_pass_the_route (jobId name : string)
    (files : list Dashboard.File) (options : ProcessingOptions) (s : Dashboard.State)
    (job : Dashboard.BatchJob.t) (g : Dashboard.BatchFile.t) (env : Env)
    (bytes : list Byte.byte) :
  Dashboard.jobs (JobCard.handleFileUpload jobId name files options s)
  = job :: Dashboard.jobs s ->
  In g (Dashboard.BatchJob.files job) ->
  processRoute env (requestFor job g bytes)
  = if negb (anonymize options) || binarySalt options
    then {| status := 200;
            body := Processed
                      (metadata (processDicomFile env bytes
                                   (Dashboard.file_name (Dashboard.BatchFile.file g)) options))
                      (endTime env - startTime env)
                      (Dashboard.file_name (Dashboard.BatchFile.file g))
                      (Dashboard.file_size (Dashboard.BatchFile.file g)) |}
    else {| status := 500; body := ProcessError (Some (thrownMessage env)) |}.
Proof.
  intros Hjobs Hg. unfold JobCard.handleFileUpload in Hjobs.
  assert (Hself : Dashboard.jobs s <> job :: Dashboard.jobs s).
  { intros E. apply (f_equal (@length _)) in E. cbn in E. lia. }
  destruct (0 <? length files)%nat; [|destruct (Hself Hjobs)].
  destruct (0 <? length (List.filter JobCard.isDicomFile files))%nat;
    [|destruct (Hself Hjobs)].
  cbn in Hjobs. injection Hjobs as <-. cbn in Hg.
  apply JobCardFacts.In_imap in Hg as (i & a & Ha & ->).
  apply List.filter_In in Ha as [_ Ha].
  unfold JobCard.isDicomFile in Ha.
  unfold requestFor.
  cbn [Dashboard.BatchFile.file Dashboard.BatchJob.processingOptions].
  rewrite (processRoute_parsed env
             {| upload_name := Dashboard.file_name a;
                upload_size := Dashboard.file_size a;
                upload_bytes := bytes |}
             (Json (Options options)) (Options options) Ha eq_refl).
  reflexivity.
Qed.

Lemma uploaded_files_pass_the_route_witness :
  let s := JobCard.handleFileUpload "J" "Batch Job"
             [ {| Dashboard.file_name := "notes.txt"; Dashboard.file_size := 20 |};
               {| Dashboard.file_name := "Head.DCM"; Dashboard.file_size := 10 |} ]
             Samples.options Dashboard.initial in
  let job := hd Samples.blank_job (Dashboard.jobs s) in
  let g := hd Samples.blank_file (Dashboard.BatchJob.files job) in
  Dashboard.jobs s = [job] /\ In g (Dashboard.BatchJob.files job) /\
  status (processRoute Samples.sample_env (requestFor job g [])) = 200.
Proof.
  intros s job g.
  assert (Hjobs : Dashboard.jobs s = job :: Dashboard.jobs Dashboard.initial) by reflexivity.
  assert (Hg : In g (Dashboard.BatchJob.files job)) by (left; reflexivity).
  split; [exact Hjobs|]. split; [exact Hg|].
  rewrite (uploaded_files_pass_the_route "J" "Batch Job" _ Samples.options
             Dashboard.initial job g Samples.sample_env [] Hjobs Hg).
  reflexivity.
Defined.

(** ** batch *)







End RoutesFacts.

(** * From the upload to the processed files *)

Module PipelineFacts.
Import Dashboard Invariant Course JsFacts DashboardFacts DashboardRuns CompletionFacts.

(** ** One request ends *)

Lemma loopFrom_some jobId job q i now s f :
  q !! i = Some f -> aborted s = false ->
  loopFrom jobId job q i now s
  = ({| jobs := onJob jobId (onFiles (hasId (BatchFile.id f)) (fileProcessing now)) (jobs s);
        activeJobId := activeJobId s;
        controllers := controllers s;
        processingController := processingController s;
        intervals := intervals s ++ [(nextInterval s, (jobId, BatchFile.id f))];
        nextInterval := S (nextInterval s) |},
     Some {| jobId := jobId; job := job; queuedFiles := q; i := i; file := f;
             awaiting := AwaitFetch; signal := processingController s;
             progressInterval := nextInterval s |}).
Proof. intros Hq Hab. unfold loopFrom. rewrite Hq, Hab. reflexivity. Qed.

Lemma loopFrom_none jobId job q i now s :
  q !! i = None -> loopFrom jobId job q i now s = (finishJob jobId now s, None).
Proof. intros Hq. unfold loopFrom. rewrite Hq. reflexivity. Qed.

Lemma outcome_run (o : Outcome) (now : Z) (t : Task) (s : State) :
  awaiting t = AwaitFetch ->
  run (map (fun x => Settle 0 x now) (settlements o)) {| state := s; tasks := [t] |}
  = {| state := fst (afterFile t now
                       (setJobs (onJob (jobId t)
                          (onFiles (hasId (BatchFile.id (file t))) (settle_with o)))
                          (replied o t s)));
       tasks := option_list (snd (afterFile t now
                       (setJobs (onJob (jobId t)
                          (onFiles (hasId (BatchFile.id (file t))) (settle_with o)))
                          (replied o t s)))) |}.
Proof.
  intros Haw.
  destruct o as [result | error | | [|]];
    cbn [settlements map run fold_left step tasks state lookup list_lookup
         settle_with replied];
    unfold resume; rewrite ?Haw;
    cbn [awaitNext awaiting insert list_insert lookup list_lookup tasks state];
    unfold afterFile, catchBlock; cbv zeta;
    cbn [awaitNext jobId job queuedFiles i file];
    match goal with
    | |- context [loopFrom ?a ?b ?c ?d ?e ?f] => destruct (loopFrom a b c d e f) as [s' [t'|]]
    end; reflexivity.
Qed.

(** ** The files, position by position *)

Lemma lookup_updated (cond : BatchFile.t -> bool) (g : BatchFile.t -> BatchFile.t)
    (files : list BatchFile.t) (n : nat) :
  map (fun f => if cond f then g f else f) files !! n
  = (fun f => if cond f then g f else f) <$> files !! n.
Proof. apply list_lookup_fmap. Qed.

Section Queue.

Variable q : list BatchFile.t.
Hypothesis distinct_ids : forall n m f g,
  q !! n = Some f -> q !! m = Some g -> BatchFile.id f = BatchFile.id g -> n = m.

Lemma same_id_in_between os i files' n f0 f' :
  between q os i files' -> q !! n = Some f0 -> files' !! n = Some f' ->
  BatchFile.id f' = BatchFile.id f0.
Proof.
  intros [_ H] Hn Hf'. destruct (H n f0 f' Hn Hf') as [Hlt Hge].
  destruct (lt_dec n i) as [Hn_i | Hn_i].
  - destruct (Hlt Hn_i) as (o & _ & Hid & _). exact Hid.
  - rewrite (Hge ltac:(lia)). reflexivity.
Qed.

Lemma same_id_during os i files' n f0 f' :
  during q os i files' -> q !! n = Some f0 -> files' !! n = Some f' ->
  BatchFile.id f' = BatchFile.id f0.
Proof.
  intros [_ H] Hn Hf'. destruct (H n f0 f' Hn Hf') as (Hlt & Heq & Hgt).
  destruct (lt_eq_lt_dec n i) as [[Hn_i | Hn_i] | Hn_i].
  - destruct (Hlt Hn_i) as (o & _ & Hid & _). exact Hid.
  - exact (proj1 (Heq Hn_i)).
  - rewrite (Hgt Hn_i). reflexivity.
Qed.

Lemma mark_during os i now files' f :
  q !! i = Some f -> between q os i files' ->
  during q os i
    (map (fun x => if hasId (BatchFile.id f) x then fileProcessing now x else x) files').
Proof.
  intros Hq Hb. pose proof Hb as [Hlen H].
  split; [rewrite List.length_map; exact Hlen|].
  intros n f0 f'' Hn Hf''. rewrite lookup_updated in Hf''.
  destruct (files' !! n) as [f'|] eqn:Hf'; [|discriminate Hf''].
  cbn in Hf''. injection Hf'' as <-.
  pose proof (same_id_in_between os i files' n f0 f' Hb Hn Hf') as Hid.
  destruct (H n f0 f' Hn Hf') as [Hlt Hge]. unfold hasId. rewrite Hid.
  destruct (String.eqb (BatchFile.id f0) (BatchFile.id f)) eqn:E.
  - apply String.eqb_eq in E. pose proof (distinct_ids n i f0 f Hn Hq E) as ->.
    rewrite (Hge ltac:(lia)).
    split; [lia|]. split; [|lia]. intros _. repeat split.
  - split; [exact Hlt|]. split; [|intros Hgt; apply Hge; lia].
    intros ->. rewrite Hq in Hn. injection Hn as ->.
    rewrite JobCardFacts.eqb_string_refl in E. discriminate E.
Qed.

Lemma settle_between os i o files' f :
  q !! i = Some f -> os !! i = Some o -> during q os i files' ->
  between q os (S i)
    (map (fun x => if hasId (BatchFile.id f) x then settle_with (fst o) x else x) files').
Proof.
  intros Hq Ho Hd. pose proof Hd as [Hlen H].
  split; [rewrite List.length_map; exact Hlen|].
  intros n f0 f'' Hn Hf''. rewrite lookup_updated in Hf''.
  destruct (files' !! n) as [f'|] eqn:Hf'; [|discriminate Hf''].
  cbn in Hf''. injection Hf'' as <-.
  pose proof (same_id_during os i files' n f0 f' Hd Hn Hf') as Hid.
  destruct (H n f0 f' Hn Hf') as (Hlt & Heq & Hgt). unfold hasId. rewrite Hid.
  destruct (String.eqb (BatchFile.id f0) (BatchFile.id f)) eqn:E.
  - apply String.eqb_eq in E. pose proof (distinct_ids n i f0 f Hn Hq E) as ->.
    destruct (Heq eq_refl) as (Hid' & Hfile & _).
    split; [|lia]. intros _. exists o. split; [exact Ho|].
    unfold settled_by. destruct (fst o); cbn; repeat split; assumption.
  - assert (Hne : n <> i).
    { intros ->. rewrite Hq in Hn. injection Hn as ->.
      rewrite JobCardFacts.eqb_string_refl in E. discriminate E. }
    split; [intros Hn_i; apply Hlt; lia | intros Hn_i; apply Hgt; lia].
Qed.

(** ** The loop, with the files followed *)

Lemma outcomes_loop (jobId : string) (os : list (Outcome * Z)) :
  length os = length q ->
  forall k i s t j,
    length q = i + k ->
    Dashboard.jobId t = jobId -> queuedFiles t = q -> Dashboard.i t = i ->
    q !! i = Some (file t) -> awaiting t = AwaitFetch ->
    aborted s = false -> findJob jobId s = Some j -> during q os i (BatchJob.files j) ->
    let sys' := run (answers (drop i os)) {| state := s; tasks := [t] |} in
    tasks sys' = [] /\ activeJobId (state sys') = None /\
    exists j',
      findJob jobId (state sys') = Some j' /\
      BatchJob.status j' = JobStatus.completed /\ BatchJob.progress j' = 100%Z /\
      between q os (length q) (BatchJob.files j').
Proof.
  intros Hlen. induction k as [|k IH]; intros i s t j Hk Hjid Hqt Hi Hfile Haw Hab Hfind Hd.
  - exfalso. apply lookup_lt_Some in Hfile. lia.
  - assert (Hlt : i < length os) by lia.
    destruct (lookup_lt_is_Some_2 os i Hlt) as [[o now] Ho].
    rewrite (drop_S os (o, now) i Ho).
    unfold answers. cbn [flat_map fst snd]. unfold run. rewrite fold_left_app.
    fold (run (map (fun x => Settle 0 x now) (settlements o)) {| state := s; tasks := [t] |}).
    rewrite (outcome_run o now t s Haw).
    match goal with
    | |- context [fold_left _ ?rest ?mid] =>
        change (fold_left _ rest mid) with (run (answers (drop (S i) os)) mid)
    end.
    unfold afterFile. cbv zeta. rewrite Hjid, Hqt, Hi.
    set (s2 := setJobs (onJob jobId (jobWithProgress _))
                 (setJobs (onJob jobId (onFiles (hasId (BatchFile.id (file t)))
                                          (settle_with o))) (replied o t s))).
    assert (Hab2 : aborted s2 = false) by (destruct o; exact Hab).
    assert (Hfind2 : findJob jobId s2
              = Some (jobWithProgress
                        (jobProgressOf
                           (length (List.filter isSettled (BatchJob.files (job t))))
                           (length (BatchJob.files (job t))))
                        (onFiles (hasId (BatchFile.id (file t))) (settle_with o) j))).
    { apply findJob_setJobs; [intros ?; reflexivity|].
      apply findJob_setJobs; [intros ?; reflexivity|]. destruct o; exact Hfind. }
    pose proof (settle_between os i (o, now) (BatchJob.files j) (file t) Hfile Ho Hd) as Hb.
    cbn [fst] in Hb.
    destruct (q !! S i) as [f1|] eqn:Hnext.
    + rewrite (loopFrom_some jobId (job t) q (S i) now s2 f1 Hnext Hab2). cbn [fst snd option_list].
      eapply (IH (S i)); try reflexivity.
      * lia.
      * exact Hnext.
      * exact Hab2.
      * apply findJob_setJobs; [intros ?; reflexivity | exact Hfind2].
      * apply (mark_during os (S i) now _ f1 Hnext). exact Hb.
    + rewrite (loopFrom_none jobId (job t) q (S i) now s2 Hnext). cbn [fst snd option_list].
      apply lookup_ge_None in Hnext.
      rewrite drop_ge by lia. cbn [answers flat_map run fold_left tasks state].
      split; [reflexivity|]. split; [reflexivity|].
      eexists. split; [apply findJob_setJobs; [intros ?; reflexivity | exact Hfind2]|].
      split; [reflexivity|]. split; [reflexivity|].
      replace (length q) with (S i) by lia. exact Hb.
Qed.

End Queue.

Lemma filter_all_pending (files : list BatchFile.t) :
  (forall f, In f files -> isQueuedOrPaused f = true) ->
  List.filter isQueuedOrPaused files = files.
Proof.
  intros H. induction files as [|f files IH]; [reflexivity|].
  cbn [List.filter]. rewrite (H f (or_introl eq_refl)). f_equal.
  apply IH. intros g Hg. apply H. right. exact Hg.
Qed.

(** A job all of whose files are queued or paused, with pairwise different
    ids, is started and every request ends: each file ends as its own
    request ended. *)
Lemma pending_job_outcomes (sys : System) (jobId : string) (j : BatchJob.t) (now : Z)
    (outcomes : list (Outcome * Z)) :
  tasks sys = [] -> findJob jobId (state sys) = Some j ->
  BatchJob.status j <> JobStatus.running ->
  (forall f, In f (BatchJob.files j) -> isQueuedOrPaused f = true) ->
  NoDup (map BatchFile.id (BatchJob.files j)) ->
  length outcomes = length (BatchJob.files j) ->
  let sys' := run (Start jobId now :: answers outcomes) sys in
  tasks sys' = [] /\ activeJobId (state sys') = None /\
  exists j',
    findJob jobId (state sys') = Some j' /\
    BatchJob.status j' = JobStatus.completed /\ BatchJob.progress j' = 100%Z /\
    between (BatchJob.files j) outcomes (length (BatchJob.files j)) (BatchJob.files j').
Proof.
  intros Hts Hfind Hst Hpending Hnodup Hlen sys'. subst sys'.
  assert (Hids : forall n m f g,
            BatchJob.files j !! n = Some f -> BatchJob.files j !! m = Some g ->
            BatchFile.id f = BatchFile.id g -> n = m).
  { intros n m f g Hn Hm E.
    apply (NoDup_lookup (map BatchFile.id (BatchJob.files j)) n m (BatchFile.id f) Hnodup).
    - change (map BatchFile.id (BatchJob.files j)) with (BatchFile.id <$> BatchJob.files j).
      rewrite list_lookup_fmap, Hn. reflexivity.
    - change (map BatchFile.id (BatchJob.files j)) with (BatchFile.id <$> BatchJob.files j).
      rewrite list_lookup_fmap, Hm, E. reflexivity. }
  change (run (Start jobId now :: answers outcomes) sys)
    with (run (answers outcomes) (step (Start jobId now) sys)).
  unfold step, startJob. pose proof Hfind as Hfind'. unfold findJob in Hfind'. rewrite Hfind'.
  destruct (JobStatus.eqb (BatchJob.status j) JobStatus.running) eqn:E.
  { exfalso. apply Hst. destruct (BatchJob.status j); try discriminate E; reflexivity. }
  rewrite (filter_all_pending _ Hpending), Hts. cbn [app].
  set (s1 := setJobs (onJob jobId (jobRunning now)) _).
  assert (Hab : aborted s1 = false).
  { unfold aborted. cbn. rewrite lookup_app_r by lia. rewrite Nat.sub_diag. reflexivity. }
  assert (Hfind1 : findJob jobId s1 = Some (jobRunning now j))
    by (apply (findJob_setJobs jobId (jobRunning now)); [intros ?; reflexivity | exact Hfind]).
  assert (Hb : between (BatchJob.files j) outcomes 0 (BatchJob.files j)).
  { split; [reflexivity|]. intros n f0 f' Hn Hf'. split; [lia|].
    intros _. rewrite Hn in Hf'. injection Hf' as ->. reflexivity. }
  destruct (BatchJob.files j !! 0) as [f0|] eqn:Hhead.
  - rewrite (loopFrom_some jobId j _ 0 now s1 f0 Hhead Hab). cbn [option_list].
    rewrite <- (drop_0 outcomes).
    eapply (outcomes_loop (BatchJob.files j) Hids jobId outcomes Hlen
              (length (BatchJob.files j)) 0); try reflexivity.
    + exact Hhead.
    + exact Hab.
    + apply findJob_setJobs; [intros ?; reflexivity | exact Hfind1].
    + apply (mark_during (BatchJob.files j) Hids outcomes 0 now _ f0 Hhead). exact Hb.
  - rewrite (loopFrom_none jobId j _ 0 now s1 Hhead). cbn [option_list].
    apply lookup_ge_None in Hhead.
    destruct outcomes as [|? ?]; [|cbn in Hlen; lia].
    cbn [answers flat_map run fold_left tasks state].
    split; [reflexivity|]. split; [reflexivity|].
    eexists. split; [apply findJob_setJobs; [intros ?; reflexivity | exact Hfind1]|].
    split; [reflexivity|]. split; [reflexivity|].
    replace (length (BatchJob.files j)) with 0 by lia. exact Hb.
Qed.

(** X22. Each file ends as its own request ended. Start a job that is not
    running, all of whose files are queued or paused and carry pairwise
    different ids, from a state with no suspended call, and let the requests
    end as a list of outcomes tells, one per file in order. Then the job is
    found completed with as many files as before, and the file at each
    position is the file that was there, settled by the outcome at the same
    position: completed at 100 with the metadata and processing time of its
    reply after a success; in error at 0 with the error text of the reply
    (or "Processing failed") after an error reply; in error at 0 with
    "Network error" when the request was rejected or the body could not be
    read. No file takes the result of another file's request. *)
Theorem every_file_ends_as_its_request_ended (sys : System) (jobId : string)
    (j : BatchJob.t) (now : Z) (outcomes : list (Outcome * Z)) (n : nat)
    (f0 : BatchFile.t) (o : Outcome * Z) :
  tasks sys = [] -> findJob jobId (state sys) = Some j ->
  BatchJob.status j <> JobStatus.running ->
  (forall f, In f (BatchJob.files j) -> isQueuedOrPaused f = true) ->
  NoDup (map BatchFile.id (BatchJob.files j)) ->
  length outcomes = length (BatchJob.files j) ->
  BatchJob.files j !! n = Some f0 -> outcomes !! n = Some o ->
  exists j' f',
    findJob jobId (state (run (Start jobId now :: answers outcomes) sys)) = Some j' /\
    BatchJob.status j' = JobStatus.completed /\
    length (BatchJob.files j') = length (BatchJob.files j) /\
    BatchJob.files j' !! n = Some f' /\
    settled_by (fst o) f0 f'.
Proof.
  intros Hts Hfind Hst Hpending Hnodup Hlen Hn Ho.
  destruct (pending_job_outcomes sys jobId j now outcomes Hts Hfind Hst Hpending Hnodup Hlen)
    as (_ & _ & j' & Hfind' & Hdone & _ & Hlen' & H).
  assert (Hlt : n < length (BatchJob.files j')).
  { rewrite Hlen'. eapply lookup_lt_Some. exact Hn. }
  destruct (lookup_lt_is_Some_2 _ _ Hlt) as [f' Hf'].
  exists j', f'. split; [exact Hfind'|]. split; [exact Hdone|]. split; [exact Hlen'|].
  split; [exact Hf'|].
  destruct (H n f0 f' Hn Hf') as [Hsettled _].
  destruct (Hsettled ltac:(eapply lookup_lt_Some; exact Hn)) as (o' & Ho' & Hs).
  rewrite Ho in Ho'. injection Ho' as <-. exact Hs.
Qed.

Lemma every_file_ends_as_its_request_ended_witness :
  let sys := run [Create "J" "Batch Job"
                    [Samples.dcm "a.dcm"; Samples.dcm "b.dcm"; Samples.dcm "c.dcm"]
                    Samples.options] boot in
  let outcomes :=
    [(Succeeds Samples.reply, 20%Z); (Fails (Some "Disk full"), 30%Z); (Unreachable, 40%Z)] in
  let j := hd Samples.blank_job (jobs (state sys)) in
  exists j' f',
    findJob "J" (state (run (Start "J" 10 :: answers outcomes) sys)) = Some j' /\
    BatchJob.files j' !! 1 = Some f' /\
    BatchFile.file f' = Samples.dcm "b.dcm" /\
    BatchFile.status f' = FileStatus.error /\ BatchFile.error f' = Some "Disk full".
Proof.
  intros sys outcomes j.
  destruct (every_file_ends_as_its_request_ended sys "J" j 10 outcomes 1
              (hd Samples.blank_file (tl (BatchJob.files j))) (Fails (Some "Disk full"), 30%Z))
    as (j' & f' & Hfind & _ & _ & Hf' & _ & Hfile & Hstatus & _ & Herror).
  - reflexivity.
  - vm_compute. reflexivity.
  - vm_compute. discriminate.
  - intros f Hf. vm_compute in Hf. destruct Hf as [<- | [<- | [<- | []]]]; reflexivity.
  - apply SequenceFacts.ids_NoDup.
    apply (CourseFacts.run_stable _
             [Create "J" "Batch Job"
                [Samples.dcm "a.dcm"; Samples.dcm "b.dcm"; Samples.dcm "c.dcm"]
                Samples.options]
             CourseFacts.ids_as_created_stable).
    left. reflexivity.
  - reflexivity.
  - vm_compute. reflexivity.
  - reflexivity.
  - exists j', f'. split; [exact Hfind|]. split; [exact Hf'|].
    split; [exact Hfile|]. split; [exact Hstatus | exact Herror].
Defined.

(** ** The upload, the dashboard and the route together *)

Lemma served_dicom (env : Processor.Env) (job : BatchJob.t) (f : BatchFile.t)
    (bytes : list Byte.byte) :
  JobCard.isDicomFile (BatchFile.file f) = true ->
  served env job f bytes
  = if negb (Processor.anonymize (BatchJob.processingOptions job))
       || Processor.binarySalt (BatchJob.processingOptions job)
    then Succeeds
           {| reply_metadata :=
                Processor.metadata
                  (Processor.processDicomFile env bytes (file_name (BatchFile.file f))
                     (BatchJob.processingOptions job));
              reply_processing_time :=
                Some (Processor.endTime env - Processor.startTime env)%Z |}
    else Fails (Some (Processor.thrownMessage env)).
Proof.
  intros H. unfold JobCard.isDicomFile in H. unfold served, Routes.requestFor.
  rewrite (RoutesFacts.processRoute_parsed env
             {| Routes.upload_name := file_name (BatchFile.file f);
                Routes.upload_size := file_size (BatchFile.file f);
                Routes.upload_bytes := bytes |}
             (Routes.Json (Processor.Options (BatchJob.processingOptions job)))
             (Processor.Options (BatchJob.processingOptions job)) H eq_refl).
  cbn [Processor.accepted].
  destruct (negb _ || _); reflexivity.
Qed.

Lemma handleFileUpload_created (jobId name : string) (selected : list File)
    (options : Processor.ProcessingOptions) (s : State) :
  List.filter JobCard.isDicomFile selected <> [] ->
  JobCard.handleFileUpload jobId name selected options s
  = createNewJob jobId name (List.filter JobCard.isDicomFile selected) options s.
Proof.
  intros H. unfold JobCard.handleFileUpload.
  destruct selected as [|a selected]; [destruct (H eq_refl)|].
  cbn [length Nat.ltb Nat.leb].
  destruct (List.filter JobCard.isDicomFile (a :: selected)); [destruct (H eq_refl)|].
  reflexivity.
Qed.

(** X23. From the upload to the processed files. Files are selected, a job
    is made of them by [handleFileUpload], the job is started, and every
    request is answered by the process route. Then the call returns with
    the job completed, and the job has one file for each selected file whose
    name ends in .dcm, in their order. Unless the options in force at the
    upload ask for anonymization with a salt that holds a code unit above
    255, the file at each position is completed at 100 and carries the
    metadata and the processing time that [processDicomFile] computes for
    the bytes and the name of the file at that position under these
    options. With such a salt every request is answered 500, and the file
    at each position ends in error at 0, with the message of the exception
    as its error text ("Processing failed" when that message is empty). *)
Theorem uploaded_batch_is_processed_file_by_file (sys : System) (jobId name : string)
    (selected : list File) (options : Processor.ProcessingOptions) (now : Z)
    (env : nat -> Processor.Env) (bytes : nat -> list Byte.byte) (times : nat -> Z)
    (n : nat) (a : File) :
  tasks sys = [] ->
  List.filter JobCard.isDicomFile selected !! n = Some a ->
  let sys1 := {| state := JobCard.handleFileUpload jobId name selected options (state sys);
                 tasks := tasks sys |} in
  exists job,
    findJob jobId (state sys1) = Some job /\
    let outcomes :=
      imap (fun k f => (served (env k) job f (bytes k), times k)) (BatchJob.files job) in
    let sys' := run (Start jobId now :: answers outcomes) sys1 in
    tasks sys' = [] /\ activeJobId (state sys') = None /\
    exists j' f',
      findJob jobId (state sys') = Some j' /\
      BatchJob.status j' = JobStatus.completed /\
      length (BatchJob.files j') = length (List.filter JobCard.isDicomFile selected) /\
      BatchJob.files j' !! n = Some f' /\
      BatchFile.file f' = a /\
      if negb (Processor.anonymize options) || Processor.binarySalt options
      then
        BatchFile.status f' = FileStatus.completed /\ BatchFile.progress f' = 100%Z /\
        is_Some (BatchFile.metadata f') /\
        BatchFile.metadata f'
        = Processor.metadata
            (Processor.processDicomFile (env n) (bytes n) (file_name a) options) /\
        BatchFile.processingTime f'
        = Some (Processor.endTime (env n) - Processor.startTime (env n))%Z
      else
        BatchFile.status f' = FileStatus.error /\ BatchFile.progress f' = 0%Z /\
        BatchFile.error f'
        = Some (Js.or_default (Some (Processor.thrownMessage (env n))) "Processing failed").
Proof.
  intros Hts Ha sys1. subst sys1.
  assert (Hvalid : List.filter JobCard.isDicomFile selected <> []).
  { intros E. rewrite E in Ha. discriminate Ha. }
  assert (Hdcm : JobCard.isDicomFile a = true).
  { apply list_elem_of_lookup_2, list_elem_of_In, List.filter_In in Ha. exact (proj2 Ha). }
  rewrite (handleFileUpload_created jobId name selected options (state sys) Hvalid).
  set (valid := List.filter JobCard.isDicomFile selected) in *.
  unfold createNewJob, setJobs. cbv beta zeta. cbn [state].
  match goal with
  | |- context [?job :: jobs (state sys)] => set (j := job)
  end.
  exists j.
  assert (Hfind : findJob jobId {| jobs := j :: jobs (state sys);
                                   activeJobId := activeJobId (state sys);
                                   controllers := controllers (state sys);
                                   processingController := processingController (state sys);
                                   intervals := intervals (state sys);
                                   nextInterval := nextInterval (state sys) |} = Some j).
  { unfold findJob. cbn [jobs List.find]. subst j. cbn [BatchJob.id].
    rewrite JobCardFacts.eqb_string_refl. reflexivity. }
  split; [exact Hfind|]. cbv zeta.
  set (outcomes := imap _ (BatchJob.files j)).
  assert (Hlen : length outcomes = length (BatchJob.files j)) by apply length_imap.
  assert (Hids : ids_as_created j).
  { apply (proj1 CourseFacts.ids_as_created_stable jobId name valid options (state sys)).
    reflexivity. }
  assert (Hpending : forall f, In f (BatchJob.files j) -> isQueuedOrPaused f = true).
  { intros f Hf. subst j. cbn [BatchJob.files] in Hf.
    apply JobCardFacts.In_imap in Hf as (k & x & _ & ->). reflexivity. }
  match goal with
  | |- context [run _ ?sys1] =>
      destruct (pending_job_outcomes sys1 jobId j now outcomes Hts Hfind
                  ltac:(subst j; discriminate) Hpending (SequenceFacts.ids_NoDup j Hids) Hlen)
        as (Hts' & Hact & j' & Hfind' & Hdone & _ & Hlen' & H)
  end.
  split; [exact Hts'|]. split; [exact Hact|].
  assert (Hfiles : length (BatchJob.files j) = length valid)
    by (subst j; cbn [BatchJob.files]; apply length_imap).
  assert (Hn : n < length valid) by (eapply lookup_lt_Some; exact Ha).
  destruct (lookup_lt_is_Some_2 (BatchJob.files j') n ltac:(lia)) as [f' Hf'].
  destruct (lookup_lt_is_Some_2 (BatchJob.files j) n ltac:(lia)) as [g Hg].
  assert (Hga : BatchFile.file g = a /\ BatchJob.processingOptions j = options).
  { subst j. cbn [BatchJob.files BatchJob.processingOptions] in *.
    rewrite list_lookup_imap, Ha in Hg. cbn in Hg. injection Hg as <-. split; reflexivity. }
  destruct Hga as [Hga Hopt].
  exists j', f'. split; [exact Hfind'|]. split; [exact Hdone|].
  split; [lia|]. split; [exact Hf'|].
  destruct (H n g f' Hg Hf') as [Hsettled _].
  destruct (Hsettled ltac:(lia)) as (o & Ho & Hs).
  subst outcomes. rewrite list_lookup_imap, Hg in Ho. cbn in Ho. injection Ho as <-.
  cbn [fst] in Hs. rewrite served_dicom in Hs by (rewrite Hga; exact Hdcm).
  rewrite Hga, Hopt in Hs.
  destruct Hs as (_ & Hfile & Hs).
  split; [rewrite Hfile; exact Hga|].
  destruct (negb (Processor.anonymize options) || Processor.binarySalt options) eqn:Hacc.
  - destruct Hs as (Hstatus & Hprogress & Hmeta & Htime).
    cbn [reply_metadata reply_processing_time] in Hmeta, Htime.
    split; [exact Hstatus|]. split; [exact Hprogress|].
    split; [|split; [exact Hmeta | exact Htime]].
    rewrite Hmeta. apply ProcessorFacts.processDicomFile_metadata_iff.
    rewrite ProcessorFacts.processDicomFile_success. exact Hacc.
  - exact Hs.
Qed.

Lemma uploaded_batch_is_processed_file_by_file_witness :
  let selected :=
    [ {| file_name := "notes.txt"; file_size := 20 |};
      {| file_name := "Head_CT.DCM"; file_size := 10 |};
      {| file_name := "knee_mr.dcm"; file_size := 30 |} ] in
  let wide :=
    {| Processor.anonymize := true;
       Processor.anonymize_mode := Processor.pseudonymize;
       Processor.anonymize_tags := None;
       Processor.anonymize_salt := Some [115; 8364]%N;
       Processor.remove_private_tags := false;
       Processor.output_formats := ["json"] |} in
  List.filter JobCard.isDicomFile selected !! 1
  = Some {| file_name := "knee_mr.dcm"; file_size := 30 |} /\
  (let sys1 := {| state := JobCard.handleFileUpload "J" "Batch Job" selected Samples.options
                             (state boot);
                  tasks := tasks boot |} in
   exists job,
     findJob "J" (state sys1) = Some job /\
     let outcomes :=
       imap (fun k f => (served Samples.sample_env job f [], 100%Z)) (BatchJob.files job) in
     exists j' f',
       findJob "J" (state (run (Start "J" 10 :: answers outcomes) sys1)) = Some j' /\
       BatchJob.files j' !! 1 = Some f' /\
       BatchFile.status f' = FileStatus.completed /\
       Processor.modality <$> BatchFile.metadata f' = Some "MR") /\
  (let sys1 := {| state := JobCard.handleFileUpload "J" "Batch Job" selected wide
                             (state boot);
                  tasks := tasks boot |} in
   exists job,
     findJob "J" (state sys1) = Some job /\
     let outcomes :=
       imap (fun k f => (served Samples.sample_env job f [], 100%Z)) (BatchJob.files job) in
     exists j' f',
       findJob "J" (state (run (Start "J" 10 :: answers outcomes) sys1)) = Some j' /\
       BatchJob.files j' !! 1 = Some f' /\
       BatchFile.status f' = FileStatus.error /\
       BatchFile.error f' = Some "Invalid character").
Proof.
  intros selected wide.
  assert (Ha : List.filter JobCard.isDicomFile selected !! 1
               = Some {| file_name := "knee_mr.dcm"; file_size := 30 |}) by reflexivity.
  split; [exact Ha|]. split.
  - intros sys1.
    destruct (uploaded_batch_is_processed_file_by_file boot "J" "Batch Job" selected
                Samples.options 10 (fun _ => Samples.sample_env) (fun _ => [])
                (fun _ => 100%Z) 1 _ eq_refl Ha)
      as (job & Hjob & _ & _ & j' & f' & Hfind & _ & _ & Hf' & _ & Hstatus & _ & _ & Hmeta & _).
    exists job. split; [exact Hjob|]. intros outcomes.
    exists j', f'. split; [exact Hfind|]. split; [exact Hf'|]. split; [exact Hstatus|].
    rewrite Hmeta. reflexivity.
  - intros sys1.
    destruct (uploaded_batch_is_processed_file_by_file boot "J" "Batch Job" selected
                wide 10 (fun _ => Samples.sample_env) (fun _ => [])
                (fun _ => 100%Z) 1 _ eq_refl Ha)
      as (job & Hjob & _ & _ & j' & f' & Hfind & _ & _ & Hf' & _ & Hstatus & _ & Herror).
    exists job. split; [exact Hjob|]. intros outcomes.
    exists j', f'. split; [exact Hfind|]. split; [exact Hf'|]. split; [exact Hstatus|].
    exact Herror.
Defined.

End PipelineFacts.
